(** * mcp_seo: provider clients, tool envelopes and the chat-bot session registry

    A shallow embedding of
      - [src/topvisor.py]        (class [TopvisorAPI]),
      - [src/logic/ahrefs.py]    (class [AhrefsAPI]),
      - [src/tools/topvisor.py], [src/tools/ahrefs.py] (the tool functions
        registered by [src/seo.py]),
      - [src/research_server.py] (the tool functions that differ from the
        ones under [src/tools/]),
      - [src/mcp_chatbot.py]     (the session registry of [MCP_ChatBot],
        its chat loop, [execute_prompt] and [process_query]).

    Conventions of the embedding.
      - A Python value that travels through the code is a [json] value:
        [None], [bool], [int], [str], [list] and [dict].  Numbers are
        integers ([Z]); fractional numbers never take part in a decision
        of the code and are left out.
      - A [str] is a [string] whose characters are the code points 0..255.
      - [int] on a [str] keeps the interpreter's default limit of 4300
        digits, which nothing in the repository changes.
      - A [dict] is an association list in insertion order with unique keys,
        which is the iteration order of a Python dict.
      - Python code runs in the monad [M]: it reads the process
        environment and the network from a [World], appends every HTTP
        request it sends to a log, and either returns or raises.
      - The [print] calls of the clients and the tools are debugging
        output and are not modelled; what the chat loop prints is.
      - A tool returns [json.dumps(envelope)]; the embedding returns the
        envelope itself. *)

From Stdlib Require Import String Ascii ZArith List Bool Lia DecimalString.
Import ListNotations.
Local Open Scope string_scope.
Local Open Scope Z_scope.
Set Warnings "-register-all".

(* ===================================================================== *)
(** * Python values and built-ins *)
(* ===================================================================== *)

Module Py.

Inductive json : Type :=
| JNull
| JBool (b : bool)
| JNum (n : Z)
| JStr (s : string)
| JArr (l : list json)
| JObj (kv : list (string * json)).

(** The exception classes the code can meet.  [ConnectionError] is
    [requests.ConnectionError] with its subclasses; [OtherError] is any
    other exception class, by name. *)
Inductive exn_class : Type :=
| ValueError | KeyError | TypeError | AttributeError | IndexError
| ConnectionError
| OtherError (name : string).

Record exn : Type := mkExn { exn_type : exn_class; exn_msg : string }.

Inductive result (A : Type) : Type :=
| Ok (a : A)
| Raise (e : exn).
Arguments Ok {A} a.
Arguments Raise {A} e.

Definition rbind {A B} (r : result A) (k : A -> result B) : result B :=
  match r with
  | Ok a => k a
  | Raise e => Raise e
  end.

Fixpoint rmap {A B} (f : A -> result B) (l : list A) : result (list B) :=
  match l with
  | [] => Ok []
  | x :: l' =>
      rbind (f x) (fun y => rbind (rmap f l') (fun ys => Ok (y :: ys)))
  end.

(** ** Dictionaries in insertion order *)

Section Dict.
Context {V : Type}.

Fixpoint dict_get (d : list (string * V)) (k : string) : option V :=
  match d with
  | [] => None
  | (k', v) :: d' => if String.eqb k' k then Some v else dict_get d' k
  end.

(** [d[k] = v]: an existing key keeps its place, a new key goes last. *)
Fixpoint dict_set (d : list (string * V)) (k : string) (v : V)
  : list (string * V) :=
  match d with
  | [] => [(k, v)]
  | (k', v') :: d' =>
      if String.eqb k' k then (k', v) :: d' else (k', v') :: dict_set d' k v
  end.

Definition dict_has (d : list (string * V)) (k : string) : bool :=
  match dict_get d k with Some _ => true | None => false end.

Definition dict_keys (d : list (string * V)) : list string := map fst d.

End Dict.

(** ** Strings *)

Definition chr (n : nat) : ascii := ascii_of_nat n.

Fixpoint join (sep : string) (l : list string) : string :=
  match l with
  | [] => ""
  | [x] => x
  | x :: l' => x ++ sep ++ join sep l'
  end.

(** [s.split(sep)] for a one-character separator. *)
Fixpoint split (sep : ascii) (s : string) : list string :=
  match s with
  | EmptyString => [""]
  | String c s' =>
      if Ascii.eqb c sep then "" :: split sep s'
      else match split sep s' with
           | [] => [String c ""]
           | h :: t => String c h :: t
           end
  end.

Definition startswith (s p : string) : bool := String.prefix p s.

(** [p in s] for two strings. *)
Fixpoint str_contains (p s : string) : bool :=
  String.prefix p s ||
  match s with
  | EmptyString => false
  | String _ s' => str_contains p s'
  end.

(** [s[:n]] *)
Definition str_take (n : nat) (s : string) : string := substring 0 n s.

Definition is_ascii_digit (c : ascii) : bool :=
  (48 <=? nat_of_ascii c)%nat && (nat_of_ascii c <=? 57)%nat.

(** [str.isdigit] on one code point below 256: the decimal digits and the
    superscripts two, three and one. *)
Definition char_isdigit (c : ascii) : bool :=
  is_ascii_digit c
  || (nat_of_ascii c =? 178)%nat || (nat_of_ascii c =? 179)%nat
  || (nat_of_ascii c =? 185)%nat.

Fixpoint str_forall (p : ascii -> bool) (s : string) : bool :=
  match s with
  | EmptyString => true
  | String c s' => p c && str_forall p s'
  end.

Definition isdigit (s : string) : bool :=
  negb (String.eqb s "") && str_forall char_isdigit s.

Fixpoint digits_value (acc : Z) (s : string) : Z :=
  match s with
  | EmptyString => acc
  | String c s' => digits_value (10 * acc + Z.of_nat (nat_of_ascii c - 48)) s'
  end.

Definition str_of_Z (n : Z) : string := NilZero.string_of_int (Z.to_int n).

Definition hex_digit (n : nat) : ascii :=
  if (n <? 10)%nat then chr (48 + n) else chr (87 + n).

Definition hex2 (c : ascii) : string :=
  let n := nat_of_ascii c in
  String (hex_digit (n / 16)) (String (hex_digit (n mod 16)) "").

Definition char_printable (c : ascii) : bool :=
  let n := nat_of_ascii c in
  ((32 <=? n) && (n <? 127) || (161 <=? n) && negb (n =? 173))%nat.

Definition repr_char (quote : ascii) (c : ascii) : string :=
  if Ascii.eqb c quote || Ascii.eqb c "\" then String "\" (String c "")
  else if Ascii.eqb c (chr 9) then "\t"
  else if Ascii.eqb c (chr 10) then "\n"
  else if Ascii.eqb c (chr 13) then "\r"
  else if char_printable c then String c ""
  else "\x" ++ hex2 c.

Fixpoint str_exists (p : ascii -> bool) (s : string) : bool :=
  match s with
  | EmptyString => false
  | String c s' => p c || str_exists p s'
  end.

Fixpoint str_flat_map (f : ascii -> string) (s : string) : string :=
  match s with
  | EmptyString => ""
  | String c s' => f c ++ str_flat_map f s'
  end.

(** [repr(s)]: single quotes, unless the string has a single quote and no
    double quote. *)
Definition repr_str (s : string) : string :=
  let quote :=
    if str_exists (Ascii.eqb "'") s && negb (str_exists (Ascii.eqb (chr 34)) s)
    then chr 34 else "'"%char in
  String quote (str_flat_map (repr_char quote) s ++ String quote "").

Fixpoint repr (v : json) : string :=
  match v with
  | JNull => "None"
  | JBool true => "True"
  | JBool false => "False"
  | JNum n => str_of_Z n
  | JStr s => repr_str s
  | JArr l => "[" ++ join ", " (map repr l) ++ "]"
  | JObj kv =>
      "{" ++ join ", " (map (fun p => repr_str (fst p) ++ ": " ++ repr (snd p)) kv)
          ++ "}"
  end.

(** [str(v)], also what an f-string writes for [{v}]. *)
Definition str (v : json) : string :=
  match v with
  | JStr s => s
  | _ => repr v
  end.

(** [type(v).__name__] *)
Definition type_name (v : json) : string :=
  match v with
  | JNull => "NoneType"
  | JBool _ => "bool"
  | JNum _ => "int"
  | JStr _ => "str"
  | JArr _ => "list"
  | JObj _ => "dict"
  end.

(** ** Truth value, membership, subscripts and iteration *)

Definition truthy (v : json) : bool :=
  match v with
  | JNull => false
  | JBool b => b
  | JNum n => negb (n =? 0)
  | JStr s => negb (String.eqb s "")
  | JArr l => match l with [] => false | _ => true end
  | JObj kv => match kv with [] => false | _ => true end
  end.

Definition is_dict (v : json) : bool :=
  match v with JObj _ => true | _ => false end.

Definition is_none (v : json) : bool :=
  match v with JNull => true | _ => false end.

(** [hasattr(v, "__len__")] *)
Definition has_len (v : json) : bool :=
  match v with JStr _ | JArr _ | JObj _ => true | _ => false end.

(** [hasattr(v, "get")] *)
Definition has_get (v : json) : bool := is_dict v.

(** [v == s] for a string [s] *)
Definition eq_str (v : json) (s : string) : bool :=
  match v with JStr t => String.eqb t s | _ => false end.

Definition type_error (msg : string) : exn := mkExn TypeError msg.

(** [k in v] for a string [k] *)
Definition contains (k : string) (v : json) : result bool :=
  match v with
  | JObj kv => Ok (dict_has kv k)
  | JArr l => Ok (existsb (fun x => eq_str x k) l)
  | JStr s => Ok (str_contains k s)
  | _ => Raise (type_error
                  ("argument of type '" ++ type_name v ++ "' is not iterable"))
  end.

(** [v[k]] for a string [k] *)
Definition getitem (v : json) (k : string) : result json :=
  match v with
  | JObj kv =>
      match dict_get kv k with
      | Some x => Ok x
      | None => Raise (mkExn KeyError (repr_str k))
      end
  | JArr _ =>
      Raise (type_error "list indices must be integers or slices, not str")
  | JStr _ => Raise (type_error "string indices must be integers, not 'str'")
  | _ => Raise (type_error
                  ("'" ++ type_name v ++ "' object is not subscriptable"))
  end.

Definition no_attribute (v : json) (attr : string) : exn :=
  mkExn AttributeError
    ("'" ++ type_name v ++ "' object has no attribute '" ++ attr ++ "'").

(** [v.get(k, default)] *)
Definition get (v : json) (k : string) (default : json) : result json :=
  match v with
  | JObj kv =>
      match dict_get kv k with
      | Some x => Ok x
      | None => Ok default
      end
  | _ => Raise (no_attribute v "get")
  end.

(** [v.items()] *)
Definition items (v : json) : result (list (string * json)) :=
  match v with
  | JObj kv => Ok kv
  | _ => Raise (no_attribute v "items")
  end.

Fixpoint chars (s : string) : list json :=
  match s with
  | EmptyString => []
  | String c s' => JStr (String c "") :: chars s'
  end.

(** The values a [for x in v] loop visits. *)
Definition iter (v : json) : result (list json) :=
  match v with
  | JArr l => Ok l
  | JObj kv => Ok (map (fun p => JStr (fst p)) kv)
  | JStr s => Ok (chars s)
  | _ => Raise (type_error ("'" ++ type_name v ++ "' object is not iterable"))
  end.

(** [len(v)] *)
Definition len (v : json) : result Z :=
  match v with
  | JArr l => Ok (Z.of_nat (length l))
  | JObj kv => Ok (Z.of_nat (length kv))
  | JStr s => Ok (Z.of_nat (String.length s))
  | _ => Raise (type_error
                  ("object of type '" ++ type_name v ++ "' has no len()"))
  end.

(** [v.isdigit()] *)
Definition v_isdigit (v : json) : result bool :=
  match v with
  | JStr s => Ok (isdigit s)
  | _ => Raise (no_attribute v "isdigit")
  end.

(** [sys.get_int_max_str_digits()]: the interpreter's limit on the digits
    of a string that [int] converts, at its default; nothing in the
    repository changes it. *)
Definition int_max_str_digits : Z := 4300.

(** What [int] raises for a literal that is not one: the message shows at
    most 200 characters of the [repr] of the string. *)
Definition invalid_literal (s : string) : exn :=
  mkExn ValueError
    ("invalid literal for int() with base 10: " ++ str_take 200 (repr_str s)).

(** What [int] raises for a literal of [digits] digits, more than the
    limit. *)
Definition too_many_digits (digits : Z) : exn :=
  mkExn ValueError
    ("Exceeds the limit (" ++ str_of_Z int_max_str_digits
     ++ " digits) for integer string conversion: value has "
     ++ str_of_Z digits
     ++ " digits; use sys.set_int_max_str_digits() to increase the limit").

(** [int(s)] for a string that passed [isdigit]: the superscripts are
    digits to [isdigit] and no literal to [int], and a literal of more
    digits than the limit is refused. *)
Definition int_of_str (s : string) : result Z :=
  if negb (String.eqb s "") && str_forall is_ascii_digit s then
    if int_max_str_digits <? Z.of_nat (String.length s)
    then Raise (too_many_digits (Z.of_nat (String.length s)))
    else Ok (digits_value 0 s)
  else Raise (invalid_literal s).

(** [x or default] for an optional string *)
Definition str_or (x : option string) (default : string) : string :=
  match x with
  | Some s => if String.eqb s "" then default else s
  | None => default
  end.

Definition of_opt_str (x : option string) : json :=
  match x with Some s => JStr s | None => JNull end.

Definition of_opt_Z (x : option Z) : json :=
  match x with Some n => JNum n | None => JNull end.

(** ** Sets of hashable values, [min] and [max] *)

(** [a == b] on hashable values; [True == 1] and [False == 0]. *)
Definition as_int (v : json) : option Z :=
  match v with
  | JBool b => Some (if b then 1 else 0)
  | JNum n => Some n
  | _ => None
  end.

Definition hash_eq (a b : json) : bool :=
  match as_int a, as_int b with
  | Some x, Some y => x =? y
  | _, _ =>
      match a, b with
      | JNull, JNull => true
      | JStr s, JStr t => String.eqb s t
      | _, _ => false
      end
  end.

Definition hashable (v : json) : result json :=
  match v with
  | JArr _ | JObj _ =>
      Raise (type_error ("unhashable type: '" ++ type_name v ++ "'"))
  | _ => Ok v
  end.

Fixpoint distinct (seen : list json) (l : list json) : list json :=
  match l with
  | [] => seen
  | x :: l' =>
      if existsb (hash_eq x) seen then distinct seen l'
      else distinct (seen ++ [x]) l'
  end.

(** [len(set(l))] *)
Definition len_set (l : list json) : result Z :=
  rbind (rmap hashable l)
        (fun hs => Ok (Z.of_nat (length (distinct [] hs)))).

(** [min(l, default=d)] and [max(l, default=d)] on strings *)
Definition str_min (l : list string) (d : string) : string :=
  match l with
  | [] => d
  | x :: l' => fold_left (fun m y => if String.ltb y m then y else m) l' x
  end.

Definition str_max (l : list string) (d : string) : string :=
  match l with
  | [] => d
  | x :: l' => fold_left (fun m y => if String.ltb m y then y else m) l' x
  end.

End Py.

(* ===================================================================== *)
(** * The world a call runs in, and the monad of Python code *)
(* ===================================================================== *)

Module Run.
Import Py.

Inductive http_method : Type := GET | POST.

(** One call of [requests.get] or [requests.post].  [req_data] is the
    [params=] of a GET and the [json=] of a POST. *)
Record Request : Type := mkRequest {
  req_method : http_method;
  req_url : string;
  req_headers : list (string * json);
  req_data : json;
  req_timeout : Z
}.

(** What the code reads of a [requests.Response]: [status_code], [text]
    and [json()], which raises when the body is no JSON document. *)
Record Response : Type := mkResponse {
  status_code : Z;
  text : string;
  body_json : result json
}.

(** A request is answered, or [requests] raises. *)
Inductive Outcome : Type :=
| Answers (r : Response)
| Fails (e : exn).

(** The process environment, the clock and the network.  The environment
    is the same when the modules are imported (where the default arguments
    of the two constructors are read) and when a tool runs. *)
Record World : Type := mkWorld {
  TOPVISOR_USER_ID : option string;
  TOPVISOR_API_KEY : option string;
  AHREFS_API_KEY : option string;
  (** [os.path.exists(".env")] *)
  dotenv_exists : bool;
  (** [datetime.now().strftime("%Y-%m-%d")] *)
  today : string;
  (** [(datetime.now() - timedelta(days=7)).strftime("%Y-%m-%d")] *)
  week_ago : string;
  network : Request -> Outcome
}.

(** A computation reads the world, extends the log of requests sent so far
    and returns or raises. *)
Definition M (A : Type) : Type :=
  World -> list Request -> list Request * result A.

Definition ret {A} (a : A) : M A := fun _ log => (log, Ok a).

Definition raise {A} (e : exn) : M A := fun _ log => (log, Raise e).

Definition bind {A B} (m : M A) (k : A -> M B) : M B :=
  fun w log =>
    match m w log with
    | (log', Ok a) => k a w log'
    | (log', Raise e) => (log', Raise e)
    end.

(** [try: m  except Exception as e: h e] *)
Definition try_except {A} (m : M A) (h : exn -> M A) : M A :=
  fun w log =>
    match m w log with
    | (log', Ok a) => (log', Ok a)
    | (log', Raise e) => h e w log'
    end.

Definition lift {A} (r : result A) : M A := fun _ log => (log, r).

Definition ask : M World := fun w log => (log, Ok w).

(** The one place that touches the network. *)
Definition send (r : Request) : M Response :=
  fun w log =>
    ((log ++ [r])%list,
     match network w r with
     | Answers resp => Ok resp
     | Fails e => Raise e
     end).

(** The value of a call, and the requests it sent, from an empty log. *)
Definition run {A} (m : M A) (w : World) : list Request * result A := m w [].

Definition value {A} (m : M A) (w : World) : result A := snd (run m w).

Definition sent {A} (m : M A) (w : World) : list Request := fst (run m w).

End Run.

Declare Scope py_scope.
Delimit Scope py_scope with py.
Notation "x <- m ;; k" := (Run.bind m (fun x => k))
  (at level 61, m at next level, right associativity) : py_scope.
Notation "x <~ r ;; k" := (Run.bind (Run.lift r) (fun x => k))
  (at level 61, r at next level, right associativity) : py_scope.
Local Open Scope py_scope.

(* ===================================================================== *)
(** * src/topvisor.py *)
(* ===================================================================== *)

Module TopvisorAPI.
Import Py Run.

Record t : Type := mk {
  user_id : option string;
  api_key : option string;
  base_url : string;
  headers : list (string * json)
}.

(** [TopvisorAPI.__init__(self, user_id, api_key)] *)
Definition __init__ (user_id api_key : option string) : M t :=
  let base_url := "https://api.topvisor.com/v2/json/get" in
  if negb (truthy (of_opt_str api_key))
  then raise (mkExn ValueError "API key Topvisor not found! ")
  else ret (mk user_id api_key base_url
               [("Content-Type", JStr "application/json");
                ("User-Id", of_opt_str user_id);
                ("Authorization", JStr ("bearer " ++ str (of_opt_str api_key)))]).

(** [TopvisorAPI()]: the defaults are the two environment variables. *)
Definition new : M t :=
  w <- ask ;; __init__ (TOPVISOR_USER_ID w) (TOPVISOR_API_KEY w).

(** [_make_request(self, endpoint, payload=None, csv=False)] *)
Definition _make_request (self : t) (endpoint : string) (payload : json)
  (csv : bool) : M json :=
  let url := base_url self ++ "/" ++ endpoint in
  try_except
    (response <- send (mkRequest POST url (headers self) payload 60) ;;
     if status_code response =? 200 then
       if csv then
         ret (JObj [("result", JStr (text response)); ("status_code", JNum 200)])
       else lift (body_json response)
     else if status_code response =? 401 then
       ret (JObj [("error", JStr "Invalid API key"); ("status_code", JNum 401)])
     else if status_code response =? 403 then
       ret (JObj [("error", JStr "Insufficient access permissions");
          ("status_code", JNum 403)])
     else
       ret (JObj [("error", JStr ("API error " ++ str_of_Z (status_code response)));
          ("details", JStr (text response))]))
    (fun e =>
       match exn_type e with
       | ConnectionError =>
           ret (JObj [("error", JStr "No internet connection or API unavailable")])
       | _ => ret (JObj [("error", JStr ("Unexpected error: " ++ exn_msg e))])
       end).

Definition get_projects (self : t) : M json :=
  _make_request self "projects_2/projects" JNull false.

(** The payload [get_project_keywords] builds. *)
Definition project_keywords_payload (project_id : Z)
  (folder_id group_id : option Z) : json :=
  let payload := [("project_id", JNum project_id)] in
  let payload :=
    if truthy (of_opt_Z folder_id)
    then dict_set payload "folder_id" (of_opt_Z folder_id) else payload in
  let payload :=
    if truthy (of_opt_Z group_id)
    then dict_set payload "group_id" (of_opt_Z group_id) else payload in
  JObj payload.

Definition get_project_keywords (self : t) (project_id : Z)
  (folder_id group_id : option Z) : M json :=
  _make_request self "keywords_2/keywords"
    (project_keywords_payload project_id folder_id group_id) false.

Definition get_project_positions (self : t) (project_id : Z)
  (regions_indexes : json) (date1 date2 : option string) (limit offset : Z)
  : M json :=
  w <- ask ;;
  let date1 := match date1 with None => week_ago w | Some d => d end in
  let date2 := match date2 with None => today w | Some d => d end in
  _make_request self "positions_2/history"
    (JObj [("project_id", JNum project_id);
          ("regions_indexes", regions_indexes);
          ("date1", JStr date1);
          ("date2", JStr date2);
          ("limit", JNum limit);
          ("offset", JNum offset)])
    false.

Definition get_positions_summary (self : t) (project_id : Z)
  (date1 date2 : option string) : M json :=
  w <- ask ;;
  let date1 := match date1 with None => week_ago w | Some d => d end in
  let date2 := match date2 with None => today w | Some d => d end in
  _make_request self "positions_2/summary"
    (JObj [("project_id", JNum project_id);
          ("date1", JStr date1);
          ("date2", JStr date2)])
    false.

Definition get_project_competitors (self : t) (project_id : Z) : M json :=
  _make_request self "projects_2/competitors"
    (JObj [("project_id", JNum project_id)]) false.

Definition index_error : exn := mkExn IndexError "list index out of range".

(** [row[i]] on a row of the CSV reader *)
Definition cell (row : list string) (i : nat) : result json :=
  match nth_error row i with
  | Some s => Ok (JStr s)
  | None => Raise index_error
  end.

Definition region_of_row (row : list string) : result json :=
  rbind (cell row 0) (fun c0 =>
  rbind (cell row 1) (fun c1 =>
  rbind (cell row 2) (fun c2 =>
  rbind (cell row 3) (fun c3 =>
  rbind (cell row 4) (fun c4 =>
  rbind (cell row 5) (fun c5 =>
  Ok (JObj [("search_engine_key", c0);
          ("name", c1);
          ("country_code", c2);
          ("language", c3);
          ("region_device", c4);
          ("depth", c5)]))))))).

Section Regions.

(** [csv.reader(text.splitlines(), delimiter=';')] as the list of its rows:
    the reader of Python's csv module, which is no part of the repository. *)
Variable csv_rows : string -> list (list string).

(** [response["result"].splitlines()] needs a string. *)
Definition splitlines_rows (v : json) : result (list (list string)) :=
  match v with
  | JStr s => Ok (csv_rows s)
  | _ => Raise (no_attribute v "splitlines")
  end.

Definition get_project_regions (self : t) (project_id : Z) : M json :=
  response <- _make_request self "positions_2/searchers_regions/export"
                (JObj [("project_id", JNum project_id)]) true ;;
  result <~ getitem response "result" ;;
  rows <~ splitlines_rows result ;;
  data <~ rmap region_of_row rows ;;
  code <~ get response "status_code" (JNum 200) ;;
  ret (JObj [("result", JArr data); ("status_code", code)]).

End Regions.

Definition get_keyword_folders (self : t) (project_id : Z) : M json :=
  _make_request self "keywords_2/folders"
    (JObj [("project_id", JNum project_id)]) false.

Definition get_keyword_groups (self : t) (project_id : Z)
  (folder_id : option Z) : M json :=
  let payload := [("project_id", JNum project_id)] in
  let payload :=
    if truthy (of_opt_Z folder_id)
    then dict_set payload "folder_id" (of_opt_Z folder_id) else payload in
  _make_request self "keywords_2/groups" (JObj payload) false.

Definition get_balance_info (self : t) : M json :=
  _make_request self "bank_2/info" (JObj []) false.

End TopvisorAPI.

(* ===================================================================== *)
(** * src/logic/ahrefs.py *)
(* ===================================================================== *)

Module AhrefsAPI.
Import Py Run.

Record t : Type := mk {
  api_key : option string;
  base_url : string;
  headers : list (string * json)
}.

(** [AhrefsAPI.__init__(self, api_key)] *)
Definition __init__ (api_key : option string) : M t :=
  let base_url := "https://api.ahrefs.com/v3" in
  if negb (truthy (of_opt_str api_key))
  then raise (mkExn ValueError
    "API key Ahrefs not found! Please set AHREFS_API_KEY environment variable.")
  else ret (mk api_key base_url
               [("Content-Type", JStr "application/json");
                ("Authorization", JStr ("Bearer " ++ str (of_opt_str api_key)))]).

(** [AhrefsAPI()]: the default is the environment variable. *)
Definition new : M t :=
  w <- ask ;; __init__ (AHREFS_API_KEY w).

(** [_make_request(self, endpoint, params=None)] *)
Definition _make_request (self : t) (endpoint : string) (params : json)
  : M json :=
  let url := base_url self ++ "/" ++ endpoint in
  try_except
    (response <- send (mkRequest GET url (headers self) params 60) ;;
     if status_code response =? 200 then lift (body_json response)
     else if status_code response =? 401 then
       ret (JObj [("error", JStr "Invalid API key"); ("status_code", JNum 401)])
     else if status_code response =? 403 then
       ret (JObj [("error", JStr "Insufficient access permissions or credits");
                  ("status_code", JNum 403)])
     else if status_code response =? 429 then
       ret (JObj [("error", JStr "Request limit exceeded");
                  ("status_code", JNum 429)])
     else
       ret (JObj [("error",
                   JStr ("API error " ++ str_of_Z (status_code response)));
                  ("details", JStr (text response))]))
    (fun e =>
       match exn_type e with
       | ConnectionError =>
           ret (JObj [("error",
                       JStr "No internet connection or API unavailable")])
       | _ => ret (JObj [("error", JStr ("Unexpected error: " ++ exn_msg e))])
       end).

Definition refdomains_select : string :=
  "domain,domain_rating,links_to_target,first_seen,last_seen,traffic_domain".

Definition backlinks_select : string :=
  "url_from,url_to,domain_rating_source,domain_rating_target,traffic,traffic_domain,anchor,name_source,name_target,noindex,page_size,positions,title,url_from,url_rating_source,url_to".

Definition organic_keywords_select : string :=
  "keyword,best_position,best_position_url,keyword_country,keyword_difficulty,last_update,sum_traffic,volume,volume_desktop_pct,volume_mobile_pct".

(** [get_refdomains(self, target, limit, order_by)], [select] at its
    default. *)
Definition get_refdomains (self : t) (target : string) (limit : Z)
  (order_by : string) : M json :=
  _make_request self "site-explorer/refdomains"
    (JObj [("target", JStr target);
           ("limit", JNum limit);
           ("order_by", JStr order_by);
           ("select", JStr refdomains_select)]).

Definition get_backlinks (self : t) (target : string) (limit : Z)
  (order_by : string) : M json :=
  _make_request self "site-explorer/all-backlinks"
    (JObj [("target", JStr target);
           ("limit", JNum limit);
           ("order_by", JStr order_by);
           ("select", JStr backlinks_select)]).

Definition get_organic_keywords (self : t) (target : string) (limit : Z)
  (date : option string) (order_by : string) : M json :=
  w <- ask ;;
  let date := match date with None => today w | Some d => d end in
  _make_request self "site-explorer/organic-keywords"
    (JObj [("target", JStr target);
           ("limit", JNum limit);
           ("date", JStr date);
           ("order_by", JStr order_by);
           ("select", JStr organic_keywords_select)]).

End AhrefsAPI.

(* ===================================================================== *)
(** * What the tool functions share *)
(* ===================================================================== *)

Module ToolUtil.
Import Py Run.

(** [v and k in v] *)
Definition truthy_and_in (v : json) (k : string) : result bool :=
  if truthy v then contains k v else Ok false.

(** [isinstance(v, dict) and k in v] *)
Definition dict_and_in (v : json) (k : string) : bool :=
  match v with
  | JObj kv => dict_has kv k
  | _ => false
  end.

(** [type(e).__name__] *)
Definition class_name (c : exn_class) : string :=
  match c with
  | ValueError => "ValueError"
  | KeyError => "KeyError"
  | TypeError => "TypeError"
  | AttributeError => "AttributeError"
  | IndexError => "IndexError"
  | ConnectionError => "ConnectionError"
  | OtherError name => name
  end.

(** [str(e)] *)
Definition exn_str (e : exn) : string := exn_msg e.

(** [str(v)[:500] if v else "None"] *)
Definition raw_result (v : json) : json :=
  if truthy v then JStr (str_take 500 (str v)) else JStr "None".

(** [list(v.keys()) if isinstance(v, dict) else "not_dict"] *)
Definition keys_or_not_dict (v : json) : json :=
  match v with
  | JObj kv => JArr (map JStr (dict_keys kv))
  | _ => JStr "not_dict"
  end.

(** [len(v) if hasattr(v, "__len__") else "no_length"] *)
Definition len_or_no_length (v : json) : json :=
  match len v with
  | Ok n => JNum n
  | Raise _ => JStr "no_length"
  end.

(** One pass of a loop [for x in xs: info = {...}; out.append(info)]. *)
Definition for_each (xs : json) (f : json -> result json)
  : result (list json) :=
  rbind (iter xs) (rmap f).

(** The [status] of an envelope and the presence of a key in it. *)
Definition status (envelope : json) : option json :=
  match envelope with
  | JObj kv => dict_get kv "status"
  | _ => None
  end.

Definition has_key (envelope : json) (k : string) : bool :=
  match envelope with
  | JObj kv => dict_has kv k
  | _ => false
  end.

Definition field (envelope : json) (k : string) : option json :=
  match envelope with
  | JObj kv => dict_get kv k
  | _ => None
  end.

End ToolUtil.

(* ===================================================================== *)
(** * src/tools/ahrefs.py *)
(* ===================================================================== *)

Module tools_ahrefs.
Import Py Run ToolUtil.

Definition check_ahrefs_setup : M json :=
  try_except
    (w <- ask ;;
     let api_key := of_opt_str (AHREFS_API_KEY w) in
     if negb (truthy api_key) then
       ret (JObj [("status", JStr "error");
                  ("message", JStr "API key not found");
                  ("checks", JObj [("env_file", JBool (dotenv_exists w));
                                   ("api_key_set", JBool false);
                                   ("api_connection", JBool false)]);
                  ("help",
                   JStr "Create .env file and add AHREFS_API_KEY=your_key")])
     else
       try_except
         (ahrefs <- AhrefsAPI.new ;;
          result <- AhrefsAPI.get_refdomains ahrefs "example.com" 1
                      "domain_rating:desc" ;;
          is_error <~ truthy_and_in result "error" ;;
          if is_error then
            problem <~ getitem result "error" ;;
            ret (JObj [("status", JStr "warning");
                       ("message",
                        JStr ("API key found, but there is a problem: "
                              ++ str problem));
                       ("checks", JObj [("env_file", JBool true);
                                        ("api_key_set", JBool true);
                                        ("api_connection", JBool false)]);
                       ("help",
                        JStr "Check API key validity and account balance")])
          else
            has_data <~ truthy_and_in result "refdomains" ;;
            if has_data then
              ret (JObj [("status", JStr "success");
                         ("message",
                          JStr "Everything is set up correctly! Ahrefs API is working");
                         ("checks", JObj [("env_file", JBool true);
                                          ("api_key_set", JBool true);
                                          ("api_connection", JBool true)]);
                         ("test_result", JStr "Test request successful")])
            else
              ret (JObj [("status", JStr "error");
                         ("message", JStr "Unexpected response from API");
                         ("checks", JObj [("env_file", JBool true);
                                          ("api_key_set", JBool true);
                                          ("api_connection", JBool false)]);
                         ("raw_result", raw_result result)]))
         (fun api_error =>
            ret (JObj [("status", JStr "error");
                       ("message",
                        JStr ("API connection error: " ++ exn_str api_error));
                       ("checks", JObj [("env_file", JBool (dotenv_exists w));
                                        ("api_key_set", JBool (truthy api_key));
                                        ("api_connection", JBool false)]);
                       ("error_type",
                        JStr (class_name (exn_type api_error)));
                       ("help",
                        JStr "Check internet connection and API key validity")])))
    (fun e =>
       ret (JObj [("status", JStr "error");
                  ("message", JStr ("Setup check error: " ++ exn_str e));
                  ("help", JStr "Make sure API key is added to .env file")])).

Definition get_ahrefs_refdomains (target : string) (limit : Z) : M json :=
  try_except
    (let order_by := "domain_rating:desc" in
     ahrefs <- AhrefsAPI.new ;;
     result <- AhrefsAPI.get_refdomains ahrefs target limit order_by ;;
     is_error <~ truthy_and_in result "error" ;;
     if is_error then
       problem <~ getitem result "error" ;;
       details <~ get result "details" (JStr "Check API key and balance") ;;
       ret (JObj [("status", JStr "error");
                  ("message", JStr ("API error: " ++ str problem));
                  ("details", details)])
     else
       has_data <~ truthy_and_in result "refdomains" ;;
       if has_data then
         refdomains <~ getitem result "refdomains" ;;
         ret (JObj [("status", JStr "success");
                    ("target", JStr target);
                    ("refdomains", refdomains);
                    ("limit", JNum limit);
                    ("order_by", JStr order_by)])
       else
         ret (JObj [("status", JStr "error");
                    ("message", JStr "Failed to get referring domains data");
                    ("raw_result", raw_result result)]))
    (fun e =>
       ret (JObj [("status", JStr "error");
                  ("message",
                   JStr ("Error getting referring domains: " ++ exn_str e))])).

Definition get_ahrefs_backlinks (target : string) (limit : Z) : M json :=
  try_except
    (let order_by := "domain_rating_source:desc" in
     ahrefs <- AhrefsAPI.new ;;
     result <- AhrefsAPI.get_backlinks ahrefs target limit order_by ;;
     is_error <~ truthy_and_in result "error" ;;
     if is_error then
       problem <~ getitem result "error" ;;
       details <~ get result "details" (JStr "Check API key and balance") ;;
       ret (JObj [("status", JStr "error");
                  ("message", JStr ("API error: " ++ str problem));
                  ("details", details)])
     else
       has_data <~ truthy_and_in result "backlinks" ;;
       if has_data then
         backlinks <~ getitem result "backlinks" ;;
         ret (JObj [("status", JStr "success");
                    ("target", JStr target);
                    ("backlinks", backlinks);
                    ("limit", JNum limit);
                    ("order_by", JStr order_by)])
       else
         ret (JObj [("status", JStr "error");
                    ("message", JStr "Failed to get backlinks data");
                    ("raw_result", raw_result result)]))
    (fun e =>
       ret (JObj [("status", JStr "error");
                  ("message",
                   JStr ("Error getting backlinks: " ++ exn_str e))])).

Definition get_ahrefs_organic_keywords (target : string) (limit : Z)
  (date : option string) : M json :=
  try_except
    (ahrefs <- AhrefsAPI.new ;;
     let order_by := "best_position:asc" in
     result <- AhrefsAPI.get_organic_keywords ahrefs target limit date
                 order_by ;;
     is_error <~ truthy_and_in result "error" ;;
     if is_error then
       problem <~ getitem result "error" ;;
       details <~ get result "details" (JStr "Check API key and balance") ;;
       ret (JObj [("status", JStr "error");
                  ("message", JStr ("API error: " ++ str problem));
                  ("details", details)])
     else
       has_data <~ truthy_and_in result "keywords" ;;
       if has_data then
         keywords <~ getitem result "keywords" ;;
         ret (JObj [("status", JStr "success");
                    ("target", JStr target);
                    ("keywords", keywords);
                    ("limit", JNum limit);
                    ("order_by", JStr order_by);
                    ("date", of_opt_str date)])
       else
         ret (JObj [("status", JStr "error");
                    ("message", JStr "Failed to get organic keywords data");
                    ("raw_result", raw_result result)]))
    (fun e =>
       ret (JObj [("status", JStr "error");
                  ("message",
                   JStr ("Error getting organic keywords: " ++ exn_str e))])).

End tools_ahrefs.

(* ===================================================================== *)
(** * src/tools/topvisor.py *)
(* ===================================================================== *)

Module tools_topvisor.
Import Py Run ToolUtil.

(** The [balance] that [check_topvisor_setup] reads off [result["result"]]. *)
Definition setup_balance (result_data : json) : result json :=
  match result_data with
  | JObj _ => get result_data "balance" (JStr "N/A")
  | JArr (first_item :: _) =>
      if is_dict first_item then get first_item "balance" (JStr "N/A")
      else Ok (JStr "N/A")
  | _ =>
      if has_get result_data then get result_data "balance" (JStr "N/A")
      else Ok (JStr "N/A")
  end.

Definition check_topvisor_setup : M json :=
  try_except
    (w <- ask ;;
     let api_key := of_opt_str (TOPVISOR_API_KEY w) in
     if negb (truthy api_key) then
       ret (JObj [("status", JStr "error");
                  ("message", JStr "API key not found");
                  ("checks", JObj [("env_file", JBool (dotenv_exists w));
                                   ("api_key_set", JBool false);
                                   ("api_connection", JBool false)]);
                  ("help",
                   JStr "Create .env file and add TOPVISOR_API_KEY=your_key")])
     else
       try_except
         (topvisor <- TopvisorAPI.new ;;
          result <- TopvisorAPI.get_balance_info topvisor ;;
          is_error <~ truthy_and_in result "error" ;;
          if is_error then
            problem <~ getitem result "error" ;;
            ret (JObj [("status", JStr "warning");
                       ("message",
                        JStr ("API key found, but there is a problem: "
                              ++ str problem));
                       ("checks", JObj [("env_file", JBool true);
                                        ("api_key_set", JBool true);
                                        ("api_connection", JBool false)]);
                       ("help",
                        JStr "Check API key validity and account balance")])
          else
            has_data <~ truthy_and_in result "result" ;;
            if has_data then
              result_data <~ getitem result "result" ;;
              balance <~ setup_balance result_data ;;
              ret (JObj [("status", JStr "success");
                         ("message",
                          JStr ("Everything is set up correctly! Balance: "
                                ++ str balance));
                         ("checks", JObj [("env_file", JBool true);
                                          ("api_key_set", JBool true);
                                          ("api_connection", JBool true)]);
                         ("balance", balance);
                         ("result_type", JStr (type_name result_data));
                         ("raw_result",
                          if (String.length (str result_data) <? 500)%nat
                          then result_data
                          else JStr (str_take 500 (str result_data) ++ "..."))])
            else
              ret (JObj [("status", JStr "error");
                         ("message", JStr "Unexpected response from API");
                         ("checks", JObj [("env_file", JBool true);
                                          ("api_key_set", JBool true);
                                          ("api_connection", JBool false)])]))
         (fun api_error =>
            let error_details :=
              [("error_type", JStr (class_name (exn_type api_error)));
               ("error_message", JStr (exn_str api_error))] in
            let error_details :=
              match exn_type api_error with
              | AttributeError =>
                  dict_set
                    (dict_set error_details "likely_cause"
                       (JStr "Unexpected data format from API"))
                    "suggestion"
                    (JStr "API returned data in unexpected format")
              | _ => error_details
              end in
            ret (JObj [("status", JStr "error");
                       ("message",
                        JStr ("API connection error: " ++ exn_str api_error));
                       ("checks", JObj [("env_file", JBool (dotenv_exists w));
                                        ("api_key_set", JBool (truthy api_key));
                                        ("api_connection", JBool false)]);
                       ("error_details", JObj error_details);
                       ("help",
                        JStr "Check internet connection and API key validity")])))
    (fun e =>
       ret (JObj [("status", JStr "error");
                  ("message", JStr ("Setup check error: " ++ exn_str e));
                  ("help", JStr "See TOPVISOR_SETUP.md file for instructions")])).

Definition project_info (project : json) : result json :=
  rbind (get project "id" JNull) (fun id =>
  rbind (get project "name" JNull) (fun name =>
  rbind (get project "url" JNull) (fun url =>
  rbind (get project "status" JNull) (fun st =>
  rbind (get project "date_add" JNull) (fun created =>
  Ok (JObj [("id", id); ("name", name); ("url", url); ("status", st);
            ("created", created)])))))).

(** The branches of [get_topvisor_projects] on the client's [result]. *)
Definition projects_envelope (result : json) : Py.result json :=
  rbind (truthy_and_in result "error") (fun is_error =>
  if is_error then
    rbind (getitem result "error") (fun problem =>
    rbind (get result "details"
             (JStr "Check TOPVISOR_SETUP.md file for setup")) (fun details =>
    Ok (JObj [("status", JStr "error");
              ("message", JStr ("API error: " ++ str problem));
              ("details", details)])))
  else
    rbind (truthy_and_in result "result") (fun has_data =>
    if has_data then
      rbind (getitem result "result") (fun projects =>
      rbind (for_each projects project_info) (fun project_info =>
      Ok (JObj [("status", JStr "success");
                ("projects", JArr project_info);
                ("total_count", JNum (Z.of_nat (length project_info)))])))
    else
      Ok (JObj [("status", JStr "error");
                ("message", JStr "Failed to get project data");
                ("help",
                 JStr "Check TOPVISOR_SETUP.md file for API key setup")]))).

(** The [except Exception as e] branch of [get_topvisor_projects]. *)
Definition projects_failure (e : exn) : json :=
  JObj [("status", JStr "error");
        ("message", JStr ("Error getting projects: " ++ exn_str e));
        ("help",
         JStr "Create .env file with TOPVISOR_API_KEY. See TOPVISOR_SETUP.md")].

Definition get_topvisor_projects : M json :=
  try_except
    (topvisor <- TopvisorAPI.new ;;
     result <- TopvisorAPI.get_projects topvisor ;;
     lift (projects_envelope result))
    (fun e => ret (projects_failure e)).

Definition keyword_info (keyword : json) : result json :=
  rbind (get keyword "id" JNull) (fun id =>
  rbind (get keyword "name" JNull) (fun name =>
  rbind (get keyword "folder_id" JNull) (fun folder_id =>
  rbind (get keyword "group_id" JNull) (fun group_id =>
  rbind (get keyword "url" JNull) (fun url =>
  rbind (get keyword "tags" (JArr [])) (fun tags =>
  Ok (JObj [("id", id); ("name", name); ("folder_id", folder_id);
            ("group_id", group_id); ("url", url); ("tags", tags)]))))))).

Definition get_topvisor_keywords (project_id : Z)
  (folder_id group_id : option Z) : M json :=
  try_except
    (topvisor <- TopvisorAPI.new ;;
     result <- TopvisorAPI.get_project_keywords topvisor project_id
                 folder_id group_id ;;
     has_data <~ truthy_and_in result "result" ;;
     if has_data then
       keywords <~ getitem result "result" ;;
       keywords_info <~ for_each keywords keyword_info ;;
       ret (JObj [("status", JStr "success");
                  ("project_id", JNum project_id);
                  ("keywords", JArr keywords_info);
                  ("total_count", JNum (Z.of_nat (length keywords_info)))])
     else
       ret (JObj [("status", JStr "error");
                  ("message", JStr "Failed to get keyword data")]))
    (fun e =>
       ret (JObj [("status", JStr "error");
                  ("message",
                   JStr ("Error getting keywords: " ++ exn_str e))])).

(** One record of [positions_info]. *)
Record position : Type := mkPosition {
  keyword_name : json;
  date : string;
  position_value : json;
  project_id_from_key : string;
  region_from_key : string;
  position_numeric : option Z;
  is_not_ranking : bool
}.

Definition position_json (p : position) : json :=
  JObj [("keyword_name", keyword_name p);
        ("date", JStr (date p));
        ("position", position_value p);
        ("project_id", JStr (project_id_from_key p));
        ("region", JStr (region_from_key p));
        ("position_numeric", of_opt_Z (position_numeric p));
        ("is_not_ranking", JBool (is_not_ranking p))].

(** [int(position_value) if position_value.isdigit() else None] *)
Definition numeric_of (position_value : json) : result (option Z) :=
  rbind (v_isdigit position_value) (fun digits =>
  if digits then
    match position_value with
    | JStr s => rbind (int_of_str s) (fun n => Ok (Some n))
    | _ => Ok None
    end
  else Ok None).

(** The body of the loop over [positions_data.items()]: the record that one
    entry appends, if any. *)
Definition position_entry (keyword_name : json) (date_key : string)
  (position_info : json) : result (option position) :=
  if dict_and_in position_info "position" then
    match split ":" date_key with
    | date :: project_id_from_key :: region_from_key :: _ =>
        rbind (getitem position_info "position") (fun position_value =>
        rbind (numeric_of position_value) (fun numeric =>
        Ok (Some (mkPosition keyword_name date position_value
                    project_id_from_key region_from_key numeric
                    (eq_str position_value "--")))))
    | _ => Ok None
    end
  else Ok None.

Fixpoint somes {A} (l : list (option A)) : list A :=
  match l with
  | [] => []
  | Some x :: l' => x :: somes l'
  | None :: l' => somes l'
  end.

(** The body of the loop over [keywords]. *)
Definition keyword_positions (keyword_data : json) : result (list position) :=
  if is_dict keyword_data then
    rbind (get keyword_data "name" (JStr "unknown")) (fun keyword_name =>
    rbind (get keyword_data "positionsData" (JObj [])) (fun positions_data =>
    rbind (items positions_data) (fun entries =>
    rbind (rmap (fun e => position_entry keyword_name (fst e) (snd e)) entries)
          (fun records => Ok (somes records)))))
  else Ok [].

Definition all_positions (keywords : json) : result (list position) :=
  rbind (iter keywords) (fun l =>
  rbind (rmap keyword_positions l) (fun ls => Ok (concat ls))).

Definition period (date1 date2 : option string) : string :=
  str_or date1 "auto" ++ " - " ++ str_or date2 "auto".

Definition get_topvisor_positions_history (project_id : Z)
  (regions_indexes : json) (date1 date2 : option string) (limit offset : Z)
  : M json :=
  try_except
    (topvisor <- TopvisorAPI.new ;;
     result <- TopvisorAPI.get_project_positions topvisor project_id
                 regions_indexes date1 date2 limit offset ;;
     let has_result := dict_and_in result "result" in
     (* [result.get("result")], read only where [has_result] holds *)
     let inner :=
       match field result "result" with Some v => v | None => JNull end in
     let debug_info :=
       [("sent_params",
         JObj [("project_id", JNum project_id);
               ("regions_indexes", regions_indexes);
               ("date1", of_opt_str date1);
               ("date2", of_opt_str date2);
               ("limit", JNum limit);
               ("offset", JNum offset)]);
        ("api_response_type", JStr (type_name result));
        ("api_response_keys", keys_or_not_dict result);
        ("api_response_summary",
         JObj [("has_result_key", JBool has_result);
               ("has_error_key", JBool (dict_and_in result "error"));
               ("result_type",
                JStr (if has_result then type_name inner else "no_result"));
               ("result_length",
                if has_result && has_len inner then len_or_no_length inner
                else JStr "no_length")])] in
     if negb (truthy result) then
       ret (JObj [("status", JStr "error");
                  ("message", JStr "Empty response from API");
                  ("debug", JObj debug_info)])
     else if dict_and_in result "error" then
       problem <~ getitem result "error" ;;
       ret (JObj [("status", JStr "error");
                  ("message", JStr ("API error: " ++ str problem));
                  ("debug", JObj debug_info)])
     else if has_result then
       result_data <~ getitem result "result" ;;
       if is_none result_data then
         ret (JObj [("status", JStr "error");
                    ("message",
                     JStr "API returned result=None (no position data for specified period)");
                    ("debug",
                     JObj (dict_set debug_info "positions_details"
                       (JObj [("result_data_type", JStr "NoneType");
                              ("result_data_value", JNull);
                              ("reason",
                               JStr "API returned result=None, likely no position data for specified period")])))])
       else
         let details :=
           [("result_data_type", JStr (type_name result_data));
            ("result_data_keys", keys_or_not_dict result_data);
            ("has_keywords_key", JBool (dict_and_in result_data "keywords"))] in
         outcome <~
           (if dict_and_in result_data "keywords" then
              rbind (getitem result_data "keywords") (fun keywords =>
              rbind (all_positions keywords) (fun positions_info =>
              Ok (dict_set details "keywords_count"
                    (len_or_no_length keywords), positions_info)))
            else Ok (details, [])) ;;
         let debug_info :=
           dict_set debug_info "positions_details" (JObj (fst outcome)) in
         let positions_info := snd outcome in
         unique_keywords <~ len_set (map keyword_name positions_info) ;;
         ret (JObj [("status", JStr "success");
                    ("project_id", JNum project_id);
                    ("regions_indexes", regions_indexes);
                    ("period", JStr (period date1 date2));
                    ("positions", JArr (map position_json positions_info));
                    ("total_count",
                     JNum (Z.of_nat (length positions_info)));
                    ("unique_keywords", JNum unique_keywords);
                    ("date_range",
                     JObj [("start",
                            JStr (str_min (map date positions_info) "no_data"));
                           ("end",
                            JStr (str_max (map date positions_info) "no_data"))]);
                    ("limit", JNum limit);
                    ("offset", JNum offset);
                    ("debug", JObj debug_info)])
     else
       ret (JObj [("status", JStr "error");
                  ("message", JStr "Failed to get position data");
                  ("debug", JObj debug_info)]))
    (fun e =>
       ret (JObj [("status", JStr "error");
                  ("message", JStr ("Error getting positions: " ++ exn_str e));
                  ("error_type", JStr (class_name (exn_type e)));
                  ("error_details", JStr (exn_str e))])).

Definition get_topvisor_positions_summary (project_id : Z)
  (date1 date2 : option string) : M json :=
  try_except
    (topvisor <- TopvisorAPI.new ;;
     result <- TopvisorAPI.get_positions_summary topvisor project_id
                 date1 date2 ;;
     has_data <~ truthy_and_in result "result" ;;
     if has_data then
       summary <~ getitem result "result" ;;
       ret (JObj [("status", JStr "success");
                  ("project_id", JNum project_id);
                  ("period", JStr (period date1 date2));
                  ("summary", summary)])
     else
       ret (JObj [("status", JStr "error");
                  ("message", JStr "Failed to get position summary")]))
    (fun e =>
       ret (JObj [("status", JStr "error");
                  ("message", JStr ("Error getting summary: " ++ exn_str e))])).

Definition competitor_info (competitor : json) : result json :=
  rbind (get competitor "id" JNull) (fun id =>
  rbind (get competitor "name" JNull) (fun name =>
  rbind (get competitor "url" JNull) (fun url =>
  rbind (get competitor "on" JNull) (fun st =>
  rbind (get competitor "enabled" JNull) (fun enabled =>
  Ok (JObj [("id", id); ("name", name); ("url", url); ("status", st);
            ("enabled", enabled)])))))).

Definition get_topvisor_competitors (project_id : Z) : M json :=
  try_except
    (topvisor <- TopvisorAPI.new ;;
     result <- TopvisorAPI.get_project_competitors topvisor project_id ;;
     has_data <~ truthy_and_in result "result" ;;
     if has_data then
       competitors <~ getitem result "result" ;;
       competitors_info <~ for_each competitors competitor_info ;;
       ret (JObj [("status", JStr "success");
                  ("project_id", JNum project_id);
                  ("competitors", JArr competitors_info);
                  ("total_count",
                   JNum (Z.of_nat (length competitors_info)))])
     else
       ret (JObj [("status", JStr "error");
                  ("message", JStr "Failed to get competitor data")]))
    (fun e =>
       ret (JObj [("status", JStr "error");
                  ("message",
                   JStr ("Error getting competitors: " ++ exn_str e))])).

Section Regions.

Variable csv_rows : string -> list (list string).

Definition get_topvisor_regions (project_id : Z) : M json :=
  try_except
    (topvisor <- TopvisorAPI.new ;;
     result <- TopvisorAPI.get_project_regions csv_rows topvisor project_id ;;
     has_data <~ truthy_and_in result "result" ;;
     if has_data then
       regions <~ getitem result "result" ;;
       total_count <~ len regions ;;
       ret (JObj [("status", JStr "success");
                  ("project_id", JNum project_id);
                  ("regions", regions);
                  ("total_count", JNum total_count)])
     else
       ret (JObj [("status", JStr "error");
                  ("message", JStr "Failed to get region data")]))
    (fun e =>
       ret (JObj [("status", JStr "error");
                  ("message", JStr ("Error getting regions: " ++ exn_str e))])).

End Regions.

Definition folder_info (folder : json) : result json :=
  rbind (get folder "id" JNull) (fun id =>
  rbind (get folder "name" JNull) (fun name =>
  rbind (get folder "parent_id" JNull) (fun parent_id =>
  rbind (get folder "count_keywords" JNull) (fun keywords_count =>
  Ok (JObj [("id", id); ("name", name); ("parent_id", parent_id);
            ("keywords_count", keywords_count)]))))).

Definition get_topvisor_keyword_folders (project_id : Z) : M json :=
  try_except
    (topvisor <- TopvisorAPI.new ;;
     result <- TopvisorAPI.get_keyword_folders topvisor project_id ;;
     has_data <~ truthy_and_in result "result" ;;
     if has_data then
       folders <~ getitem result "result" ;;
       folders_info <~ for_each folders folder_info ;;
       ret (JObj [("status", JStr "success");
                  ("project_id", JNum project_id);
                  ("folders", JArr folders_info);
                  ("total_count", JNum (Z.of_nat (length folders_info)))])
     else
       ret (JObj [("status", JStr "error");
                  ("message", JStr "Failed to get folder data")]))
    (fun e =>
       ret (JObj [("status", JStr "error");
                  ("message", JStr ("Error getting folders: " ++ exn_str e))])).

Definition group_info (group : json) : result json :=
  rbind (get group "id" JNull) (fun id =>
  rbind (get group "name" JNull) (fun name =>
  rbind (get group "folder_id" JNull) (fun folder_id =>
  rbind (get group "count_keywords" JNull) (fun keywords_count =>
  rbind (get group "on" JNull) (fun enabled =>
  Ok (JObj [("id", id); ("name", name); ("folder_id", folder_id);
            ("keywords_count", keywords_count); ("enabled", enabled)])))))).

Definition get_topvisor_keyword_groups (project_id : Z)
  (folder_id : option Z) : M json :=
  try_except
    (topvisor <- TopvisorAPI.new ;;
     result <- TopvisorAPI.get_keyword_groups topvisor project_id folder_id ;;
     has_data <~ truthy_and_in result "result" ;;
     if has_data then
       groups <~ getitem result "result" ;;
       groups_info <~ for_each groups group_info ;;
       ret (JObj [("status", JStr "success");
                  ("project_id", JNum project_id);
                  ("folder_id", of_opt_Z folder_id);
                  ("groups", JArr groups_info);
                  ("total_count", JNum (Z.of_nat (length groups_info)))])
     else
       ret (JObj [("status", JStr "error");
                  ("message", JStr "Failed to get group data")]))
    (fun e =>
       ret (JObj [("status", JStr "error");
                  ("message", JStr ("Error getting groups: " ++ exn_str e))])).

Definition get_topvisor_balance : M json :=
  try_except
    (topvisor <- TopvisorAPI.new ;;
     result <- TopvisorAPI.get_balance_info topvisor ;;
     has_data <~ truthy_and_in result "result" ;;
     if has_data then
       balance_info <~ getitem result "result" ;;
       balance <~ get balance_info "balance" JNull ;;
       currency <~ get balance_info "currency" (JStr "RUB") ;;
       xml_limits <~ get balance_info "xml_limits" (JObj []) ;;
       ret (JObj [("status", JStr "success");
                  ("balance", balance);
                  ("currency", currency);
                  ("xml_limits", xml_limits);
                  ("account_info", balance_info)])
     else
       ret (JObj [("status", JStr "error");
                  ("message", JStr "Failed to get balance data")]))
    (fun e =>
       ret (JObj [("status", JStr "error");
                  ("message", JStr ("Error getting balance: " ++ exn_str e))])).

Definition get_topvisor_project_keywords (project_id : Z) : M json :=
  try_except
    (topvisor <- TopvisorAPI.new ;;
     result <- TopvisorAPI.get_project_keywords topvisor project_id
                 None None ;;
     ret (JObj [("status", JStr "success");
                ("project_id", JNum project_id);
                ("keywords_data", result)]))
    (fun e =>
       ret (JObj [("status", JStr "error");
                  ("message",
                   JStr ("Error getting keywords: " ++ exn_str e))])).

End tools_topvisor.

(* ===================================================================== *)
(** * src/research_server.py

    The server defines the same tools once more.  Four of them differ from
    the ones under [src/tools/]: the three Ahrefs tools take [order_by] and
    report [total_count], and the regions tool maps each region through a
    field list. *)
(* ===================================================================== *)

Module research_server.
Import Py Run ToolUtil.

Definition get_ahrefs_refdomains (target : string) (limit : Z)
  (order_by : string) : M json :=
  try_except
    (ahrefs <- AhrefsAPI.new ;;
     result <- AhrefsAPI.get_refdomains ahrefs target limit order_by ;;
     is_error <~ truthy_and_in result "error" ;;
     if is_error then
       problem <~ getitem result "error" ;;
       details <~ get result "details" (JStr "Check API key and balance") ;;
       ret (JObj [("status", JStr "error");
                  ("message", JStr ("API error: " ++ str problem));
                  ("details", details)])
     else
       has_data <~ truthy_and_in result "refdomains" ;;
       if has_data then
         refdomains <~ getitem result "refdomains" ;;
         total_count <~ len refdomains ;;
         ret (JObj [("status", JStr "success");
                    ("target", JStr target);
                    ("refdomains", refdomains);
                    ("total_count", JNum total_count);
                    ("limit", JNum limit);
                    ("order_by", JStr order_by)])
       else
         ret (JObj [("status", JStr "error");
                    ("message", JStr "Failed to get referring domains data");
                    ("raw_result", raw_result result)]))
    (fun e =>
       ret (JObj [("status", JStr "error");
                  ("message",
                   JStr ("Error getting referring domains: " ++ exn_str e))])).

Definition get_ahrefs_backlinks (target : string) (limit : Z)
  (order_by : string) : M json :=
  try_except
    (ahrefs <- AhrefsAPI.new ;;
     result <- AhrefsAPI.get_backlinks ahrefs target limit order_by ;;
     is_error <~ truthy_and_in result "error" ;;
     if is_error then
       problem <~ getitem result "error" ;;
       details <~ get result "details" (JStr "Check API key and balance") ;;
       ret (JObj [("status", JStr "error");
                  ("message", JStr ("API error: " ++ str problem));
                  ("details", details)])
     else
       has_data <~ truthy_and_in result "backlinks" ;;
       if has_data then
         backlinks <~ getitem result "backlinks" ;;
         total_count <~ len backlinks ;;
         ret (JObj [("status", JStr "success");
                    ("target", JStr target);
                    ("backlinks", backlinks);
                    ("total_count", JNum total_count);
                    ("limit", JNum limit);
                    ("order_by", JStr order_by)])
       else
         ret (JObj [("status", JStr "error");
                    ("message", JStr "Failed to get backlinks data");
                    ("raw_result", raw_result result)]))
    (fun e =>
       ret (JObj [("status", JStr "error");
                  ("message",
                   JStr ("Error getting backlinks: " ++ exn_str e))])).

Definition get_ahrefs_organic_keywords (target : string) (limit : Z)
  (order_by : string) (date : option string) : M json :=
  try_except
    (ahrefs <- AhrefsAPI.new ;;
     result <- AhrefsAPI.get_organic_keywords ahrefs target limit date
                 order_by ;;
     is_error <~ truthy_and_in result "error" ;;
     if is_error then
       problem <~ getitem result "error" ;;
       details <~ get result "details" (JStr "Check API key and balance") ;;
       ret (JObj [("status", JStr "error");
                  ("message", JStr ("API error: " ++ str problem));
                  ("details", details)])
     else
       has_data <~ truthy_and_in result "keywords" ;;
       if has_data then
         keywords <~ getitem result "keywords" ;;
         total_count <~ len keywords ;;
         ret (JObj [("status", JStr "success");
                    ("target", JStr target);
                    ("keywords", keywords);
                    ("total_count", JNum total_count);
                    ("limit", JNum limit);
                    ("order_by", JStr order_by);
                    ("date", of_opt_str date)])
       else
         ret (JObj [("status", JStr "error");
                    ("message", JStr "Failed to get organic keywords data");
                    ("raw_result", raw_result result)]))
    (fun e =>
       ret (JObj [("status", JStr "error");
                  ("message",
                   JStr ("Error getting organic keywords: " ++ exn_str e))])).

Definition region_info (region : json) : result json :=
  rbind (get region "id" JNull) (fun id =>
  rbind (get region "searcher" JNull) (fun searcher =>
  rbind (get region "region_key" JNull) (fun region_key =>
  rbind (get region "region_name" JNull) (fun region_name =>
  rbind (get region "enabled" JNull) (fun enabled =>
  rbind (get region "device" JNull) (fun device =>
  Ok (JObj [("id", id); ("searcher", searcher); ("region_key", region_key);
            ("region_name", region_name); ("enabled", enabled);
            ("device", device)]))))))).

Section Regions.

Variable csv_rows : string -> list (list string).

Definition get_topvisor_regions (project_id : Z) : M json :=
  try_except
    (topvisor <- TopvisorAPI.new ;;
     result <- TopvisorAPI.get_project_regions csv_rows topvisor project_id ;;
     has_data <~ truthy_and_in result "result" ;;
     if has_data then
       regions <~ getitem result "result" ;;
       regions_info <~ for_each regions region_info ;;
       ret (JObj [("status", JStr "success");
                  ("project_id", JNum project_id);
                  ("regions", JArr regions_info);
                  ("total_count", JNum (Z.of_nat (length regions_info)))])
     else
       ret (JObj [("status", JStr "error");
                  ("message", JStr "Failed to get region data")]))
    (fun e =>
       ret (JObj [("status", JStr "error");
                  ("message", JStr ("Error getting regions: " ++ exn_str e))])).

(** One call of a tool of [research_server.py] that differs from the tool
    of the same name under [src/tools/]. *)
Inductive tool_call : Type :=
| Get_ahrefs_refdomains (target : string) (limit : Z) (order_by : string)
| Get_ahrefs_backlinks (target : string) (limit : Z) (order_by : string)
| Get_ahrefs_organic_keywords (target : string) (limit : Z)
    (order_by : string) (date : option string)
| Get_topvisor_regions (project_id : Z).

Definition call (c : tool_call) : M json :=
  match c with
  | Get_ahrefs_refdomains target limit order_by =>
      get_ahrefs_refdomains target limit order_by
  | Get_ahrefs_backlinks target limit order_by =>
      get_ahrefs_backlinks target limit order_by
  | Get_ahrefs_organic_keywords target limit order_by date =>
      get_ahrefs_organic_keywords target limit order_by date
  | Get_topvisor_regions project_id => get_topvisor_regions project_id
  end.

End Regions.

End research_server.

(* ===================================================================== *)
(** * src/mcp_chatbot.py: the session registry of [MCP_ChatBot] *)
(* ===================================================================== *)

Module MCP_ChatBot.
Import Py.

(** A [ClientSession] object, by identity.  Every session object is true
    in a condition, so [if not session] asks whether the lookup found one. *)
Definition Session : Type := nat.

(** What [list_tools], [list_prompts] and [list_resources] report. *)
Record Tool : Type := mkTool {
  tool_name : string;
  tool_description : json;
  tool_inputSchema : json
}.

Record Prompt : Type := mkPrompt {
  prompt_name : string;
  prompt_description : json;
  prompt_arguments : json
}.

(** A sub-service as [connect_to_server] meets it.  [connects] is false
    when starting or initialising the session raises; a listing is [None]
    when the call raises. *)
Record Server : Type := mkServer {
  connects : bool;
  session : Session;
  list_tools : option (list Tool);
  list_prompts : option (list Prompt);
  list_resources : option (list string)
}.

Record t : Type := mk {
  available_tools : list json;
  available_prompts : list json;
  sessions : list (string * Session)
}.

(** [MCP_ChatBot.__init__] *)
Definition __init__ : t := mk [] [] [].

Definition add_tool (self : t) (s : Session) (tool : Tool) : t :=
  mk (available_tools self ++
        [JObj [("name", JStr (tool_name tool));
               ("description", tool_description tool);
               ("input_schema", tool_inputSchema tool)]])%list
     (available_prompts self)
     (dict_set (sessions self) (tool_name tool) s).

Definition add_prompt (self : t) (s : Session) (prompt : Prompt) : t :=
  mk (available_tools self)
     (available_prompts self ++
        [JObj [("name", JStr (prompt_name prompt));
               ("description", prompt_description prompt);
               ("arguments", prompt_arguments prompt)]])%list
     (dict_set (sessions self) (prompt_name prompt) s).

Definition add_resource (self : t) (s : Session) (resource_uri : string) : t :=
  mk (available_tools self) (available_prompts self)
     (dict_set (sessions self) resource_uri s).

(** [connect_to_server]: the three listings in turn; the first one that
    raises ends the registration of this server, and what was registered
    before stays. *)
Definition connect_to_server (self : t) (server : Server) : t :=
  if negb (connects server) then self
  else
    match list_tools server with
    | None => self
    | Some tools =>
        let self := fold_left (fun b x => add_tool b (session server) x)
                      tools self in
        match list_prompts server with
        | None => self
        | Some prompts =>
            let self := fold_left (fun b x => add_prompt b (session server) x)
                          prompts self in
            match list_resources server with
            | None => self
            | Some resources =>
                fold_left (fun b x => add_resource b (session server) x)
                  resources self
            end
        end
    end.

(** [connect_to_servers]: the configured servers in the order of the
    configuration file. *)
Definition connect_to_servers (self : t) (servers : list Server) : t :=
  fold_left connect_to_server servers self.

(** [self.sessions.get(name)], the lookup of [process_query],
    [execute_prompt], [call_topvisor_tool] and [call_ahrefs_tool]. *)
Definition lookup (self : t) (name : string) : option Session :=
  dict_get (sessions self) name.

(** The first entry of [self.sessions.items()] whose key starts with
    [papers://]. *)
Fixpoint first_papers (d : list (string * Session)) : option Session :=
  match d with
  | [] => None
  | (uri, sess) :: d' =>
      if startswith uri "papers://" then Some sess else first_papers d'
  end.

(** The session [get_resource] settles on before it reads the resource. *)
Definition resource_session (self : t) (resource_uri : string)
  : option Session :=
  match dict_get (sessions self) resource_uri with
  | Some s => Some s
  | None =>
      if startswith resource_uri "papers://" then first_papers (sessions self)
      else None
  end.

(** What [get_resource] does next. *)
Inductive resource_action : Type :=
| NotFound (resource_uri : string)
| ReadResource (s : Session) (resource_uri : string).

Definition get_resource (self : t) (resource_uri : string) : resource_action :=
  match resource_session self resource_uri with
  | None => NotFound resource_uri
  | Some s => ReadResource s resource_uri
  end.

End MCP_ChatBot.

(* ===================================================================== *)
(** * The registered tools: src/seo.py and src/research_server.py *)
(* ===================================================================== *)

Module seo.
Import Py Run.

(** One call of a tool that [seo.py] registers with [mcp.tool], with its
    arguments. *)
Inductive tool_call : Type :=
| Check_topvisor_setup
| Get_topvisor_projects
| Get_topvisor_keywords (project_id : Z) (folder_id group_id : option Z)
| Get_topvisor_positions_history (project_id : Z) (regions_indexes : json)
    (date1 date2 : option string) (limit offset : Z)
| Get_topvisor_positions_summary (project_id : Z) (date1 date2 : option string)
| Get_topvisor_competitors (project_id : Z)
| Get_topvisor_regions (project_id : Z)
| Get_topvisor_keyword_folders (project_id : Z)
| Get_topvisor_keyword_groups (project_id : Z) (folder_id : option Z)
| Get_topvisor_balance
| Get_topvisor_project_keywords (project_id : Z)
| Check_ahrefs_setup
| Get_ahrefs_refdomains (target : string) (limit : Z)
| Get_ahrefs_backlinks (target : string) (limit : Z)
| Get_ahrefs_organic_keywords (target : string) (limit : Z)
    (date : option string).

Section Call.

Variable csv_rows : string -> list (list string).

Definition call (c : tool_call) : M json :=
  match c with
  | Check_topvisor_setup => tools_topvisor.check_topvisor_setup
  | Get_topvisor_projects => tools_topvisor.get_topvisor_projects
  | Get_topvisor_keywords project_id folder_id group_id =>
      tools_topvisor.get_topvisor_keywords project_id folder_id group_id
  | Get_topvisor_positions_history project_id regions_indexes date1 date2
      limit offset =>
      tools_topvisor.get_topvisor_positions_history project_id regions_indexes
        date1 date2 limit offset
  | Get_topvisor_positions_summary project_id date1 date2 =>
      tools_topvisor.get_topvisor_positions_summary project_id date1 date2
  | Get_topvisor_competitors project_id =>
      tools_topvisor.get_topvisor_competitors project_id
  | Get_topvisor_regions project_id =>
      tools_topvisor.get_topvisor_regions csv_rows project_id
  | Get_topvisor_keyword_folders project_id =>
      tools_topvisor.get_topvisor_keyword_folders project_id
  | Get_topvisor_keyword_groups project_id folder_id =>
      tools_topvisor.get_topvisor_keyword_groups project_id folder_id
  | Get_topvisor_balance => tools_topvisor.get_topvisor_balance
  | Get_topvisor_project_keywords project_id =>
      tools_topvisor.get_topvisor_project_keywords project_id
  | Check_ahrefs_setup => tools_ahrefs.check_ahrefs_setup
  | Get_ahrefs_refdomains target limit =>
      tools_ahrefs.get_ahrefs_refdomains target limit
  | Get_ahrefs_backlinks target limit =>
      tools_ahrefs.get_ahrefs_backlinks target limit
  | Get_ahrefs_organic_keywords target limit date =>
      tools_ahrefs.get_ahrefs_organic_keywords target limit date
  end.

End Call.

End seo.

(* ===================================================================== *)
(** * More built-ins: the text of an input line *)
(* ===================================================================== *)

Module PyText.
Import Py.

(** [c.isspace()] on a code point below 256. *)
Definition is_space (c : ascii) : bool :=
  let n := nat_of_ascii c in
  ((9 <=? n) && (n <=? 13) || (28 <=? n) && (n <=? 32)
   || (n =? 133) || (n =? 160))%nat.

Fixpoint lstrip (s : string) : string :=
  match s with
  | EmptyString => ""
  | String c s' => if is_space c then lstrip s' else s
  end.

Fixpoint rstrip (s : string) : string :=
  match s with
  | EmptyString => ""
  | String c s' =>
      match rstrip s' with
      | EmptyString => if is_space c then "" else String c ""
      | r => String c r
      end
  end.

(** [s.strip()] *)
Definition strip (s : string) : string := rstrip (lstrip s).

(** [c.lower()] on a code point below 256: the letters A to Z and the
    accented capitals 192 to 222, the multiplication sign 215 apart. *)
Definition char_lower (c : ascii) : ascii :=
  let n := nat_of_ascii c in
  if ((65 <=? n) && (n <=? 90)
      || (192 <=? n) && (n <=? 222) && negb (n =? 215))%nat
  then chr (n + 32) else c.

(** [s.lower()] *)
Fixpoint lower (s : string) : string :=
  match s with
  | EmptyString => ""
  | String c s' => String (char_lower c) (lower s')
  end.

(** [s.split()]: the words between runs of white space. *)
Fixpoint split_ws (s : string) : list string :=
  match s with
  | EmptyString => []
  | String c s' =>
      if is_space c then split_ws s'
      else
        match s' with
        | EmptyString => [String c ""]
        | String c' _ =>
            if is_space c' then String c "" :: split_ws s'
            else
              match split_ws s' with
              | h :: t => String c h :: t
              | [] => [String c ""]
              end
        end
  end.

(** [s.split(sep, 1)] when [sep in s]: what stands before the first
    separator, and what stands after it. *)
Fixpoint split_once (sep : ascii) (s : string) : option (string * string) :=
  match s with
  | EmptyString => None
  | String c s' =>
      if Ascii.eqb c sep then Some ("", s')
      else
        match split_once sep s' with
        | Some (k, v) => Some (String c k, v)
        | None => None
        end
  end.

(** [s[1:]] *)
Definition tail (s : string) : string :=
  match s with
  | EmptyString => ""
  | String _ s' => s'
  end.

(** The digits of an integer literal: groups of digits, with single
    underscores between them. *)
Fixpoint literal_digits (after_digit : bool) (acc : Z) (s : string)
  : option Z :=
  match s with
  | EmptyString => if after_digit then Some acc else None
  | String c s' =>
      if is_ascii_digit c
      then literal_digits true (10 * acc + Z.of_nat (nat_of_ascii c - 48)) s'
      else if Ascii.eqb c "_" && after_digit then literal_digits false acc s'
      else None
  end.

(** The number of digits of a literal: the sign and the underscores do not
    count. *)
Fixpoint count_digits (s : string) : Z :=
  match s with
  | EmptyString => 0
  | String c s' => (if is_ascii_digit c then 1 else 0) + count_digits s'
  end.

(** [int(s)] in base 10: white space around, a sign, the digits.  A string
    that is no literal is refused as such; a literal of more digits than
    the interpreter's limit is refused for its length. *)
Definition int (s : string) : result Z :=
  let body := strip s in
  let parsed :=
    match body with
    | String c d =>
        if Ascii.eqb c "+" then literal_digits false 0 d
        else if Ascii.eqb c "-" then option_map Z.opp (literal_digits false 0 d)
        else literal_digits false 0 body
    | EmptyString => None
    end in
  match parsed with
  | Some n =>
      if int_max_str_digits <? count_digits body
      then Raise (too_many_digits (count_digits body))
      else Ok n
  | None => Raise (invalid_literal s)
  end.

(** [int(s) if present and s.isdigit() else default], for an optional word
    of a command line. *)
Definition int_if_digits (word : option string) (default : json)
  : result json :=
  match word with
  | Some s => if isdigit s then rbind (int s) (fun n => Ok (JNum n))
              else Ok default
  | None => Ok default
  end.

End PyText.

(* ===================================================================== *)
(** * src/mcp_chatbot.py: the quick commands and one turn of [chat_loop] *)
(* ===================================================================== *)

Module chat.
Import Py PyText MCP_ChatBot.

(** An item of a prompt content that is a list: an object with a [text],
    or any other object, by its [str]. *)
Inductive content_item : Type :=
| ItemText (text : string)
| ItemOther (str_of_item : string).

(** [result.messages[0].content] of a prompt reply: a [str], an object
    with a [text], an iterable of items, or an object that is none of
    these, for which the [for] of the [join] raises. *)
Inductive prompt_content : Type :=
| ContentStr (text : string)
| ContentText (text : string)
| ContentItems (items : list content_item)
| ContentOpaque (type : string).

(** What [session.get_prompt] returns: a result that is false in a
    condition ([None]), or the contents of its messages, in order. *)
Definition prompt_reply : Type := option (list prompt_content).

(** What [execute_prompt] does with the reply: it prints, and it hands a
    text to [process_query]. *)
Inductive effect : Type :=
| Printed (message : string)
| Queried (text : string).

(** What one input line makes the loop do, up to the first call that
    leaves the process; for [session.get_prompt], with what follows the
    reply or the exception of the call. *)
Inductive action : Type :=
| Continue
| Break
| Resource (a : resource_action)
| ListPrompts
| ShowTopvisorHelp
| ShowAhrefsHelp
| CallTool (s : Session) (tool_name : string) (arguments : json)
| GetPrompt (s : Session) (prompt_name : string)
    (arguments : list (string * string))
    (after : result prompt_reply -> list effect)
| Print (message : string)
| ProcessQuery (query : string).

(** [call_topvisor_tool], up to [session.call_tool]. *)
Definition call_topvisor_tool (self : t) (tool_name : string) (args : json)
  : action :=
  match lookup self tool_name with
  | None =>
      Print ("Topvisor tool '" ++ tool_name
             ++ "' not found. Make sure seo server is running.")
  | Some session => CallTool session tool_name args
  end.

(** [call_ahrefs_tool], up to [session.call_tool]. *)
Definition call_ahrefs_tool (self : t) (tool_name : string) (args : json)
  : action :=
  match lookup self tool_name with
  | None =>
      Print ("Ahrefs tool '" ++ tool_name
             ++ "' not found. Make sure seo server is running.")
  | Some session => CallTool session tool_name args
  end.

(** [item.text if hasattr(item, "text") else str(item)] *)
Definition item_text (item : content_item) : string :=
  match item with
  | ItemText text => text
  | ItemOther str_of_item => str_of_item
  end.

(** The text that [execute_prompt] extracts from a prompt content. *)
Definition prompt_text (prompt_content : prompt_content) : result string :=
  match prompt_content with
  | ContentStr text => Ok text
  | ContentText text => Ok text
  | ContentItems items => Ok (join " " (map item_text items))
  | ContentOpaque type =>
      Raise (type_error ("'" ++ type ++ "' object is not iterable"))
  end.

(** The body of the [try] of [execute_prompt] after [session.get_prompt],
    and its [except Exception as e: print(f"Error: {e}")]. *)
Definition after_get_prompt (prompt_name : string)
  (reply : result prompt_reply) : list effect :=
  match reply with
  | Raise e => [Printed ("Error: " ++ exn_msg e)]
  | Ok None => []
  | Ok (Some []) => []
  | Ok (Some (prompt_content :: _)) =>
      match prompt_text prompt_content with
      | Raise e => [Printed ("Error: " ++ exn_msg e)]
      | Ok text =>
          [Printed (String (chr 10)
                      ("Executing prompt '" ++ prompt_name ++ "'..."));
           Queried text]
      end
  end.

(** [execute_prompt]: the lookup, [session.get_prompt], and what follows
    its reply.  An exception that [process_query] raises is caught by the
    same [except] and printed. *)
Definition execute_prompt (self : t) (prompt_name : string)
  (args : list (string * string)) : action :=
  match lookup self prompt_name with
  | None => Print ("Prompt '" ++ prompt_name ++ "' not found.")
  | Some session =>
      GetPrompt session prompt_name args (after_get_prompt prompt_name)
  end.

(** [args[key] = value] under [if value:] *)
Definition set_if (args : list (string * json)) (key : string) (value : json)
  : list (string * json) :=
  if truthy value then dict_set args key value else args.

Definition get_topvisor_projects (self : t) : action :=
  call_topvisor_tool self "get_topvisor_projects" (JObj []).

Definition get_topvisor_keywords (self : t) (project_id folder_id group_id : json)
  : action :=
  let args := [("project_id", project_id)] in
  let args := set_if args "folder_id" folder_id in
  let args := set_if args "group_id" group_id in
  call_topvisor_tool self "get_topvisor_keywords" (JObj args).

Definition get_topvisor_positions (self : t) (project_id date_from date_to : json)
  : action :=
  let args := [("project_id", project_id)] in
  let args := set_if args "date1" date_from in
  let args := set_if args "date2" date_to in
  call_topvisor_tool self "get_topvisor_positions_history" (JObj args).

Definition get_topvisor_competitors (self : t) (project_id : json) : action :=
  call_topvisor_tool self "get_topvisor_competitors"
    (JObj [("project_id", project_id)]).

Definition get_topvisor_balance (self : t) : action :=
  call_topvisor_tool self "get_topvisor_balance" (JObj []).

Definition get_ahrefs_refdomains (self : t) (target limit order_by : json)
  : action :=
  call_ahrefs_tool self "get_ahrefs_refdomains"
    (JObj [("target", target); ("limit", limit); ("order_by", order_by)]).

Definition get_ahrefs_backlinks (self : t) (target limit order_by : json)
  : action :=
  call_ahrefs_tool self "get_ahrefs_backlinks"
    (JObj [("target", target); ("limit", limit); ("order_by", order_by)]).

Definition get_ahrefs_organic_keywords (self : t)
  (target limit order_by date : json) : action :=
  let args := [("target", target); ("limit", limit); ("order_by", order_by)] in
  let args := set_if args "date" date in
  call_ahrefs_tool self "get_ahrefs_organic_keywords" (JObj args).

(** [parts[i] if len(parts) > i else default] *)
Definition word_or (parts : list string) (i : nat) (default : json) : json :=
  match nth_error parts i with
  | Some s => JStr s
  | None => default
  end.

(** The arguments of [/prompt]: every word [key=value] sets [args[key]]. *)
Fixpoint prompt_args (args : list (string * string)) (words : list string)
  : result (list (string * string)) :=
  match words with
  | [] => Ok args
  | arg :: words' =>
      if str_contains "=" arg then
        match split_once "=" arg with
        | Some (key, value) => prompt_args (dict_set args key value) words'
        | None =>
            Raise (mkExn ValueError
                     "not enough values to unpack (expected 2, got 1)")
        end
      else prompt_args args words'
  end.

(** [try: body  except ValueError: print("Error: project_id must be a
    number")] *)
Definition project_id_guard (body : result action) : result action :=
  match body with
  | Raise e =>
      match exn_type e with
      | ValueError => Ok (Print "Error: project_id must be a number")
      | _ => Raise e
      end
  | ok => ok
  end.

(** The branch of [chat_loop] for a line that starts with a slash, on the
    words of the line. *)
Definition command (self : t) (parts : list string) : result action :=
  match parts with
  | [] => Raise (mkExn IndexError "list index out of range")
  | word :: _ =>
      let command := lower word in
      let short := (length parts <? 2)%nat in
      if String.eqb command "/prompts" then Ok ListPrompts
      else if String.eqb command "/topvisor" then Ok ShowTopvisorHelp
      else if String.eqb command "/ahrefs" then Ok ShowAhrefsHelp
      else if String.eqb command "/setup" then
        Ok (call_topvisor_tool self "check_topvisor_setup" (JObj []))
      else if String.eqb command "/ahrefs_setup" then
        Ok (call_ahrefs_tool self "check_ahrefs_setup" (JObj []))
      else if String.eqb command "/projects" then
        Ok (get_topvisor_projects self)
      else if String.eqb command "/keywords" then
        if short then
          Ok (Print "Usage: /keywords <project_id> [folder_id] [group_id]")
        else
          project_id_guard
            (rbind (int (nth 1 parts "")) (fun project_id =>
             rbind (int_if_digits (nth_error parts 2) JNull) (fun folder_id =>
             rbind (int_if_digits (nth_error parts 3) JNull) (fun group_id =>
             Ok (get_topvisor_keywords self (JNum project_id) folder_id
                   group_id)))))
      else if String.eqb command "/positions" then
        if short then
          Ok (Print "Usage: /positions <project_id> [date_from] [date_to]")
        else
          project_id_guard
            (rbind (int (nth 1 parts "")) (fun project_id =>
             Ok (get_topvisor_positions self (JNum project_id)
                   (word_or parts 2 JNull) (word_or parts 3 JNull))))
      else if String.eqb command "/competitors" then
        if short then Ok (Print "Usage: /competitors <project_id>")
        else
          project_id_guard
            (rbind (int (nth 1 parts "")) (fun project_id =>
             Ok (get_topvisor_competitors self (JNum project_id))))
      else if String.eqb command "/balance" then
        Ok (get_topvisor_balance self)
      else if String.eqb command "/refdomains" then
        if short then
          Ok (Print "Usage: /refdomains <domain> [limit] [order_by]")
        else
          rbind (int_if_digits (nth_error parts 2) (JNum 100)) (fun limit =>
          Ok (get_ahrefs_refdomains self (JStr (nth 1 parts "")) limit
                (word_or parts 3 (JStr "domain_rating:desc"))))
      else if String.eqb command "/backlinks" then
        if short then
          Ok (Print "Usage: /backlinks <domain> [limit] [order_by]")
        else
          rbind (int_if_digits (nth_error parts 2) (JNum 100)) (fun limit =>
          Ok (get_ahrefs_backlinks self (JStr (nth 1 parts "")) limit
                (word_or parts 3 (JStr "domain_rating_source:desc"))))
      else if String.eqb command "/organic" then
        if short then
          Ok (Print "Usage: /organic <domain> [limit] [order_by] [date]")
        else
          rbind (int_if_digits (nth_error parts 2) (JNum 100)) (fun limit =>
          Ok (get_ahrefs_organic_keywords self (JStr (nth 1 parts "")) limit
                (word_or parts 3 (JStr "best_position:asc"))
                (word_or parts 4 JNull)))
      else if String.eqb command "/prompt" then
        if short then
          Ok (Print "Usage: /prompt <name> <arg1=value1> <arg2=value2>")
        else
          rbind (prompt_args [] (skipn 2 parts)) (fun args =>
          Ok (execute_prompt self (nth 1 parts "") args))
      else Ok (Print ("Unknown command: " ++ command))
  end.

(** One turn of the [while True] loop of [chat_loop] on the line that
    [input] returned. *)
Definition turn (self : t) (line : string) : action :=
  let query := strip line in
  if String.eqb query "" then Continue
  else if String.eqb (lower query) "quit" then Break
  else if startswith query "@" then
    let topic := tail query in
    let resource_uri :=
      if String.eqb topic "folders" then "papers://folders"
      else "papers://" ++ topic in
    Resource (get_resource self resource_uri)
  else if startswith query "/" then
    match command self (split_ws query) with
    | Ok a => a
    | Raise e => Print (String (chr 10) ("Error: " ++ exn_msg e))
    end
  else ProcessQuery query.

End chat.

(* ===================================================================== *)
(** * src/mcp_chatbot.py: [process_query] *)
(* ===================================================================== *)

Module query.
Import Py MCP_ChatBot.

(** A block of [response.content], by its [type]: "text", "tool_use", or
    another type, which the loop passes over. *)
Inductive block : Type :=
| TextBlock (text : string)
| ToolUse (id name : string) (input : json)
| OtherBlock (type : string).

Section ProcessQuery.

(** [result.content] of a tool call, which the loop hands back as it is. *)
Variable Content : Type.

(** An entry of [messages]. *)
Inductive message : Type :=
| UserQuery (query : string)
| Assistant (content : list block)
| ToolResult (tool_use_id : string) (content : Content).

(** [self.anthropic.messages.create(..., tools=self.available_tools,
    messages=messages).content], or the exception of the call. *)
Variable create : list json -> list message -> result (list block).

(** [session.call_tool(name, arguments=input).content], or the exception
    of the call. *)
Variable call_tool : Session -> string -> json -> result Content.

(** What [process_query] does that can be seen from outside. *)
Inductive event : Type :=
| Requested (tools : list json) (messages : list message)
| Said (text : string)
| Called (s : Session) (name : string) (input : json).

(** What one pass over [response.content] appends to [messages].  The
    assistant entry holds the list object [assistant_content] itself,
    which the later blocks of the same response still extend. *)
Inductive appended : Type :=
| AssistantContent
| Result (tool_use_id : string) (content : Content).

Record reading : Type := mkReading {
  assistant_content : list block;
  has_tool_use : bool;
  new_messages : list appended;
  events : list event
}.

(** How the [for] over [response.content] ends: at the last block, at the
    [break] of a tool that is not found, or by an exception. *)
Inductive for_end : Type :=
| Finished
| Broke
| Raised (e : exn).

(** The [for content in response.content] loop. *)
Fixpoint read_blocks (self : t) (blocks : list block) (st : reading)
  : reading * for_end :=
  match blocks with
  | [] => (st, Finished)
  | TextBlock text :: rest =>
      read_blocks self rest
        (mkReading (assistant_content st ++ [TextBlock text])%list
           (has_tool_use st) (new_messages st)
           (events st ++ [Said text])%list)
  | ToolUse id name input :: rest =>
      let content := (assistant_content st ++ [ToolUse id name input])%list in
      let messages := (new_messages st ++ [AssistantContent])%list in
      match lookup self name with
      | None =>
          (mkReading content true messages
             (events st ++ [Said ("Tool '" ++ name ++ "' not found.")])%list,
           Broke)
      | Some session =>
          let events := (events st ++ [Called session name input])%list in
          match call_tool session name input with
          | Raise e => (mkReading content true messages events, Raised e)
          | Ok result_content =>
              read_blocks self rest
                (mkReading content true
                   (messages ++ [Result id result_content])%list events)
          end
      end
  | OtherBlock _ :: rest => read_blocks self rest st
  end.

(** The entry of [messages] as the next request sees it. *)
Definition as_message (final_content : list block) (a : appended) : message :=
  match a with
  | AssistantContent => Assistant final_content
  | Result id content => ToolResult id content
  end.

(** How [process_query] ends; [Running] when the model has not stopped
    asking for tools after [fuel] requests. *)
Inductive outcome : Type :=
| Returns
| Raises (e : exn)
| Running.

(** The [while True] loop, for at most [fuel] requests to the model. *)
Fixpoint process_query_loop (self : t) (fuel : nat) (messages : list message)
  (seen : list event) : list event * outcome :=
  match fuel with
  | O => (seen, Running)
  | S fuel' =>
      let seen := (seen ++ [Requested (available_tools self) messages])%list in
      match create (available_tools self) messages with
      | Raise e => (seen, Raises e)
      | Ok blocks =>
          let (st, ended) := read_blocks self blocks (mkReading [] false [] []) in
          let seen := (seen ++ events st)%list in
          match ended with
          | Raised e => (seen, Raises e)
          | _ =>
              if has_tool_use st then
                process_query_loop self fuel'
                  (messages
                   ++ map (as_message (assistant_content st)) (new_messages st))%list
                  seen
              else (seen, Returns)
          end
      end
  end.

(** [process_query(query)] *)
Definition process_query (self : t) (fuel : nat) (query : string)
  : list event * outcome :=
  process_query_loop self fuel [UserQuery query] [].

End ProcessQuery.

Arguments UserQuery {Content} query.
Arguments Assistant {Content} content.
Arguments ToolResult {Content} tool_use_id content.
Arguments Requested {Content} tools messages.
Arguments Said {Content} text.
Arguments Called {Content} s name input.
Arguments Returns : clear implicits.
Arguments Raises e : clear implicits.
Arguments Running : clear implicits.

End query.

(* ===================================================================== *)
(** * The vocabulary of the properties *)
(* ===================================================================== *)

Import Py Run ToolUtil.

(** ** Provider clients *)

Definition absent_or_empty (key : option string) : Prop :=
  key = None \/ key = Some "".

Definition non_empty (key : option string) : Prop :=
  exists k, key = Some k /\ k <> "".

(** An envelope that reports a failure: a dict with an [error] key, and
    without a [result] key. *)
Definition error_envelope (v : json) : Prop :=
  exists kv,
    v = JObj kv /\ dict_has kv "error" = true /\ dict_has kv "result" = false.

(** The network never answers 200: it answers another status or the
    transport fails. *)
Definition refuses (w : World) : Prop :=
  forall req,
    match network w req with
    | Answers r => status_code r <> 200
    | Fails _ => True
    end.

(** A call that returns, whatever the network does, and that returns an
    error envelope whenever the network refuses. *)
Definition never_raises (m : M json) : Prop :=
  forall w log,
    exists log' v, m w log = (log', Ok v) /\ (refuses w -> error_envelope v).

(** ** Normalisation in [get_topvisor_projects] *)

(** The tool-level normalisation: the branches on [error] and [result],
    and the [except] branch for what they raise. *)
Definition normalize (result : json) : json :=
  match tools_topvisor.projects_envelope result with
  | Ok envelope => envelope
  | Raise e => tools_topvisor.projects_failure e
  end.

Definition failed_envelope : json :=
  JObj [("status", JStr "error");
        ("message", JStr "Failed to get project data");
        ("help", JStr "Check TOPVISOR_SETUP.md file for API key setup")].

(** ** The session registry *)

(** The server registers the name: it connects, and the name is in one of
    its listings that is reached before a listing raises. *)
Definition registers (server : MCP_ChatBot.Server) (name : string) : bool :=
  MCP_ChatBot.connects server &&
  match MCP_ChatBot.list_tools server with
  | None => false
  | Some tools =>
      existsb (fun x => String.eqb (MCP_ChatBot.tool_name x) name) tools ||
      match MCP_ChatBot.list_prompts server with
      | None => false
      | Some prompts =>
          existsb (fun x => String.eqb (MCP_ChatBot.prompt_name x) name)
            prompts ||
          match MCP_ChatBot.list_resources server with
          | None => false
          | Some resources => existsb (fun x => String.eqb x name) resources
          end
      end
  end.

Definition is_papers (uri : string) : bool := startswith uri "papers://".

(** ** Position history *)

(** A non-empty string of the decimal digits 0 to 9. *)
Definition digit_string (s : string) : Prop :=
  s <> "" /\ str_forall is_ascii_digit s = true.

(** A digit string that [int] reads: one of at most 4300 digits, the
    interpreter's limit. *)
Definition readable (s : string) : Prop :=
  digit_string s /\ Z.of_nat (String.length s) <= int_max_str_digits.

(** A digit string of more digits than the limit. *)
Definition beyond_limit (s : string) : Prop :=
  digit_string s /\ int_max_str_digits < Z.of_nat (String.length s).

(** [c * n] *)
Fixpoint str_repeat (c : ascii) (n : nat) : string :=
  match n with
  | O => ""
  | S n' => String c (str_repeat c n')
  end.

(** The digit 1, 4301 times. *)
Definition long_digits : string := str_repeat "1" 4301.

(** The number a digit string denotes, by the weight of each digit. *)
Fixpoint decimal_value (s : string) : Z :=
  match s with
  | EmptyString => 0
  | String c s' =>
      Z.of_nat (nat_of_ascii c - 48) * 10 ^ Z.of_nat (String.length s')
      + decimal_value s'
  end.

(** The record's date, project id and region are the first three
    components of some key. *)
Definition from_key (p : tools_topvisor.position) : Prop :=
  exists date_key rest,
    split ":" date_key
    = tools_topvisor.date p :: tools_topvisor.project_id_from_key p
      :: tools_topvisor.region_from_key p :: rest.

(** ** Envelopes *)

(** What a computation returns, on the paths where it returns. *)
Definition returning {A : Type} (Q : A -> Prop) (m : M A) : Prop :=
  forall w log,
    match snd (m w log) with
    | Ok a => Q a
    | Raise _ => True
    end.

(** The computation returns on every path. *)
Definition always {A : Type} (Q : A -> Prop) (m : M A) : Prop :=
  forall w log, exists log' a, m w log = (log', Ok a) /\ Q a.

(** A dict without an [error] key. *)
Definition no_error_key (envelope : json) : Prop :=
  is_dict envelope = true /\ has_key envelope "error" = false.

(** [status] "success" and the key [error] exclude each other. *)
Definition exclusive (envelope : json) : Prop :=
  (status envelope = Some (JStr "success") -> has_key envelope "error" = false)
  /\ (has_key envelope "error" = true ->
      status envelope <> Some (JStr "success")).

(** ** Concrete worlds, responses and servers *)

(** No key is set and nothing can be reached. *)
Definition quiet_world : World :=
  mkWorld None None None false "2025-08-22" "2025-08-15"
    (fun _ => Fails (mkExn ConnectionError "unreachable")).

(** The keys are set and the provider answers 401 to everything. *)
Definition unauthorized : World :=
  mkWorld (Some "1") (Some "key") (Some "key") true "2025-08-22" "2025-08-15"
    (fun _ => Answers (mkResponse 401 "Unauthorized"
                         (Ok (JObj [("message", JStr "Unauthorized")])))).

(** The keys are set and the provider answers 200 with [body]. *)
Definition answering (body : json) : World :=
  mkWorld (Some "1") (Some "key") (Some "key") true "2025-08-22" "2025-08-15"
    (fun _ => Answers (mkResponse 200 "" (Ok body))).

Definition one_project : json :=
  JObj [("result",
         JArr [JObj [("id", JNum 7); ("name", JStr "shop");
                     ("url", JStr "shop.example"); ("status", JNum 1);
                     ("date_add", JStr "2025-01-01")]])].

(** A position history with a rank, a "--" and a key of one component. *)
Definition one_keyword : json :=
  JObj [("result",
         JObj [("keywords",
                JArr [JObj [("name", JStr "shoes");
                            ("positionsData",
                             JObj [("2025-08-15:19294818:33",
                                    JObj [("position", JStr "5")]);
                                   ("2025-08-16:19294818:33",
                                    JObj [("position", JStr "--")]);
                                   ("2025-08-17",
                                    JObj [("position", JStr "7")])])]])])].

(** The one-character string "superscript two", code point 178. *)
Definition superscript_two : string := String (chr 178) "".

Definition search_tool : MCP_ChatBot.Tool :=
  MCP_ChatBot.mkTool "search" (JStr "search the index") (JObj []).

Definition alpha : MCP_ChatBot.Server :=
  MCP_ChatBot.mkServer true 1%nat (Some [search_tool]) (Some []) (Some []).

Definition beta : MCP_ChatBot.Server :=
  MCP_ChatBot.mkServer true 2%nat (Some [search_tool]) (Some []) (Some []).

Definition gamma : MCP_ChatBot.Server :=
  MCP_ChatBot.mkServer true 3%nat (Some []) (Some []) (Some ["papers://ai"]).

Definition papers_server : MCP_ChatBot.Server :=
  MCP_ChatBot.mkServer true 7%nat (Some [search_tool]) (Some [])
    (Some ["papers://folders"]).

Definition papers_bot : MCP_ChatBot.t :=
  MCP_ChatBot.connect_to_servers MCP_ChatBot.__init__
    [alpha; gamma; papers_server].

(** ** More of the session registry *)

(** The tool names in [available_tools], the list given to the model. *)
Definition advertised (self : MCP_ChatBot.t) : list string :=
  flat_map (fun tool => match field tool "name" with
                        | Some (JStr name) => [name]
                        | _ => []
                        end)
    (MCP_ChatBot.available_tools self).

(** The tools a server gets to register: none when it does not connect or
    [list_tools] raises. *)
Definition listed_tools (server : MCP_ChatBot.Server)
  : list MCP_ChatBot.Tool :=
  if MCP_ChatBot.connects server then
    match MCP_ChatBot.list_tools server with
    | Some tools => tools
    | None => []
    end
  else [].

(** A server that cannot be started. *)
Definition unreachable : MCP_ChatBot.Server :=
  MCP_ChatBot.mkServer false 9%nat None None None.

(** The server registers nothing: it does not connect, or its first
    listing raises. *)
Definition registers_nothing (server : MCP_ChatBot.Server) : Prop :=
  MCP_ChatBot.connects server = false \/ MCP_ChatBot.list_tools server = None.

(** The invariant of the registry: a name has one entry in the session
    table, and every advertised tool has one. *)
Definition well_formed (self : MCP_ChatBot.t) : Prop :=
  NoDup (dict_keys (MCP_ChatBot.sessions self))
  /\ forall name, In name (advertised self) ->
                  dict_has (MCP_ChatBot.sessions self) name = true.

(** The names a server registers, in the order it registers them: its
    tools, then its prompts, then its resources, up to the first listing
    that raises. *)
Definition registered_names (server : MCP_ChatBot.Server) : list string :=
  if MCP_ChatBot.connects server then
    match MCP_ChatBot.list_tools server with
    | None => []
    | Some tools =>
        map MCP_ChatBot.tool_name tools ++
        match MCP_ChatBot.list_prompts server with
        | None => []
        | Some prompts =>
            map MCP_ChatBot.prompt_name prompts ++
            match MCP_ChatBot.list_resources server with
            | None => []
            | Some resources => resources
            end
        end
    end
  else [].

(** [names] after [seen], each name once, at the place where it is first
    met. *)
Definition first_seen (seen names : list string) : list string :=
  fold_left (fun acc name =>
               if existsb (String.eqb name) acc then acc
               else (acc ++ [name])%list)
    names seen.

(** ** The chat loop *)

(** The only text that the reply to [get_prompt] lets [execute_prompt]
    hand to [process_query]: the text of the first message of a reply that
    arrived. *)
Definition prompt_handover (reply : result chat.prompt_reply)
  (effects : list chat.effect) : Prop :=
  forall text,
    In (chat.Queried text) effects ->
    exists prompt_content messages,
      reply = Ok (Some (prompt_content :: messages))
      /\ chat.prompt_text prompt_content = Ok text.

(** What a turn may do.  A tool or prompt call that the turn makes itself
    goes to the session registered under the name it calls.  The turn
    hands to [process_query] the stripped line, when it starts with
    neither a slash nor an at sign, or, after [/prompt], the text of the
    reply of the session registered under the prompt name, and nothing
    else. *)
Definition sound_action (self : MCP_ChatBot.t) (line : string)
  (a : chat.action) : Prop :=
  match a with
  | chat.CallTool s name _ => MCP_ChatBot.lookup self name = Some s
  | chat.GetPrompt s name _ after =>
      MCP_ChatBot.lookup self name = Some s
      /\ startswith (PyText.strip line) "/" = true
      /\ forall reply, prompt_handover reply (after reply)
  | chat.ProcessQuery q =>
      q = PyText.strip line
      /\ startswith q "/" = false /\ startswith q "@" = false
  | _ => True
  end.

(** The same for the branch of the slash commands, which hands no line to
    [process_query]. *)
Definition sound_command (self : MCP_ChatBot.t) (r : result chat.action)
  : Prop :=
  match r with
  | Ok (chat.CallTool s name _) => MCP_ChatBot.lookup self name = Some s
  | Ok (chat.GetPrompt s name _ after) =>
      MCP_ChatBot.lookup self name = Some s
      /\ forall reply, prompt_handover reply (after reply)
  | Ok (chat.ProcessQuery _) => False
  | _ => True
  end.

(** An optional word of a command that [int] can read whenever [isdigit]
    accepts it: absent, not all digits, or at most 4300 of the digits 0 to
    9. *)
Definition plain_word (word : option string) : Prop :=
  match word with
  | None => True
  | Some s => isdigit s = false \/ readable s
  end.

(** A word that [isdigit] accepts and [int] refuses: it has a superscript
    digit, or more than 4300 digits. *)
Definition refused_word (s : string) : Prop :=
  isdigit s = true /\ ~ readable s.

(** The number an optional word stands for, or the default. *)
Definition number_or (word : option string) (default : json) : json :=
  match word with
  | Some s => if isdigit s then JNum (decimal_value s) else default
  | None => default
  end.

(** ** Requests *)

(** The computation sends nothing. *)
Definition quiet {A : Type} (m : M A) : Prop :=
  forall w log, fst (m w log) = log.

(** The computation sends no request or one. *)
Definition at_most_once {A : Type} (m : M A) : Prop :=
  forall w log,
    fst (m w log) = log \/ exists r, fst (m w log) = (log ++ [r])%list.

(** The computation sends one request, and it is [request]. *)
Definition sends {A : Type} (m : M A) (request : Request) : Prop :=
  forall w log, fst (m w log) = (log ++ [request])%list.

(** The POST of a Topvisor client and the GET of an Ahrefs client. *)
Definition topvisor_post (self : TopvisorAPI.t) (endpoint : string)
  (payload : json) : Request :=
  mkRequest POST (TopvisorAPI.base_url self ++ "/" ++ endpoint)
    (TopvisorAPI.headers self) payload 60.

Definition ahrefs_get (self : AhrefsAPI.t) (endpoint : string)
  (params : json) : Request :=
  mkRequest GET (AhrefsAPI.base_url self ++ "/" ++ endpoint)
    (AhrefsAPI.headers self) params 60.

(** Neither API key is set. *)
Definition keyless (w : World) : Prop :=
  absent_or_empty (TOPVISOR_API_KEY w) /\ absent_or_empty (AHREFS_API_KEY w).








(** The envelope reports a failure: its status is "error", or "warning" in
    the setup checks. *)
Definition reports_failure (envelope : json) : Prop :=
  status envelope = Some (JStr "error")
  \/ status envelope = Some (JStr "warning").

(** ** Listings *)

(** The field under which a tool returns a list together with its
    [total_count]. *)
Definition list_field (c : seo.tool_call) : option string :=
  match c with
  | seo.Get_topvisor_projects => Some "projects"
  | seo.Get_topvisor_keywords _ _ _ => Some "keywords"
  | seo.Get_topvisor_positions_history _ _ _ _ _ _ => Some "positions"
  | seo.Get_topvisor_competitors _ => Some "competitors"
  | seo.Get_topvisor_regions _ => Some "regions"
  | seo.Get_topvisor_keyword_folders _ => Some "folders"
  | seo.Get_topvisor_keyword_groups _ _ => Some "groups"
  | _ => None
  end.

(** A successful envelope holds a list under [key], and [total_count] is
    its length. *)
Definition counted (key : string) (envelope : json) : Prop :=
  status envelope = Some (JStr "success") ->
  exists l,
    field envelope key = Some (JArr l)
    /\ field envelope "total_count" = Some (JNum (Z.of_nat (length l))).

(** ** The records of the position history *)

(** What a record of [positions_info] says about the entry it was made
    from: the key gave its date, project id and region; the value is a
    string; the record is flagged as not ranking when that string is "--";
    and its numeric position is the number the string denotes when the
    string is all digits, and absent otherwise. *)
Definition record_sound (p : tools_topvisor.position) : Prop :=
  from_key p
  /\ exists s,
       tools_topvisor.position_value p = JStr s
       /\ tools_topvisor.is_not_ranking p = String.eqb s "--"
       /\ ((readable s
            /\ tools_topvisor.position_numeric p = Some (decimal_value s))
           \/ (isdigit s = false
               /\ tools_topvisor.position_numeric p = None)).

(** The record was read from the response: [response["result"]["keywords"]]
    holds a keyword dict whose [name] (or "unknown") is the keyword name of
    the record, and whose [positionsData] holds an entry whose key splits
    into the date, the project id and the region of the record, and whose
    [position] is the position value of the record. *)
Definition read_from (response : json) (p : tools_topvisor.position) : Prop :=
  exists result_data keywords items keyword entries date_key info rest,
    field response "result" = Some result_data
    /\ field result_data "keywords" = Some keywords
    /\ iter keywords = Ok items
    /\ In (JObj keyword) items
    /\ tools_topvisor.keyword_name p
       = match dict_get keyword "name" with
         | Some name => name
         | None => JStr "unknown"
         end
    /\ dict_get keyword "positionsData" = Some (JObj entries)
    /\ In (date_key, JObj info) entries
    /\ split ":" date_key
       = tools_topvisor.date p :: tools_topvisor.project_id_from_key p
         :: tools_topvisor.region_from_key p :: rest
    /\ dict_get info "position" = Some (tools_topvisor.position_value p).

(** [first] and [last] are the least and the greatest of [dates], or
    "no_data" when there is none. *)
Definition spans (dates : list string) (first last : string) : Prop :=
  match dates with
  | [] => first = "no_data" /\ last = "no_data"
  | _ =>
      In first dates /\ In last dates
      /\ forall d, In d dates ->
                   String.ltb d first = false /\ String.ltb last d = false
  end.

(** The summary fields of a successful position history agree with its
    records. *)
Definition history_summary (ps : list tools_topvisor.position)
  (envelope : json) : Prop :=
  field envelope "positions" = Some (JArr (map tools_topvisor.position_json ps))
  /\ field envelope "total_count" = Some (JNum (Z.of_nat (length ps)))
  /\ (exists u,
        field envelope "unique_keywords" = Some (JNum u)
        /\ u <= Z.of_nat (length ps) /\ (ps = [] -> u = 0)
        /\ (ps <> [] -> 1 <= u))
  /\ exists first last,
       field envelope "date_range"
       = Some (JObj [("start", JStr first); ("end", JStr last)])
       /\ spans (map tools_topvisor.date ps) first last.

(** A successful envelope of the position history agrees with the
    response of the client: its records were read from the response, each
    says what its entry says, and the summary counts them. *)
Definition history_agrees (response envelope : json) : Prop :=
  status envelope = Some (JStr "success") ->
  exists ps,
    Forall (read_from response) ps
    /\ Forall record_sound ps /\ history_summary ps envelope.

(** A string that [isdigit] accepts and [int] cannot read. *)
Definition unreadable (s : string) : Prop :=
  isdigit s = true /\ ~ digit_string s.

(** ** The setup checks *)

(** An entry of the [checks] of a setup report. *)
Definition check (envelope : json) (name : string) : option json :=
  match field envelope "checks" with
  | Some checks => field checks name
  | None => None
  end.

(** The status of a setup report agrees with its checks: "success" goes
    with a checked connection, and a missing key with "error". *)
Definition consistent_report (envelope : json) : Prop :=
  (status envelope = Some (JStr "success")
   <-> check envelope "api_connection" = Some (JBool true))
  /\ (check envelope "api_key_set" = Some (JBool false) ->
      status envelope = Some (JStr "error")).

(** The provider answers every request with status 200 and the JSON
    document [body]. *)
Definition answers (w : World) (body : json) : Prop :=
  forall req,
    exists r,
      network w req = Answers r /\ status_code r = 200 /\ body_json r = Ok body.

(** The tools that look for an [error] entry in what the client returned. *)
Definition checks_error_entry (c : seo.tool_call) : bool :=
  match c with
  | seo.Check_topvisor_setup | seo.Get_topvisor_projects
  | seo.Get_topvisor_positions_history _ _ _ _ _ _
  | seo.Check_ahrefs_setup | seo.Get_ahrefs_refdomains _ _
  | seo.Get_ahrefs_backlinks _ _ | seo.Get_ahrefs_organic_keywords _ _ _ =>
      true
  | _ => false
  end.

(** ** The calls of [process_query] *)

(** A call of a tool goes to the session registered under the name of the
    tool. *)
Definition routed {Content : Type} (self : MCP_ChatBot.t)
  (ev : query.event Content) : Prop :=
  match ev with
  | query.Called s name _ => MCP_ChatBot.lookup self name = Some s
  | _ => True
  end.

(** A request to the model offers the advertised tools, and its first
    message is the query. *)
Definition asks_about {Content : Type} (self : MCP_ChatBot.t) (q : string)
  (ev : query.event Content) : Prop :=
  match ev with
  | query.Requested tools messages =>
      tools = MCP_ChatBot.available_tools self
      /\ exists rest, messages = query.UserQuery q :: rest
  | _ => True
  end.

(** The response asks for no tool. *)
Definition uses_no_tool (blocks : list query.block) : bool :=
  forallb (fun b => match b with
                    | query.ToolUse _ _ _ => false
                    | _ => true
                    end) blocks.

(** The texts of a response, as the loop prints them. *)
Definition said {Content : Type} (blocks : list query.block)
  : list (query.event Content) :=
  flat_map (fun b => match b with
                     | query.TextBlock text => [query.Said text]
                     | _ => []
                     end) blocks.

(** ** Normalising again *)

(** What a tool makes of the provider's response [body]: its value in a
    world that has the keys and answers 200 with [body]. *)
Definition normalized (tool : M json) (body : json) : result json :=
  value tool (answering body).

(** The Topvisor tools that look for [result] in what the client
    returned. *)
Definition reads_result (c : seo.tool_call) : bool :=
  match c with
  | seo.Get_topvisor_projects | seo.Get_topvisor_keywords _ _ _
  | seo.Get_topvisor_positions_history _ _ _ _ _ _
  | seo.Get_topvisor_positions_summary _ _ _ | seo.Get_topvisor_competitors _
  | seo.Get_topvisor_keyword_folders _ | seo.Get_topvisor_keyword_groups _ _
  | seo.Get_topvisor_balance => true
  | _ => false
  end.

(** The three data tools of Ahrefs, in [src/tools/ahrefs.py] and in
    [src/research_server.py]. *)
Definition ahrefs_data (c : seo.tool_call) : bool :=
  match c with
  | seo.Get_ahrefs_refdomains _ _ | seo.Get_ahrefs_backlinks _ _
  | seo.Get_ahrefs_organic_keywords _ _ _ => true
  | _ => false
  end.

Definition research_ahrefs_data (c : research_server.tool_call) : bool :=
  match c with
  | research_server.Get_topvisor_regions _ => false
  | _ => true
  end.

(* ===================================================================== *)
(** * Properties *)
(* ===================================================================== *)

(** ** Dictionaries *)

Lemma dict_get_set {V : Type} (d : list (string * V)) (k k' : string) (v : V) :
  dict_get (dict_set d k v) k' =
  if String.eqb k k' then Some v else dict_get d k'.
Proof.
  induction d as [|[k0 v0] d IH]; simpl.
  - reflexivity.
  - destruct (String.eqb_spec k0 k) as [->|Hne]; simpl.
    + destruct (String.eqb k k'); reflexivity.
    + rewrite IH.
      destruct (String.eqb_spec k0 k') as [->|Hne'].
      * destruct (String.eqb_spec k k') as [->|_]; [congruence | reflexivity].
      * reflexivity.
Qed.

Lemma dict_get_set_same {V : Type} (d : list (string * V)) (k : string) (v : V) :
  dict_get (dict_set d k v) k = Some v.
Proof. rewrite dict_get_set, String.eqb_refl. reflexivity. Qed.

(** An assignment keeps the order of the keys: a key that is already there
    stays where it was first put, a new key goes last. *)
Lemma dict_keys_set {V : Type} (d : list (string * V)) (k : string) (v : V) :
  dict_keys (dict_set d k v) =
  if dict_has d k then dict_keys d else (dict_keys d ++ [k])%list.
Proof.
  unfold dict_has, dict_keys.
  induction d as [|[k0 v0] d IH]; simpl.
  - reflexivity.
  - destruct (String.eqb k0 k); simpl.
    + reflexivity.
    + rewrite IH. destruct (dict_get d k); reflexivity.
Qed.

(** ** The provider clients *)

Lemma absent_or_empty_falsy key :
  absent_or_empty key -> truthy (of_opt_str key) = false.
Proof. intros [-> | ->]; reflexivity. Qed.

Lemma non_empty_truthy key :
  non_empty key -> truthy (of_opt_str key) = true.
Proof.
  intros (k & -> & Hk). simpl.
  destruct (String.eqb_spec k ""); [contradiction | reflexivity].
Qed.

(** C8.  Constructing either client with an API key that is absent or empty
    raises [ValueError] and leaves the request log as it was, so nothing was
    sent; constructing it with a non-empty key returns the client and sends
    nothing either. *)
Theorem construction_fails_without_key :
  forall (user_id key : option string) (w : World) (log : list Request),
    (absent_or_empty key ->
       TopvisorAPI.__init__ user_id key w log =
         (log, Raise (mkExn ValueError "API key Topvisor not found! "))
       /\ AhrefsAPI.__init__ key w log =
         (log, Raise (mkExn ValueError
            "API key Ahrefs not found! Please set AHREFS_API_KEY environment variable.")))
    /\ (non_empty key ->
       (exists client, TopvisorAPI.__init__ user_id key w log = (log, Ok client)
                       /\ TopvisorAPI.api_key client = key)
       /\ (exists client, AhrefsAPI.__init__ key w log = (log, Ok client)
                          /\ AhrefsAPI.api_key client = key)).
Proof.
  intros user_id key w log. split.
  - intros H. apply absent_or_empty_falsy in H.
    unfold TopvisorAPI.__init__, AhrefsAPI.__init__. rewrite H. simpl.
    split; reflexivity.
  - intros H. apply non_empty_truthy in H.
    unfold TopvisorAPI.__init__, AhrefsAPI.__init__. rewrite H. simpl.
    split; eexists; split; reflexivity.
Qed.

Lemma construction_fails_without_key_witness :
  (TopvisorAPI.__init__ None (Some "") quiet_world [] =
     ([], Raise (mkExn ValueError "API key Topvisor not found! "))
   /\ AhrefsAPI.__init__ (Some "") quiet_world [] =
     ([], Raise (mkExn ValueError
        "API key Ahrefs not found! Please set AHREFS_API_KEY environment variable.")))
  /\ ((exists client,
         TopvisorAPI.__init__ None (Some "secret") quiet_world [] = ([], Ok client)
         /\ TopvisorAPI.api_key client = Some "secret")
      /\ (exists client,
            AhrefsAPI.__init__ (Some "secret") quiet_world [] = ([], Ok client)
            /\ AhrefsAPI.api_key client = Some "secret")).
Proof.
  split.
  - apply (proj1 (construction_fails_without_key None (Some "") quiet_world [])).
    right. reflexivity.
  - apply (proj2 (construction_fails_without_key None (Some "secret")
                    quiet_world [])).
    exists "secret". split; [reflexivity | discriminate].
Defined.

(** The tools build their clients from the environment: without the key
    nothing is sent either. *)
Lemma new_client_without_key (w : World) (log : list Request) :
  (absent_or_empty (TOPVISOR_API_KEY w) ->
     exists e, TopvisorAPI.new w log = (log, Raise e))
  /\ (absent_or_empty (AHREFS_API_KEY w) ->
     exists e, AhrefsAPI.new w log = (log, Raise e)).
Proof.
  split; intros H; apply absent_or_empty_falsy in H.
  - unfold TopvisorAPI.new, TopvisorAPI.__init__, bind, ask. rewrite H.
    eexists. reflexivity.
  - unfold AhrefsAPI.new, AhrefsAPI.__init__, bind, ask. rewrite H.
    eexists. reflexivity.
Qed.

(** C10.  In [get_project_keywords] a [folder_id] or [group_id] of 0 is
    dropped like [None]: the payload, and with it the call, is the one of
    the unfiltered request, and no payload carries a filter of 0. *)
Theorem zero_id_is_no_filter :
  forall (self : TopvisorAPI.t) (project_id : Z) (folder_id group_id : option Z),
    TopvisorAPI.project_keywords_payload project_id (Some 0) group_id
      = TopvisorAPI.project_keywords_payload project_id None group_id
    /\ TopvisorAPI.project_keywords_payload project_id folder_id (Some 0)
      = TopvisorAPI.project_keywords_payload project_id folder_id None
    /\ TopvisorAPI.project_keywords_payload project_id (Some 0) (Some 0)
      = JObj [("project_id", JNum project_id)]
    /\ TopvisorAPI.get_project_keywords self project_id (Some 0) group_id
      = TopvisorAPI.get_project_keywords self project_id None group_id
    /\ TopvisorAPI.get_project_keywords self project_id folder_id (Some 0)
      = TopvisorAPI.get_project_keywords self project_id folder_id None
    /\ field (TopvisorAPI.project_keywords_payload project_id folder_id group_id)
         "folder_id" <> Some (JNum 0)
    /\ field (TopvisorAPI.project_keywords_payload project_id folder_id group_id)
         "group_id" <> Some (JNum 0).
Proof.
  intros self project_id folder_id group_id.
  assert (Hf : TopvisorAPI.project_keywords_payload project_id (Some 0) group_id
               = TopvisorAPI.project_keywords_payload project_id None group_id)
    by reflexivity.
  assert (Hg : TopvisorAPI.project_keywords_payload project_id folder_id (Some 0)
               = TopvisorAPI.project_keywords_payload project_id folder_id None)
    by reflexivity.
  split; [exact Hf|]. split; [exact Hg|]. split; [reflexivity|].
  split; [unfold TopvisorAPI.get_project_keywords; rewrite Hf; reflexivity|].
  split; [unfold TopvisorAPI.get_project_keywords; rewrite Hg; reflexivity|].
  split.
  - unfold TopvisorAPI.project_keywords_payload.
    destruct folder_id as [f|], group_id as [g|]; simpl;
      try destruct (Z.eqb_spec f 0); try destruct (Z.eqb_spec g 0);
      simpl; congruence.
  - unfold TopvisorAPI.project_keywords_payload.
    destruct folder_id as [f|], group_id as [g|]; simpl;
      try destruct (Z.eqb_spec f 0); try destruct (Z.eqb_spec g 0);
      simpl; congruence.
Qed.

(** *** What the clients return *)

Ltac case_status :=
  repeat match goal with
         | |- context [Z.eqb ?a ?b] =>
             destruct (Z.eqb_spec a b); try contradiction
         end.

Lemma topvisor_make_request_never_raises self endpoint payload csv :
  never_raises (TopvisorAPI._make_request self endpoint payload csv).
Proof.
  intros w log.
  unfold TopvisorAPI._make_request, try_except, bind, send, ret, lift.
  set (req := mkRequest POST _ _ _ _).
  unfold refuses.
  destruct (network w req) as [r|e] eqn:Hnet.
  - destruct (Z.eqb_spec (status_code r) 200) as [H200|H200].
    + destruct csv.
      * do 2 eexists. split; [reflexivity|].
        intros Hw. specialize (Hw req). rewrite Hnet in Hw. contradiction.
      * destruct (body_json r) as [v|e]; simpl.
        -- do 2 eexists. split; [reflexivity|].
           intros Hw. specialize (Hw req). rewrite Hnet in Hw. contradiction.
        -- destruct (exn_type e); do 2 eexists;
             (split; [reflexivity|]); intros _; eexists;
             (repeat split; reflexivity).
    + case_status; do 2 eexists; (split; [reflexivity|]); intros _;
        eexists; (repeat split; reflexivity).
  - simpl. destruct (exn_type e); do 2 eexists;
      (split; [reflexivity|]); intros _; eexists;
      (repeat split; reflexivity).
Qed.

Lemma ahrefs_make_request_never_raises self endpoint params :
  never_raises (AhrefsAPI._make_request self endpoint params).
Proof.
  intros w log.
  unfold AhrefsAPI._make_request, try_except, bind, send, ret, lift.
  set (req := mkRequest GET _ _ _ _).
  unfold refuses.
  destruct (network w req) as [r|e] eqn:Hnet.
  - destruct (Z.eqb_spec (status_code r) 200) as [H200|H200].
    + destruct (body_json r) as [v|e]; simpl.
      * do 2 eexists. split; [reflexivity|].
        intros Hw. specialize (Hw req). rewrite Hnet in Hw. contradiction.
      * destruct (exn_type e); do 2 eexists;
          (split; [reflexivity|]); intros _; eexists;
          (repeat split; reflexivity).
    + case_status; do 2 eexists; (split; [reflexivity|]); intros _;
        eexists; (repeat split; reflexivity).
  - simpl. destruct (exn_type e); do 2 eexists;
      (split; [reflexivity|]); intros _; eexists;
      (repeat split; reflexivity).
Qed.



(** [get_project_regions] subscripts the envelope with ["result"] before it
    looks at it: on an error envelope that raises [KeyError]. *)
Lemma get_project_regions_raises csv_rows self project_id w log :
  refuses w ->
  exists log',
    TopvisorAPI.get_project_regions csv_rows self project_id w log
    = (log', Raise (mkExn KeyError "'result'")).
Proof.
  intros Hw. unfold TopvisorAPI.get_project_regions.
  unfold bind at 1.
  destruct (topvisor_make_request_never_raises self
              "positions_2/searchers_regions/export"
              (JObj [("project_id", JNum project_id)]) true w log)
    as (log' & v & -> & Herr).
  destruct (Herr Hw) as (kv & -> & _ & Hkv).
  exists log'. unfold bind, lift, getitem.
  unfold dict_has in Hkv.
  destruct (dict_get kv "result"); [discriminate | reflexivity].
Qed.

(** C1.  The claim fails for [get_project_regions]: when the provider
    answers HTTP 401 the method raises [KeyError] instead of returning an
    envelope. *)
Theorem get_project_regions_raises_on_401 :
  forall (csv_rows : string -> list (list string)) (project_id : Z),
    value (topvisor <- TopvisorAPI.new ;;
           TopvisorAPI.get_project_regions csv_rows topvisor project_id)
          unauthorized
    = Raise (mkExn KeyError "'result'").
Proof. intros. reflexivity. Qed.

(** ** Normalisation in [get_topvisor_projects] *)

(** The tool is the client call followed by [normalize]. *)
Lemma get_topvisor_projects_normalizes (w : World) (log : list Request) :
  non_empty (TOPVISOR_API_KEY w) ->
  exists log' result,
    tools_topvisor.get_topvisor_projects w log = (log', Ok (normalize result)).
Proof.
  intros Hkey. apply non_empty_truthy in Hkey.
  unfold tools_topvisor.get_topvisor_projects, try_except.
  unfold bind at 1. unfold TopvisorAPI.new.
  unfold bind at 1. unfold ask, TopvisorAPI.__init__. rewrite Hkey. simpl.
  unfold bind at 1. unfold TopvisorAPI.get_projects.
  match goal with
  | |- context [TopvisorAPI._make_request ?s ?e ?p ?c w log] =>
      destruct (topvisor_make_request_never_raises s e p c w log)
        as (log' & v & -> & _)
  end.
  exists log', v. unfold lift, normalize, ret.
  destruct (tools_topvisor.projects_envelope v); reflexivity.
Qed.

(** Whatever goes in, what comes out is a non-empty dict with neither an
    [error] nor a [result] key. *)
Lemma normalize_shape (result : json) :
  exists kv,
    normalize result = JObj kv /\ truthy (JObj kv) = true
    /\ dict_has kv "error" = false /\ dict_has kv "result" = false.
Proof.
  unfold normalize, tools_topvisor.projects_envelope,
    tools_topvisor.projects_failure.
  destruct (truthy_and_in result "error") as [[|]|e]; simpl.
  - destruct (getitem result "error") as [problem|e]; simpl.
    + destruct (get result "details" _) as [details|e]; simpl;
        eexists; repeat split; reflexivity.
    + eexists; repeat split; reflexivity.
  - destruct (truthy_and_in result "result") as [[|]|e]; simpl.
    + destruct (getitem result "result") as [projects|e]; simpl.
      * destruct (for_each projects tools_topvisor.project_info) as [l|e];
          simpl; eexists; repeat split; reflexivity.
      * eexists; repeat split; reflexivity.
    + eexists; repeat split; reflexivity.
    + eexists; repeat split; reflexivity.
  - eexists; repeat split; reflexivity.
Qed.

Lemma normalize_without_keys (kv : list (string * json)) :
  truthy (JObj kv) = true ->
  dict_has kv "error" = false -> dict_has kv "result" = false ->
  normalize (JObj kv) = failed_envelope.
Proof.
  intros Ht He Hr.
  unfold normalize, tools_topvisor.projects_envelope, truthy_and_in, contains.
  rewrite Ht, He. simpl. rewrite Hr. reflexivity.
Qed.

(** In [get_topvisor_projects], what the normalisation returns carries
    neither [error] nor [result], so normalising it again gives the error
    envelope "Failed to get project data", for a success envelope as for
    any other; that error envelope is the one envelope this normalisation
    returns unchanged. *)
Lemma renormalizing_gives_failed_envelope :
  forall (result projects total_count : json),
    normalize (normalize result) = failed_envelope
    /\ normalize (JObj [("status", JStr "success"); ("projects", projects);
                        ("total_count", total_count)]) = failed_envelope
    /\ normalize failed_envelope = failed_envelope.
Proof.
  intros result projects total_count. split; [|split].
  - destruct (normalize_shape result) as (kv & -> & Ht & He & Hr).
    apply normalize_without_keys; assumption.
  - reflexivity.
  - reflexivity.
Qed.

(** C2 as stated fails for [get_topvisor_projects]: the envelope of a
    one-project response has status [success], and normalising it again
    changes it. *)
Lemma normalization_is_not_idempotent :
  normalize one_project
    = JObj [("status", JStr "success");
            ("projects",
             JArr [JObj [("id", JNum 7); ("name", JStr "shop");
                         ("url", JStr "shop.example"); ("status", JNum 1);
                         ("created", JStr "2025-01-01")]]);
            ("total_count", JNum 1)]
  /\ normalize (normalize one_project) = failed_envelope
  /\ normalize (normalize one_project) <> normalize one_project.
Proof.
  split; [reflexivity|]. split; [reflexivity|].
  intros H. vm_compute in H. discriminate H.
Qed.

(** ** The referring-domains tool *)

(** C3.  For a 200 response with one referring domain the tool of
    [src/tools/ahrefs.py] returns no [total_count]; the tool of the same name
    in [src/research_server.py] returns [total_count] 1. *)
Theorem refdomains_tool_omits_total_count :
  forall entry : json,
    value (tools_ahrefs.get_ahrefs_refdomains "example.com" 1)
          (answering (JObj [("refdomains", JArr [entry])]))
    = Ok (JObj [("status", JStr "success");
                ("target", JStr "example.com");
                ("refdomains", JArr [entry]);
                ("limit", JNum 1);
                ("order_by", JStr "domain_rating:desc")])
    /\ value (research_server.get_ahrefs_refdomains "example.com" 1
                "domain_rating:desc")
             (answering (JObj [("refdomains", JArr [entry])]))
    = Ok (JObj [("status", JStr "success");
                ("target", JStr "example.com");
                ("refdomains", JArr [entry]);
                ("total_count", JNum 1);
                ("limit", JNum 1);
                ("order_by", JStr "domain_rating:desc")]).
Proof. intros entry. split; reflexivity. Qed.

(** ** The session registry *)

Module Registry.
Import MCP_ChatBot.

Lemma lookup_add_tools (s : Session) (tools : list Tool) (self : t) name :
  lookup (fold_left (fun b x => add_tool b s x) tools self) name =
  if existsb (fun x => String.eqb (tool_name x) name) tools then Some s
  else lookup self name.
Proof.
  revert self. induction tools as [|x tools IH]; intros self; simpl.
  - reflexivity.
  - rewrite IH. unfold lookup, add_tool. simpl. rewrite dict_get_set.
    destruct (String.eqb (tool_name x) name); simpl;
      destruct (existsb _ tools); reflexivity.
Qed.

Lemma lookup_add_prompts (s : Session) (prompts : list Prompt) (self : t) name :
  lookup (fold_left (fun b x => add_prompt b s x) prompts self) name =
  if existsb (fun x => String.eqb (prompt_name x) name) prompts then Some s
  else lookup self name.
Proof.
  revert self. induction prompts as [|x prompts IH]; intros self; simpl.
  - reflexivity.
  - rewrite IH. unfold lookup, add_prompt. simpl. rewrite dict_get_set.
    destruct (String.eqb (prompt_name x) name); simpl;
      destruct (existsb _ prompts); reflexivity.
Qed.

Lemma lookup_add_resources (s : Session) (uris : list string) (self : t) name :
  lookup (fold_left (fun b x => add_resource b s x) uris self) name =
  if existsb (fun x => String.eqb x name) uris then Some s
  else lookup self name.
Proof.
  revert self. induction uris as [|x uris IH]; intros self; simpl.
  - reflexivity.
  - rewrite IH. unfold lookup, add_resource. simpl. rewrite dict_get_set.
    destruct (String.eqb x name); simpl;
      destruct (existsb _ uris); reflexivity.
Qed.

(** Connecting one server: the names it registers now belong to its
    session, every other name keeps its owner. *)
Lemma lookup_connect_to_server (self : t) (server : Server) (name : string) :
  lookup (connect_to_server self server) name =
  if registers server name then Some (session server) else lookup self name.
Proof.
  unfold connect_to_server, registers.
  destruct (connects server); simpl; [|reflexivity].
  destruct (list_tools server) as [tools|]; [|reflexivity].
  destruct (list_prompts server) as [prompts|].
  - destruct (list_resources server) as [uris|].
    + rewrite lookup_add_resources, lookup_add_prompts, lookup_add_tools.
      destruct (existsb _ tools), (existsb _ prompts), (existsb _ uris);
        reflexivity.
    + rewrite lookup_add_prompts, lookup_add_tools.
      destruct (existsb _ tools), (existsb _ prompts); reflexivity.
  - rewrite lookup_add_tools. destruct (existsb _ tools); reflexivity.
Qed.

(** C4, amended.  A lookup is one read of the table, and the table holds
    for each name the session of the last server that registered it: a
    later registration overwrites the earlier one, and a name no server
    registered keeps what the table had (nothing, from [__init__]). *)
Theorem last_registrant_wins :
  forall (self : t) (servers : list Server) (name : string),
    lookup (connect_to_servers self servers) name =
    match find (fun server => registers server name) (rev servers) with
    | Some server => Some (session server)
    | None => lookup self name
    end.
Proof.
  intros self servers name.
  induction servers as [|server servers IH] using rev_ind.
  - reflexivity.
  - unfold connect_to_servers in *. rewrite fold_left_app. simpl.
    rewrite lookup_connect_to_server, rev_app_distr. simpl.
    destruct (registers server name); [reflexivity | exact IH].
Qed.

(** C4 as stated fails: two servers register the tool [search], and the
    lookup returns the session of the second, not of the first. *)
Lemma first_registrant_loses :
  lookup (connect_to_servers __init__ [alpha]) "search" = Some (session alpha)
  /\ lookup (connect_to_servers __init__ [alpha; beta]) "search"
     = Some (session beta)
  /\ lookup (connect_to_servers __init__ [alpha; beta]) "search"
     <> Some (session alpha).
Proof. repeat split; try reflexivity. discriminate. Qed.

(** The keys of the table are in the order of their first registration. *)
Lemma registration_order (self : t) (s : Session) (uri : string) :
  dict_keys (sessions (add_resource self s uri)) =
  if dict_has (sessions self) uri then dict_keys (sessions self)
  else (dict_keys (sessions self) ++ [uri])%list.
Proof. unfold add_resource. simpl. apply dict_keys_set. Qed.

Lemma first_papers_split (before after : list (string * Session)) uri s :
  is_papers uri = true ->
  (forall x, In x before -> is_papers (fst x) = false) ->
  first_papers (before ++ (uri, s) :: after) = Some s.
Proof.
  intros Huri. induction before as [|[k v] before IH]; intros Hb; simpl.
  - unfold is_papers in Huri. rewrite Huri. reflexivity.
  - pose proof (Hb (k, v) (or_introl eq_refl)) as Hk. unfold is_papers in Hk.
    simpl in Hk. rewrite Hk. apply IH. intros x Hx. apply Hb. right. exact Hx.
Qed.

Lemma first_papers_none (d : list (string * Session)) :
  (forall x, In x d -> is_papers (fst x) = false) -> first_papers d = None.
Proof.
  induction d as [|[k v] d IH]; intros Hd; simpl.
  - reflexivity.
  - pose proof (Hd (k, v) (or_introl eq_refl)) as Hk. unfold is_papers in Hk.
    simpl in Hk. rewrite Hk. apply IH. intros x Hx. apply Hd. right. exact Hx.
Qed.

(** C7.  For a URI that is not registered: without the [papers://] prefix
    the lookup reports "not found"; with it, the lookup takes the session of
    the first key, in the order of the table, that starts with [papers://],
    and reports "not found" when no key does. *)
Theorem resource_lookup_fallback :
  forall (self : t) (resource_uri : string),
    lookup self resource_uri = None ->
    (is_papers resource_uri = false ->
       get_resource self resource_uri = NotFound resource_uri)
    /\ (is_papers resource_uri = true ->
        (forall before uri s after,
            sessions self = (before ++ (uri, s) :: after)%list ->
            is_papers uri = true ->
            (forall x, In x before -> is_papers (fst x) = false) ->
            get_resource self resource_uri = ReadResource s resource_uri)
        /\ ((forall x, In x (sessions self) -> is_papers (fst x) = false) ->
            get_resource self resource_uri = NotFound resource_uri)).
Proof.
  intros self resource_uri Hnone. unfold lookup in Hnone.
  unfold get_resource, resource_session, is_papers. rewrite Hnone.
  split.
  - intros ->. reflexivity.
  - intros ->. split.
    + intros before uri s after Hs Huri Hb. rewrite Hs.
      rewrite (first_papers_split before after uri s Huri Hb). reflexivity.
    + intros Hall. rewrite (first_papers_none _ Hall). reflexivity.
Qed.

Lemma resource_lookup_fallback_witness :
  get_resource papers_bot "folders" = NotFound "folders"
  /\ get_resource papers_bot "papers://chemistry"
     = ReadResource (session gamma) "papers://chemistry"
  /\ get_resource (connect_to_servers __init__ [alpha]) "papers://chemistry"
     = NotFound "papers://chemistry".
Proof.
  split; [|split].
  - apply (proj1 (resource_lookup_fallback papers_bot "folders" eq_refl)).
    reflexivity.
  - apply (proj1 (proj2 (resource_lookup_fallback papers_bot
                           "papers://chemistry" eq_refl) eq_refl)
             [("search", 7%nat)] "papers://ai" 3%nat
             [("papers://folders", 7%nat)]).
    + reflexivity.
    + reflexivity.
    + intros x [<-|[]]. reflexivity.
  - apply (proj2 (proj2 (resource_lookup_fallback
                           (connect_to_servers __init__ [alpha])
                           "papers://chemistry" eq_refl) eq_refl)).
    intros x [<-|[]]. reflexivity.
Defined.

End Registry.

(** ** Position history: keys and position values *)

Module Positions.
Import tools_topvisor.

Lemma digits_value_weights (s : string) (acc : Z) :
  digits_value acc s = acc * 10 ^ Z.of_nat (String.length s) + decimal_value s.
Proof.
  revert acc.
  induction s as [|c s IH]; intros acc;
    cbn [digits_value decimal_value String.length].
  - change (10 ^ Z.of_nat 0) with 1. ring.
  - rewrite IH, Nat2Z.inj_succ, Z.pow_succ_r by lia. ring.
Qed.

Lemma ascii_digits_are_digits (s : string) :
  str_forall is_ascii_digit s = true -> str_forall char_isdigit s = true.
Proof.
  induction s as [|c s IH]; cbn [str_forall].
  - reflexivity.
  - intros Hall. apply andb_true_iff in Hall as [Hc Hs].
    rewrite (IH Hs). unfold char_isdigit. rewrite Hc. reflexivity.
Qed.

Lemma digit_string_isdigit (s : string) :
  digit_string s -> isdigit s = true.
Proof.
  intros [Hne Hall]. unfold isdigit.
  rewrite (ascii_digits_are_digits s Hall).
  destruct (String.eqb_spec s ""); [contradiction | reflexivity].
Qed.

Lemma digit_string_test (s : string) :
  digit_string s
  -> negb (String.eqb s "") && str_forall is_ascii_digit s = true.
Proof.
  intros [Hne Hall]. rewrite Hall.
  destruct (String.eqb_spec s ""); [contradiction | reflexivity].
Qed.

Lemma int_of_digit_string (s : string) :
  readable s -> int_of_str s = Ok (decimal_value s).
Proof.
  intros [Hd Hlen]. unfold int_of_str. rewrite (digit_string_test s Hd).
  destruct (Z.ltb_spec int_max_str_digits (Z.of_nat (String.length s)));
    [lia|].
  rewrite digits_value_weights. reflexivity.
Qed.

Lemma int_of_long_digit_string (s : string) :
  beyond_limit s ->
  int_of_str s = Raise (too_many_digits (Z.of_nat (String.length s))).
Proof.
  intros [Hd Hlen]. unfold int_of_str. rewrite (digit_string_test s Hd).
  destruct (Z.ltb_spec int_max_str_digits (Z.of_nat (String.length s)));
    [reflexivity | lia].
Qed.

Lemma digit_string_not_dashes (s : string) :
  digit_string s -> String.eqb s "--" = false.
Proof.
  intros [_ Hall]. destruct (String.eqb_spec s "--") as [->|]; [|reflexivity].
  discriminate Hall.
Qed.

Lemma field_position (info : json) (v : json) :
  field info "position" = Some v ->
  dict_and_in info "position" = true /\ getitem info "position" = Ok v.
Proof.
  destruct info; simpl; try discriminate.
  unfold dict_has. intros ->. split; reflexivity.
Qed.

Lemma position_entry_splits keyword_name date_key position_info p :
  position_entry keyword_name date_key position_info = Ok (Some p) ->
  exists rest,
    split ":" date_key
    = date p :: project_id_from_key p :: region_from_key p :: rest.
Proof.
  unfold position_entry.
  destruct (dict_and_in position_info "position"); [|discriminate].
  destruct (split ":" date_key) as [|d [|pid [|r rest]]]; try discriminate.
  destruct (getitem position_info "position") as [v|e]; [|discriminate].
  simpl. destruct (numeric_of v) as [n|e]; [|discriminate].
  simpl. intros H. injection H as <-. exists rest. reflexivity.
Qed.



(** C6, amended.  The position "--" gives a record with [position_numeric]
    null and [is_not_ranking] true; a string of at most 4300 digits gives
    a record with the number it denotes and [is_not_ranking] false, and
    "5" denotes 5; a string of more digits gives no record: [int] refuses
    it and the entry raises [ValueError]. *)
Theorem position_value_parsing :
  forall (keyword_name : json) (date_key d pid r : string) (rest : list string)
         (position_info : json),
    split ":" date_key = d :: pid :: r :: rest ->
    (field position_info "position" = Some (JStr "--") ->
       exists p,
         position_entry keyword_name date_key position_info = Ok (Some p)
         /\ position_numeric p = None
         /\ is_not_ranking p = true
         /\ field (position_json p) "position_numeric" = Some JNull
         /\ field (position_json p) "is_not_ranking" = Some (JBool true))
    /\ (forall s,
           readable s ->
           field position_info "position" = Some (JStr s) ->
           exists p,
             position_entry keyword_name date_key position_info = Ok (Some p)
             /\ position_numeric p = Some (decimal_value s)
             /\ is_not_ranking p = false
             /\ field (position_json p) "position_numeric"
                = Some (JNum (decimal_value s))
             /\ field (position_json p) "is_not_ranking" = Some (JBool false))
    /\ (forall s,
           beyond_limit s ->
           field position_info "position" = Some (JStr s) ->
           position_entry keyword_name date_key position_info
           = Raise (too_many_digits (Z.of_nat (String.length s))))
    /\ decimal_value "5" = 5.
Proof.
  intros keyword_name date_key d pid r rest position_info Hsplit.
  split; [|split; [|split]].
  - intros Hfield. apply field_position in Hfield as [Hin Hget].
    unfold position_entry. rewrite Hin, Hsplit, Hget.
    eexists. repeat split; reflexivity.
  - intros s Hd Hfield. apply field_position in Hfield as [Hin Hget].
    unfold position_entry. rewrite Hin, Hsplit, Hget.
    simpl rbind. unfold numeric_of, v_isdigit. simpl rbind.
    rewrite (digit_string_isdigit s (proj1 Hd)), (int_of_digit_string s Hd).
    simpl rbind. unfold eq_str.
    rewrite (digit_string_not_dashes s (proj1 Hd)).
    eexists. repeat split; reflexivity.
  - intros s Hd Hfield. apply field_position in Hfield as [Hin Hget].
    unfold position_entry. rewrite Hin, Hsplit, Hget.
    simpl rbind. unfold numeric_of, v_isdigit. simpl rbind.
    rewrite (digit_string_isdigit s (proj1 Hd)),
      (int_of_long_digit_string s Hd).
    reflexivity.
  - reflexivity.
Qed.

Lemma position_value_parsing_witness :
  (exists p,
      position_entry (JStr "shoes") "2025-08-15:19294818:33"
        (JObj [("position", JStr "--")]) = Ok (Some p)
      /\ position_numeric p = None
      /\ is_not_ranking p = true
      /\ field (position_json p) "position_numeric" = Some JNull
      /\ field (position_json p) "is_not_ranking" = Some (JBool true))
  /\ (exists p,
         position_entry (JStr "shoes") "2025-08-15:19294818:33"
           (JObj [("position", JStr "5")]) = Ok (Some p)
         /\ position_numeric p = Some (decimal_value "5")
         /\ is_not_ranking p = false
         /\ field (position_json p) "position_numeric"
            = Some (JNum (decimal_value "5"))
         /\ field (position_json p) "is_not_ranking" = Some (JBool false)).
Proof.
  split.
  - apply (proj1 (position_value_parsing (JStr "shoes")
                    "2025-08-15:19294818:33" "2025-08-15" "19294818" "33" []
                    (JObj [("position", JStr "--")]) eq_refl)).
    reflexivity.
  - apply (proj1 (proj2 (position_value_parsing (JStr "shoes")
                           "2025-08-15:19294818:33" "2025-08-15" "19294818"
                           "33" [] (JObj [("position", JStr "5")]) eq_refl))
             "5").
    + split; [split; [discriminate | reflexivity]
          | unfold int_max_str_digits; simpl; lia].
    + reflexivity.
Defined.

(** C6 as stated fails: the digit 1 written 4301 times is a digit string,
    and an entry with this position gives no record, it raises. *)
Lemma long_digit_string_gives_no_record :
  digit_string long_digits
  /\ position_entry (JStr "shoes") "2025-08-15:19294818:33"
       (JObj [("position", JStr long_digits)])
     = Raise (too_many_digits 4301).
Proof.
  split; [split|].
  - intros H. discriminate H.
  - vm_compute. reflexivity.
  - vm_compute. reflexivity.
Qed.

(** The records of the whole response are the records of its entries. *)
Lemma rmap_ok {A B : Type} (f : A -> result B) (l : list A) (ys : list B) :
  rmap f l = Ok ys -> Forall2 (fun x y => f x = Ok y) l ys.
Proof.
  revert ys. induction l as [|x l IH]; intros ys; simpl.
  - intros H. injection H as <-. constructor.
  - destruct (f x) as [y|e] eqn:Hx; simpl; [|discriminate].
    destruct (rmap f l) as [ys'|e]; simpl; [|discriminate].
    intros H. injection H as <-. constructor; [exact Hx | apply IH; reflexivity].
Qed.

Lemma keyword_positions_from_key (keyword_data : json) (ps : list position) :
  keyword_positions keyword_data = Ok ps -> Forall from_key ps.
Proof.
  unfold keyword_positions.
  destruct (is_dict keyword_data).
  - destruct (get keyword_data "name" _) as [name|e]; simpl; [|discriminate].
    destruct (get keyword_data "positionsData" _) as [pd|e]; simpl;
      [|discriminate].
    destruct (items pd) as [entries|e]; simpl; [|discriminate].
    destruct (rmap _ entries) as [records|e] eqn:Hr; simpl; [|discriminate].
    intros H. injection H as <-.
    apply rmap_ok in Hr. clear -Hr.
    induction Hr as [|entry o entries records Ho _ IH]; simpl.
    + constructor.
    + destruct o as [p|]; [|exact IH].
      constructor; [|exact IH].
      destruct (position_entry_splits _ _ _ _ Ho) as (rest & Hsplit).
      exists (fst entry), rest. exact Hsplit.
  - intros H. injection H as <-. constructor.
Qed.

Lemma all_positions_from_key (keywords : json) (ps : list position) :
  all_positions keywords = Ok ps -> Forall from_key ps.
Proof.
  unfold all_positions.
  destruct (iter keywords) as [l|e]; simpl; [|discriminate].
  destruct (rmap keyword_positions l) as [ls|e] eqn:Hr; simpl; [|discriminate].
  intros H. injection H as <-.
  apply rmap_ok in Hr.
  induction Hr as [|x ys l ls Hx _ IH]; simpl.
  - constructor.
  - apply Forall_app. split; [|exact IH].
    apply (keyword_positions_from_key x ys Hx).
Qed.

(** The whole tool on a response with a rank, a "--" and a short key: two
    records, the short key gives none. *)
Lemma positions_history_end_to_end :
  exists envelope,
    value (get_topvisor_positions_history 19294818 (JArr [JStr "33"])
             None None 100 0)
          (answering one_keyword) = Ok envelope
    /\ status envelope = Some (JStr "success")
    /\ field envelope "positions"
       = Some (JArr [JObj [("keyword_name", JStr "shoes");
                           ("date", JStr "2025-08-15");
                           ("position", JStr "5");
                           ("project_id", JStr "19294818");
                           ("region", JStr "33");
                           ("position_numeric", JNum 5);
                           ("is_not_ranking", JBool false)];
                     JObj [("keyword_name", JStr "shoes");
                           ("date", JStr "2025-08-16");
                           ("position", JStr "--");
                           ("project_id", JStr "19294818");
                           ("region", JStr "33");
                           ("position_numeric", JNull);
                           ("is_not_ranking", JBool true)]])
    /\ field envelope "total_count" = Some (JNum 2)
    /\ field envelope "unique_keywords" = Some (JNum 1)
    /\ field envelope "date_range"
       = Some (JObj [("start", JStr "2025-08-15"); ("end", JStr "2025-08-16")]).
Proof. eexists. split; [vm_compute; reflexivity|]. repeat split. Qed.

(** [isdigit] accepts the superscript digits and [int] does not: such a
    position value makes the entry raise [ValueError], and the tool report
    an error for the whole response. *)
Lemma superscript_position_is_an_error :
  (exists msg,
      position_entry (JStr "shoes") "2025-08-15:19294818:33"
        (JObj [("position", JStr superscript_two)])
      = Raise (mkExn ValueError msg))
  /\ exists envelope,
      value (get_topvisor_positions_history 19294818 (JArr [JStr "33"])
               None None 100 0)
            (answering
               (JObj [("result",
                  JObj [("keywords",
                     JArr [JObj [("name", JStr "shoes");
                                 ("positionsData",
                                  JObj [("2025-08-15:19294818:33",
                                         JObj [("position",
                                                JStr superscript_two)])])]])])]))
      = Ok envelope
      /\ status envelope = Some (JStr "error")
      /\ field envelope "error_type" = Some (JStr "ValueError").
Proof.
  split.
  - eexists. vm_compute. reflexivity.
  - eexists. split; [vm_compute; reflexivity|]. split; reflexivity.
Qed.

End Positions.

(** ** The envelopes of the tools *)

Module Envelopes.

Section Rules.
Context {A B : Type}.

Lemma returning_ret (Q : A -> Prop) (a : A) : Q a -> returning Q (ret a).
Proof. intros H w log. exact H. Qed.

Lemma returning_bind (Q : B -> Prop) (m : M A) (k : A -> M B) :
  (forall a, returning Q (k a)) -> returning Q (bind m k).
Proof.
  intros H w log. unfold bind.
  destruct (m w log) as [log' [a|e]]; [apply H | exact I].
Qed.

Lemma always_ret (Q : A -> Prop) (a : A) : Q a -> always Q (ret a).
Proof. intros H w log. exists log, a. split; [reflexivity | exact H]. Qed.

Lemma always_try_except (Q : A -> Prop) (m : M A) (h : exn -> M A) :
  returning Q m -> (forall e, always Q (h e)) -> always Q (try_except m h).
Proof.
  intros Hm Hh w log. unfold try_except.
  specialize (Hm w log).
  destruct (m w log) as [log' [a|e]]; simpl in Hm.
  - exists log', a. split; [reflexivity | exact Hm].
  - apply Hh.
Qed.

Lemma always_returning (Q : A -> Prop) (m : M A) :
  always Q m -> returning Q m.
Proof.
  intros H w log. destruct (H w log) as (log' & a & -> & Ha). exact Ha.
Qed.

End Rules.

Lemma no_error_key_exclusive (envelope : json) :
  no_error_key envelope -> exclusive envelope.
Proof.
  intros [_ H]. split.
  - intros _. exact H.
  - rewrite H. discriminate.
Qed.

Lemma returning_lift {A : Type} (Q : A -> Prop) (r : result A) :
  (forall a, r = Ok a -> Q a) -> returning Q (lift r).
Proof.
  intros H w log. simpl. destruct r; [apply H; reflexivity | exact I].
Qed.

Lemma projects_envelope_shape (result envelope : json) :
  tools_topvisor.projects_envelope result = Ok envelope ->
  no_error_key envelope.
Proof.
  intros H. destruct (normalize_shape result) as (kv & Hn & _ & He & _).
  unfold normalize in Hn. rewrite H in Hn. subst envelope.
  split; [reflexivity | exact He].
Qed.

Create HintDb tools.
#[local] Hint Unfold
  tools_topvisor.check_topvisor_setup tools_topvisor.get_topvisor_projects
  tools_topvisor.get_topvisor_keywords
  tools_topvisor.get_topvisor_positions_history
  tools_topvisor.get_topvisor_positions_summary
  tools_topvisor.get_topvisor_competitors tools_topvisor.get_topvisor_regions
  tools_topvisor.get_topvisor_keyword_folders
  tools_topvisor.get_topvisor_keyword_groups
  tools_topvisor.get_topvisor_balance
  tools_topvisor.get_topvisor_project_keywords
  tools_ahrefs.check_ahrefs_setup tools_ahrefs.get_ahrefs_refdomains
  tools_ahrefs.get_ahrefs_backlinks tools_ahrefs.get_ahrefs_organic_keywords
  research_server.get_ahrefs_refdomains research_server.get_ahrefs_backlinks
  research_server.get_ahrefs_organic_keywords
  research_server.get_topvisor_regions : tools.

(** An envelope written as a dict literal: its keys are there to read. *)
Ltac literal_envelope := split; reflexivity.

(** The paths through a tool body: every one that returns ends in the
    [ret] of a dict literal. *)
Ltac paths :=
  repeat first
    [ apply returning_ret; literal_envelope
    | apply returning_bind; intros ?
    | apply returning_lift; apply projects_envelope_shape
    | apply always_returning; apply always_try_except;
      [| intros ?; apply always_ret; literal_envelope ]
    | match goal with
      | |- returning _ (if ?b then _ else _) => destruct b
      end
    | progress cbv zeta ].

(** A tool: a body under [try], and an [except] branch that returns a dict
    literal. *)
Ltac tool :=
  apply always_try_except;
  [ paths | intros ?; apply always_ret; literal_envelope ].

Lemma seo_tools_envelopes csv_rows (c : seo.tool_call) :
  always no_error_key (seo.call csv_rows c).
Proof. destruct c; cbn [seo.call]; autounfold with tools; tool. Qed.

Lemma research_server_tools_envelopes csv_rows (c : research_server.tool_call) :
  always no_error_key (research_server.call csv_rows c).
Proof. destruct c; cbn [research_server.call]; autounfold with tools; tool. Qed.

(** C9.  Every tool call returns, on every path, an envelope that is a dict
    without an [error] key: failures are reported under [message].  So a
    status [success] and an [error] key never come together. *)
Theorem success_and_error_are_exclusive :
  forall (csv_rows : string -> list (list string)) (c : seo.tool_call)
         (c' : research_server.tool_call) (w : World) (log : list Request),
    (exists log' envelope,
        seo.call csv_rows c w log = (log', Ok envelope)
        /\ has_key envelope "error" = false
        /\ exclusive envelope)
    /\ (exists log' envelope,
           research_server.call csv_rows c' w log = (log', Ok envelope)
           /\ has_key envelope "error" = false
           /\ exclusive envelope).
Proof.
  intros csv_rows c c' w log. split.
  - destruct (seo_tools_envelopes csv_rows c w log) as (log' & e & Hrun & He).
    exists log', e. split; [exact Hrun|]. split; [apply He|].
    apply no_error_key_exclusive, He.
  - destruct (research_server_tools_envelopes csv_rows c' w log)
      as (log' & e & Hrun & He).
    exists log', e. split; [exact Hrun|]. split; [apply He|].
    apply no_error_key_exclusive, He.
Qed.

End Envelopes.

(** ** More of the session registry *)

Module RegistryInvariants.
Import MCP_ChatBot.

Lemma dict_has_set {V : Type} (d : list (string * V)) (k k' : string) (v : V) :
  dict_has (dict_set d k v) k' = String.eqb k k' || dict_has d k'.
Proof.
  unfold dict_has. rewrite dict_get_set.
  destruct (String.eqb k k'); reflexivity.
Qed.

Lemma dict_has_keys {V : Type} (d : list (string * V)) (k : string) :
  dict_has d k = false -> ~ In k (dict_keys d).
Proof.
  unfold dict_has, dict_keys.
  induction d as [|[k0 v0] d IH]; simpl; [intros _ []|].
  destruct (String.eqb_spec k0 k) as [->|Hne]; [discriminate|].
  intros Hk [Heq|Hin]; [contradiction | exact (IH Hk Hin)].
Qed.

Lemma dict_keys_NoDup_set {V : Type} (d : list (string * V)) (k : string) (v : V) :
  NoDup (dict_keys d) -> NoDup (dict_keys (dict_set d k v)).
Proof.
  intros Hd. rewrite dict_keys_set.
  destruct (dict_has d k) eqn:Hk; [exact Hd|].
  apply NoDup_app; [exact Hd | repeat constructor; intros [] |].
  intros x Hx [Heq|[]]. subst x. exact (dict_has_keys d k Hk Hx).
Qed.

Lemma well_formed_add_tool self s tool :
  well_formed self -> well_formed (add_tool self s tool).
Proof.
  intros [Hnd Hadv]. split.
  - apply dict_keys_NoDup_set, Hnd.
  - intros name. unfold advertised, add_tool. simpl.
    rewrite flat_map_app, in_app_iff, dict_has_set. simpl.
    intros [H|[<-|[]]].
    + rewrite (Hadv name H). apply orb_true_r.
    + rewrite String.eqb_refl. reflexivity.
Qed.

Lemma well_formed_add_prompt self s prompt :
  well_formed self -> well_formed (add_prompt self s prompt).
Proof.
  intros [Hnd Hadv]. split.
  - apply dict_keys_NoDup_set, Hnd.
  - intros name H. unfold add_prompt. simpl. rewrite dict_has_set.
    rewrite (Hadv name H). apply orb_true_r.
Qed.

Lemma well_formed_add_resource self s uri :
  well_formed self -> well_formed (add_resource self s uri).
Proof.
  intros [Hnd Hadv]. split.
  - apply dict_keys_NoDup_set, Hnd.
  - intros name H. unfold add_resource. simpl. rewrite dict_has_set.
    rewrite (Hadv name H). apply orb_true_r.
Qed.

Lemma well_formed_fold {X : Type} (step : t -> X -> t) (xs : list X) self :
  (forall b x, well_formed b -> well_formed (step b x)) ->
  well_formed self -> well_formed (fold_left step xs self).
Proof.
  intros Hstep. revert self. induction xs as [|x xs IH]; intros self H; simpl.
  - exact H.
  - apply IH, Hstep, H.
Qed.

Lemma well_formed_connect_to_server self server :
  well_formed self -> well_formed (connect_to_server self server).
Proof.
  intros H. unfold connect_to_server.
  destruct (connects server); simpl; [|exact H].
  destruct (list_tools server) as [tools|]; [|exact H].
  assert (Ht : well_formed
                 (fold_left (fun b x => add_tool b (session server) x) tools self))
    by (apply well_formed_fold;
        [intros; apply well_formed_add_tool; assumption | exact H]).
  destruct (list_prompts server) as [prompts|]; [|exact Ht].
  assert (Hp : well_formed
                 (fold_left (fun b x => add_prompt b (session server) x) prompts
                    (fold_left (fun b x => add_tool b (session server) x)
                       tools self)))
    by (apply well_formed_fold;
        [intros; apply well_formed_add_prompt; assumption | exact Ht]).
  destruct (list_resources server) as [uris|]; [|exact Hp].
  apply well_formed_fold;
    [intros; apply well_formed_add_resource; assumption | exact Hp].
Qed.

(** X5.  Every tool the bot advertises to the model has a session to
    call, and the table never holds a name twice, whatever servers were
    connected and whichever of their listings failed. *)
Theorem advertised_tools_are_callable :
  forall (servers : list Server) (name : string),
    NoDup (dict_keys (sessions (connect_to_servers __init__ servers)))
    /\ (In name (advertised (connect_to_servers __init__ servers)) ->
        exists s, lookup (connect_to_servers __init__ servers) name = Some s).
Proof.
  intros servers name.
  assert (H : well_formed (connect_to_servers __init__ servers)).
  { unfold connect_to_servers. apply well_formed_fold.
    - intros; apply well_formed_connect_to_server; assumption.
    - split; [constructor | intros n []]. }
  destruct H as [Hnd Hadv]. split; [exact Hnd|].
  intros Hin. specialize (Hadv name Hin). unfold dict_has in Hadv.
  unfold lookup. destruct (dict_get _ name) as [s|]; [|discriminate].
  exists s. reflexivity.
Qed.

Lemma advertised_add_tools s tools self :
  advertised (fold_left (fun b x => add_tool b s x) tools self)
  = (advertised self ++ map tool_name tools)%list.
Proof.
  revert self. induction tools as [|x tools IH]; intros self; simpl.
  - rewrite app_nil_r. reflexivity.
  - rewrite IH. unfold advertised at 1, add_tool. simpl.
    rewrite flat_map_app. simpl. rewrite <- app_assoc. reflexivity.
Qed.

Lemma advertised_add_prompts s prompts self :
  advertised (fold_left (fun b x => add_prompt b s x) prompts self)
  = advertised self.
Proof.
  revert self. induction prompts as [|x prompts IH]; intros self; simpl.
  - reflexivity.
  - rewrite IH. reflexivity.
Qed.

Lemma advertised_add_resources s uris self :
  advertised (fold_left (fun b x => add_resource b s x) uris self)
  = advertised self.
Proof.
  revert self. induction uris as [|x uris IH]; intros self; simpl.
  - reflexivity.
  - rewrite IH. reflexivity.
Qed.

Lemma advertised_connect_to_server self server :
  advertised (connect_to_server self server)
  = (advertised self ++ map tool_name (listed_tools server))%list.
Proof.
  unfold connect_to_server, listed_tools.
  destruct (connects server); simpl; [|rewrite app_nil_r; reflexivity].
  destruct (list_tools server) as [tools|]; [|rewrite app_nil_r; reflexivity].
  destruct (list_prompts server) as [prompts|].
  - destruct (list_resources server) as [uris|].
    + rewrite advertised_add_resources, advertised_add_prompts.
      apply advertised_add_tools.
    + rewrite advertised_add_prompts. apply advertised_add_tools.
  - apply advertised_add_tools.
Qed.

(** X6.  The advertised names are the tool names of the servers in the
    order they connected, one entry for every listing of a name: a name
    two servers list is advertised twice. *)
Theorem advertised_tools_keep_duplicates :
  forall (self : t) (servers : list Server),
    advertised (connect_to_servers self servers)
    = (advertised self
       ++ flat_map (fun server => map tool_name (listed_tools server)) servers)%list.
Proof.
  intros self servers. revert self.
  induction servers as [|server servers IH]; intros self.
  - simpl. rewrite app_nil_r. reflexivity.
  - unfold connect_to_servers in *. simpl. rewrite IH.
    rewrite advertised_connect_to_server, <- app_assoc. reflexivity.
Qed.

Lemma connect_nothing self server :
  registers_nothing server -> connect_to_server self server = self.
Proof.
  unfold connect_to_server. intros [H|H]; rewrite H.
  - reflexivity.
  - destruct (connects server); reflexivity.
Qed.

Lemma lookup_stays self server name s :
  lookup self name = Some s ->
  exists s', lookup (connect_to_server self server) name = Some s'.
Proof.
  intros H. rewrite Registry.lookup_connect_to_server.
  destruct (registers server name); eauto.
Qed.

(** X7.  A server that fails to connect, or whose tool listing raises,
    leaves the bot as it was and does not keep the later servers from
    connecting; and no connection ever removes a name from the table. *)
Theorem failed_server_is_skipped :
  forall (self : t) (before after : list Server) (failed : Server),
    registers_nothing failed ->
    connect_to_servers self (before ++ failed :: after)
    = connect_to_servers self (before ++ after)
    /\ forall name s,
        lookup self name = Some s ->
        exists s',
          lookup (connect_to_servers self (before ++ failed :: after)) name
          = Some s'.
Proof.
  intros self before after failed Hfailed.
  assert (Heq : connect_to_servers self (before ++ failed :: after)
                = connect_to_servers self (before ++ after)).
  { unfold connect_to_servers. rewrite !fold_left_app. simpl.
    rewrite (connect_nothing _ failed Hfailed). reflexivity. }
  split; [exact Heq|].
  intros name s Hs. rewrite Heq. clear Heq.
  generalize (before ++ after)%list as servers. intros servers.
  revert self s Hs. induction servers as [|x servers IH]; intros self s Hs.
  - exists s. exact Hs.
  - unfold connect_to_servers in *. simpl.
    destruct (lookup_stays self x name s Hs) as (s' & Hs').
    apply (IH _ s' Hs').
Qed.

Lemma failed_server_is_skipped_witness :
  connect_to_servers __init__ ([alpha] ++ unreachable :: [gamma])
  = connect_to_servers __init__ ([alpha] ++ [gamma]).
Proof.
  apply (failed_server_is_skipped __init__ [alpha] [gamma] unreachable).
  left. reflexivity.
Defined.

End RegistryInvariants.

(** ** The order of the session table *)

Module Order.
Import MCP_ChatBot.

Lemma dict_has_existsb {V : Type} (d : list (string * V)) (k : string) :
  dict_has d k = existsb (String.eqb k) (dict_keys d).
Proof.
  unfold dict_has, dict_keys.
  induction d as [|[k0 v0] d IH]; simpl; [reflexivity|].
  rewrite (String.eqb_sym k k0).
  destruct (String.eqb k0 k); simpl; [reflexivity | exact IH].
Qed.

Lemma keys_after_set {V : Type} (d : list (string * V)) (k : string) (v : V) :
  dict_keys (dict_set d k v) = first_seen (dict_keys d) [k].
Proof.
  rewrite dict_keys_set, dict_has_existsb. reflexivity.
Qed.

Lemma first_seen_app (seen xs ys : list string) :
  first_seen seen (xs ++ ys) = first_seen (first_seen seen xs) ys.
Proof. apply fold_left_app. Qed.

Lemma keys_after_fold {X : Type} (step : t -> X -> t) (name : X -> string)
  (xs : list X) (self : t) :
  (forall b x,
      dict_keys (sessions (step b x))
      = first_seen (dict_keys (sessions b)) [name x]) ->
  dict_keys (sessions (fold_left step xs self))
  = first_seen (dict_keys (sessions self)) (map name xs).
Proof.
  intros Hstep. revert self.
  induction xs as [|x xs IH]; intros self; simpl; [reflexivity|].
  rewrite IH, Hstep. reflexivity.
Qed.

Lemma keys_after_connect (self : t) (server : Server) :
  dict_keys (sessions (connect_to_server self server))
  = first_seen (dict_keys (sessions self)) (registered_names server).
Proof.
  unfold connect_to_server, registered_names.
  destruct (connects server); simpl; [|reflexivity].
  destruct (list_tools server) as [tools|]; [|reflexivity].
  destruct (list_prompts server) as [prompts|].
  - destruct (list_resources server) as [uris|].
    + rewrite !first_seen_app.
      rewrite (keys_after_fold _ (fun uri => uri)), map_id.
      * rewrite (keys_after_fold _ prompt_name).
        -- rewrite (keys_after_fold _ tool_name); [reflexivity|].
           intros b x. apply keys_after_set.
        -- intros b x. apply keys_after_set.
      * intros b x. apply keys_after_set.
    + rewrite app_nil_r, first_seen_app.
      rewrite (keys_after_fold _ prompt_name).
      * rewrite (keys_after_fold _ tool_name); [reflexivity|].
        intros b x. apply keys_after_set.
      * intros b x. apply keys_after_set.
  - rewrite app_nil_r. apply (keys_after_fold _ tool_name).
    intros b x. apply keys_after_set.
Qed.

(** X4.  The keys of the session table are the registered names in the
    order of their first registration: connecting servers appends, server
    by server and listing by listing, every name that is not in the table
    yet, and moves none.  This is the order in which the fallback of
    [get_resource] looks for a [papers://] entry. *)
Theorem table_keeps_first_registration_order :
  forall (self : t) (servers : list Server),
    dict_keys (sessions (connect_to_servers self servers))
    = first_seen (dict_keys (sessions self))
        (flat_map registered_names servers).
Proof.
  intros self servers. revert self.
  induction servers as [|server servers IH]; intros self; [reflexivity|].
  unfold connect_to_servers in *. simpl.
  rewrite IH, keys_after_connect, first_seen_app. reflexivity.
Qed.

End Order.

(** ** The chat loop *)

Module ChatLoop.
Import PyText MCP_ChatBot chat.

Lemma digit_not_space c : is_ascii_digit c = true -> is_space c = false.
Proof. destruct c as [[] [] [] [] [] [] [] []]; try reflexivity; discriminate. Qed.

Lemma isdigit_not_space c : char_isdigit c = true -> is_space c = false.
Proof. destruct c as [[] [] [] [] [] [] [] []]; try reflexivity; discriminate. Qed.

Lemma isdigit_no_sign c :
  char_isdigit c = true ->
  Ascii.eqb c "+" = false /\ Ascii.eqb c "-" = false.
Proof.
  destruct c as [[] [] [] [] [] [] [] []]; try discriminate; split; reflexivity.
Qed.

Lemma superscript_no_underscore c :
  char_isdigit c = true -> is_ascii_digit c = false -> Ascii.eqb c "_" = false.
Proof. destruct c as [[] [] [] [] [] [] [] []]; try reflexivity; discriminate. Qed.

Lemma rstrip_no_space s :
  str_forall (fun c => negb (is_space c)) s = true -> rstrip s = s.
Proof.
  induction s as [|c s IH]; simpl; [reflexivity|].
  intros H. apply andb_true_iff in H as [Hc Hs]. rewrite (IH Hs).
  destruct s; [|reflexivity].
  apply negb_true_iff in Hc. rewrite Hc. reflexivity.
Qed.

Lemma strip_no_space s :
  str_forall (fun c => negb (is_space c)) s = true -> strip s = s.
Proof.
  intros H. unfold strip.
  destruct s as [|c s]; [reflexivity|].
  assert (Hc : is_space c = false).
  { simpl in H. apply andb_true_iff in H as [Hc _]. apply negb_true_iff, Hc. }
  cbn [lstrip]. rewrite Hc. apply rstrip_no_space, H.
Qed.

Lemma isdigit_chars_no_space s :
  str_forall char_isdigit s = true ->
  str_forall (fun c => negb (is_space c)) s = true.
Proof.
  induction s as [|c s IH]; [reflexivity|]. cbn [str_forall].
  intros H. apply andb_true_iff in H as [Hc Hs].
  rewrite (isdigit_not_space c Hc), (IH Hs). reflexivity.
Qed.

Lemma literal_digits_of_digits s : forall b acc,
  s <> "" -> str_forall is_ascii_digit s = true ->
  literal_digits b acc s = Some (digits_value acc s).
Proof.
  induction s as [|c s IH]; intros b acc Hne H; [contradiction|].
  cbn [literal_digits digits_value]. cbn [str_forall] in H.
  apply andb_true_iff in H as [Hc Hs]. rewrite Hc.
  destruct s as [|c' s']; [reflexivity|].
  apply IH; [discriminate | exact Hs].
Qed.

Lemma literal_digits_of_superscript s : forall b acc,
  str_forall char_isdigit s = true -> str_forall is_ascii_digit s = false ->
  literal_digits b acc s = None.
Proof.
  induction s as [|c s IH]; intros b acc Hd Ha; [discriminate|].
  cbn [literal_digits]. cbn [str_forall] in Hd, Ha.
  apply andb_true_iff in Hd as [Hc Hs].
  destruct (is_ascii_digit c) eqn:Hac.
  - apply IH; [exact Hs | exact Ha].
  - rewrite (superscript_no_underscore c Hc Hac). reflexivity.
Qed.

Lemma isdigit_split s :
  isdigit s = true -> s <> "" /\ str_forall char_isdigit s = true.
Proof.
  unfold isdigit. intros H. apply andb_true_iff in H as [Hne Hall].
  split; [|exact Hall]. intros ->. discriminate.
Qed.

Lemma count_digits_of_digits s :
  str_forall is_ascii_digit s = true ->
  count_digits s = Z.of_nat (String.length s).
Proof.
  induction s as [|c s IH]; [reflexivity|].
  cbn [str_forall count_digits String.length]. intros H.
  apply andb_true_iff in H as [Hc Hs]. rewrite Hc, (IH Hs). lia.
Qed.

(** What [int] does with a string of the digits 0 to 9: the limit decides. *)
Lemma int_of_digits s :
  digit_string s ->
  int s = if int_max_str_digits <? Z.of_nat (String.length s)
          then Raise (too_many_digits (Z.of_nat (String.length s)))
          else Ok (decimal_value s).
Proof.
  intros Hd. pose proof (Positions.digit_string_isdigit s Hd) as Hi.
  destruct Hd as [Hne Hall].
  apply isdigit_split in Hi as [_ Hchars].
  unfold int. rewrite (strip_no_space s (isdigit_chars_no_space s Hchars)).
  rewrite (count_digits_of_digits s Hall).
  destruct s as [|c s']; [contradiction|].
  assert (Hc : char_isdigit c = true).
  { cbn [str_forall] in Hchars. apply andb_true_iff in Hchars as [Hc _].
    exact Hc. }
  destruct (isdigit_no_sign c Hc) as [-> ->].
  rewrite (literal_digits_of_digits _ false 0 Hne Hall).
  rewrite Positions.digits_value_weights. reflexivity.
Qed.

(** [int] reads a string of at most 4300 digits as the number it denotes. *)
Lemma int_of_digit_word s : readable s -> int s = Ok (decimal_value s).
Proof.
  intros [Hd Hlen]. rewrite (int_of_digits s Hd).
  destruct (Z.ltb_spec int_max_str_digits (Z.of_nat (String.length s)));
    [lia | reflexivity].
Qed.

(** [int] refuses a string of more digits. *)
Lemma int_of_long_word s :
  beyond_limit s ->
  int s = Raise (too_many_digits (Z.of_nat (String.length s))).
Proof.
  intros [Hd Hlen]. rewrite (int_of_digits s Hd).
  destruct (Z.ltb_spec int_max_str_digits (Z.of_nat (String.length s)));
    [reflexivity | lia].
Qed.

(** [int] rejects a word that [isdigit] accepts for its superscripts. *)
Lemma int_of_superscript_word s :
  isdigit s = true -> str_forall is_ascii_digit s = false ->
  exists msg, int s = Raise (mkExn ValueError msg).
Proof.
  intros Hi Ha. apply isdigit_split in Hi as [Hne Hchars].
  unfold int. rewrite (strip_no_space s (isdigit_chars_no_space s Hchars)).
  destruct s as [|c s']; [contradiction|].
  assert (Hc : char_isdigit c = true).
  { cbn [str_forall] in Hchars. apply andb_true_iff in Hchars as [Hc _].
    exact Hc. }
  destruct (isdigit_no_sign c Hc) as [-> ->].
  rewrite (literal_digits_of_superscript _ false 0 Hchars Ha).
  eexists. reflexivity.
Qed.

Lemma int_raises_ValueError s e : int s = Raise e -> exn_type e = ValueError.
Proof.
  unfold int. destruct (match strip s with EmptyString => _ | _ => _ end).
  - destruct (int_max_str_digits <? count_digits (strip s)); [|discriminate].
    intros H. injection H as <-. reflexivity.
  - intros H. injection H as <-. reflexivity.
Qed.

(** [int] refuses every word that [isdigit] accepts and that is not a
    string of at most 4300 digits. *)
Lemma int_of_refused_word s :
  refused_word s -> exists e, int s = Raise e /\ exn_type e = ValueError.
Proof.
  intros [Hi Hr].
  destruct (str_forall is_ascii_digit s) eqn:Ha.
  - assert (Hd : digit_string s).
    { split; [|exact Ha]. apply isdigit_split in Hi as [Hne _]. exact Hne. }
    rewrite (int_of_digits s Hd).
    destruct (Z.ltb_spec int_max_str_digits (Z.of_nat (String.length s)))
      as [Hlong|Hshort].
    + eexists. split; reflexivity.
    + contradiction Hr. split; assumption.
  - destruct (int_of_superscript_word s Hi Ha) as (msg & ->).
    eexists. split; reflexivity.
Qed.

Lemma int_if_digits_plain word default :
  plain_word word -> int_if_digits word default = Ok (number_or word default).
Proof.
  destruct word as [s|]; [|reflexivity]. simpl.
  intros [Hn|Hd].
  - rewrite Hn. reflexivity.
  - rewrite (Positions.digit_string_isdigit s (proj1 Hd)),
      (int_of_digit_word s Hd).
    reflexivity.
Qed.

Lemma int_if_digits_refused s default :
  refused_word s ->
  exists e, int_if_digits (Some s) default = Raise e
            /\ exn_type e = ValueError.
Proof.
  intros Hs. destruct (int_of_refused_word s Hs) as (e & He & Hty).
  exists e. simpl. rewrite (proj1 Hs), He. split; [reflexivity | exact Hty].
Qed.

Lemma sound_topvisor self name args :
  sound_command self (Ok (call_topvisor_tool self name args)).
Proof.
  unfold call_topvisor_tool.
  destruct (lookup self name) eqn:H; simpl; auto.
Qed.

Lemma sound_ahrefs self name args :
  sound_command self (Ok (call_ahrefs_tool self name args)).
Proof.
  unfold call_ahrefs_tool. destruct (lookup self name) eqn:H; simpl; auto.
Qed.

Lemma after_get_prompt_hands_over name reply :
  prompt_handover reply (after_get_prompt name reply).
Proof.
  intros text. unfold after_get_prompt.
  destruct reply as [[[|content messages]|]|e]; simpl; try tauto.
  - destruct (prompt_text content) as [q|e] eqn:Hq; simpl.
    + intros [H|[H|[]]]; [discriminate|]. injection H as <-.
      exists content, messages. split; [reflexivity | exact Hq].
    + intros [H|[]]. discriminate.
  - intros [H|[]]. discriminate.
Qed.

Lemma sound_prompt self name args :
  sound_command self (Ok (execute_prompt self name args)).
Proof.
  unfold execute_prompt. destruct (lookup self name) eqn:H; simpl; auto.
  split; [exact H|]. intros reply. apply after_get_prompt_hands_over.
Qed.

Lemma sound_guard self r :
  sound_command self r -> sound_command self (project_id_guard r).
Proof.
  destruct r as [a|e]; simpl; auto. destruct (exn_type e); simpl; auto.
Qed.

Lemma sound_rbind {A : Type} self (r : result A) k :
  (forall a, sound_command self (k a)) -> sound_command self (rbind r k).
Proof. intros H. destruct r; simpl; auto. Qed.

Lemma command_is_sound self parts : sound_command self (command self parts).
Proof.
  unfold command. destruct parts as [|word rest]; [exact I|].
  cbv zeta.
  repeat match goal with
         | |- sound_command _ (if ?b then _ else _) => destruct b
         end;
    repeat first
      [ apply sound_guard
      | apply sound_rbind; intros ?
      | exact I
      | apply sound_topvisor | apply sound_ahrefs | apply sound_prompt ].
Qed.

(** X8.  Whatever the line: a tool or prompt call that the turn makes
    itself goes to the session that is registered under the called name;
    and what the turn hands to [process_query] is the stripped line, when
    it starts with neither a slash nor an at sign, or, for a [/prompt]
    line, the text of the first message of the reply of the session
    registered under the prompt name, and nothing else.  What
    [process_query] then calls is the subject of X23. *)
Theorem turn_is_sound :
  forall (self : t) (line : string), sound_action self line (turn self line).
Proof.
  intros self line. unfold turn. cbv zeta.
  destruct (String.eqb (strip line) ""); [exact I|].
  destruct (String.eqb (lower (strip line)) "quit"); [exact I|].
  destruct (startswith (strip line) "@") eqn:Hat; [exact I|].
  destruct (startswith (strip line) "/") eqn:Hslash.
  - pose proof (command_is_sound self (split_ws (strip line))) as H.
    destruct (command self (split_ws (strip line))) as [a|e]; [|exact I].
    destruct a; simpl in *; auto; try contradiction.
    destruct H as [Hs Hafter]. repeat split; assumption.
  - simpl. auto.
Qed.

Lemma prefix_nil s : String.prefix "" s = true.
Proof. destruct s; reflexivity. Qed.

Lemma prefix_one a c s :
  String.prefix (String a "") (String c s) = Ascii.eqb a c.
Proof.
  cbn [String.prefix]. destruct (ascii_dec a c) as [->|Hne].
  - rewrite prefix_nil, Ascii.eqb_refl. reflexivity.
  - symmetry. apply Ascii.eqb_neq. exact Hne.
Qed.

(** A line that raises in the branch of the slash commands: the loop
    prints the exception and goes on. *)
Lemma slash_line_error self line e :
  startswith (strip line) "/" = true ->
  command self (split_ws (strip line)) = Raise e ->
  turn self line = Print (String (chr 10) ("Error: " ++ exn_msg e)).
Proof.
  intros Hslash He. unfold turn. cbv zeta. rewrite He.
  destruct (strip line) as [|c q]; [discriminate|].
  unfold startswith in *. rewrite prefix_one in Hslash.
  apply Ascii.eqb_eq in Hslash. subst c.
  rewrite !prefix_one. reflexivity.
Qed.

Lemma keywords_command self word p1 rest :
  lower word = "/keywords" ->
  command self (word :: p1 :: rest)
  = project_id_guard
      (rbind (int p1) (fun project_id =>
       rbind (int_if_digits (nth_error rest 0) JNull) (fun folder_id =>
       rbind (int_if_digits (nth_error rest 1) JNull) (fun group_id =>
       Ok (get_topvisor_keywords self (JNum project_id)
             folder_id group_id))))).
Proof. intros Hword. unfold command. rewrite Hword. reflexivity. Qed.

(** X9.  [/keywords]: a project id that [int] cannot read, be it no number
    or one of more than 4300 digits, is reported and nothing is called;
    with a project id that [int] reads, the optional folder and group ids
    are passed as numbers when they are strings of at most 4300 digits
    and dropped when [isdigit] rejects them; a folder or group id that
    [isdigit] accepts and [int] refuses (a superscript digit, more than
    4300 digits) is reported as a bad project id; a 0 is dropped like an
    absent id. *)
Theorem keywords_command_arguments :
  forall (self : t) (word p1 : string) (rest : list string),
    lower word = "/keywords" ->
    (forall e, int p1 = Raise e ->
       command self (word :: p1 :: rest)
       = Ok (Print "Error: project_id must be a number"))
    /\ (beyond_limit p1 ->
        command self (word :: p1 :: rest)
        = Ok (Print "Error: project_id must be a number"))
    /\ (forall n,
          int p1 = Ok n ->
          plain_word (nth_error rest 0) -> plain_word (nth_error rest 1) ->
          command self (word :: p1 :: rest)
          = Ok (get_topvisor_keywords self (JNum n)
                  (number_or (nth_error rest 0) JNull)
                  (number_or (nth_error rest 1) JNull)))
    /\ (forall n f more,
          int p1 = Ok n -> rest = f :: more -> refused_word f ->
          command self (word :: p1 :: rest)
          = Ok (Print "Error: project_id must be a number"))
    /\ (forall n f g more,
          int p1 = Ok n -> rest = f :: g :: more ->
          plain_word (Some f) -> refused_word g ->
          command self (word :: p1 :: rest)
          = Ok (Print "Error: project_id must be a number"))
    /\ (forall project_id group_id,
          get_topvisor_keywords self project_id (JNum 0) group_id
          = get_topvisor_keywords self project_id JNull group_id)
    /\ (forall project_id folder_id,
          get_topvisor_keywords self project_id folder_id (JNum 0)
          = get_topvisor_keywords self project_id folder_id JNull).
Proof.
  intros self word p1 rest Hword.
  rewrite (keywords_command self word p1 rest Hword).
  assert (Hraise : forall e, int p1 = Raise e ->
            project_id_guard
              (rbind (int p1) (fun project_id =>
               rbind (int_if_digits (nth_error rest 0) JNull) (fun folder_id =>
               rbind (int_if_digits (nth_error rest 1) JNull) (fun group_id =>
               Ok (get_topvisor_keywords self (JNum project_id)
                     folder_id group_id)))))
            = Ok (Print "Error: project_id must be a number")).
  { intros e He. rewrite He. cbn [rbind project_id_guard].
    rewrite (int_raises_ValueError p1 e He). reflexivity. }
  split; [exact Hraise|]. split; [|split; [|split; [|split; [|split]]]].
  - intros Hlong. apply (Hraise _ (int_of_long_word p1 Hlong)).
  - intros n Hn Hf Hg. rewrite Hn. cbn [rbind].
    rewrite (int_if_digits_plain _ JNull Hf). cbn [rbind].
    rewrite (int_if_digits_plain _ JNull Hg). reflexivity.
  - intros n f more Hn -> Hf. rewrite Hn. cbn [rbind nth_error].
    destruct (int_if_digits_refused f JNull Hf) as (e & -> & Hty).
    cbn [rbind project_id_guard]. rewrite Hty. reflexivity.
  - intros n f g more Hn -> Hf Hg. rewrite Hn. cbn [rbind nth_error].
    rewrite (int_if_digits_plain (Some f) JNull Hf). cbn [rbind].
    destruct (int_if_digits_refused g JNull Hg) as (e & -> & Hty).
    cbn [rbind project_id_guard]. rewrite Hty. reflexivity.
  - reflexivity.
  - reflexivity.
Qed.

Lemma keywords_command_arguments_witness :
  command papers_bot ["/Keywords"; "12a"]
  = Ok (Print "Error: project_id must be a number")
  /\ command papers_bot ["/keywords"; long_digits]
     = Ok (Print "Error: project_id must be a number")
  /\ command papers_bot ["/keywords"; "12"; "0"; "x7"]
     = Ok (get_topvisor_keywords papers_bot (JNum 12) JNull JNull)
  /\ command papers_bot ["/keywords"; "12"; superscript_two]
     = Ok (Print "Error: project_id must be a number").
Proof.
  split; [|split; [|split]].
  - destruct (keywords_command_arguments papers_bot "/Keywords" "12a" []
                eq_refl) as (H & _).
    eapply H. reflexivity.
  - destruct (keywords_command_arguments papers_bot "/keywords" long_digits []
                eq_refl) as (_ & H & _).
    apply H. split; [split|].
    + intros E. discriminate E.
    + vm_compute. reflexivity.
    + vm_compute. reflexivity.
  - destruct (keywords_command_arguments papers_bot "/keywords" "12"
                ["0"; "x7"] eq_refl) as (_ & _ & H & _).
    apply (H 12 eq_refl).
    + right. split; [split; [discriminate | reflexivity]|].
      unfold int_max_str_digits. simpl. lia.
    + left. reflexivity.
  - destruct (keywords_command_arguments papers_bot "/keywords" "12"
                [superscript_two] eq_refl) as (_ & _ & _ & H & _).
    apply (H 12 superscript_two [] eq_refl eq_refl).
    split; [reflexivity|]. intros [[_ Hd] _]. discriminate Hd.
Defined.

Lemma ahrefs_commands self word domain rest :
  (lower word = "/refdomains" ->
   command self (word :: domain :: rest)
   = rbind (int_if_digits (nth_error rest 0) (JNum 100)) (fun limit =>
     Ok (get_ahrefs_refdomains self (JStr domain) limit
           (word_or rest 1 (JStr "domain_rating:desc")))))
  /\ (lower word = "/backlinks" ->
      command self (word :: domain :: rest)
      = rbind (int_if_digits (nth_error rest 0) (JNum 100)) (fun limit =>
        Ok (get_ahrefs_backlinks self (JStr domain) limit
              (word_or rest 1 (JStr "domain_rating_source:desc")))))
  /\ (lower word = "/organic" ->
      command self (word :: domain :: rest)
      = rbind (int_if_digits (nth_error rest 0) (JNum 100)) (fun limit =>
        Ok (get_ahrefs_organic_keywords self (JStr domain) limit
              (word_or rest 1 (JStr "best_position:asc"))
              (word_or rest 2 JNull)))).
Proof.
  split; [|split]; intros Hword; unfold command; rewrite Hword; reflexivity.
Qed.

(** X10.  [/refdomains], [/backlinks] and [/organic]: the limit is the
    third word when it is a string of at most 4300 digits, and 100 when
    there is no third word or [isdigit] rejects it; the order is the
    fourth word or the default of the command.  A third word that
    [isdigit] accepts and [int] refuses (a superscript digit, more than
    4300 digits) makes the command raise [ValueError]: nothing is called,
    and the loop prints the exception. *)
Theorem ahrefs_command_limit :
  forall (self : t) (word domain : string) (rest : list string),
    (plain_word (nth_error rest 0) ->
     (lower word = "/refdomains" ->
        command self (word :: domain :: rest)
        = Ok (get_ahrefs_refdomains self (JStr domain)
                (number_or (nth_error rest 0) (JNum 100))
                (word_or rest 1 (JStr "domain_rating:desc"))))
     /\ (lower word = "/backlinks" ->
         command self (word :: domain :: rest)
         = Ok (get_ahrefs_backlinks self (JStr domain)
                 (number_or (nth_error rest 0) (JNum 100))
                 (word_or rest 1 (JStr "domain_rating_source:desc"))))
     /\ (lower word = "/organic" ->
         command self (word :: domain :: rest)
         = Ok (get_ahrefs_organic_keywords self (JStr domain)
                 (number_or (nth_error rest 0) (JNum 100))
                 (word_or rest 1 (JStr "best_position:asc"))
                 (word_or rest 2 JNull))))
    /\ (forall s,
          nth_error rest 0 = Some s -> refused_word s ->
          lower word = "/refdomains" \/ lower word = "/backlinks"
          \/ lower word = "/organic" ->
          exists e,
            command self (word :: domain :: rest) = Raise e
            /\ exn_type e = ValueError)
    /\ (forall line e,
          startswith (strip line) "/" = true ->
          command self (split_ws (strip line)) = Raise e ->
          turn self line = Print (String (chr 10) ("Error: " ++ exn_msg e))).
Proof.
  intros self word domain rest.
  destruct (ahrefs_commands self word domain rest) as (Hr & Hb & Ho).
  split; [|split].
  - intros Hlimit.
    pose proof (int_if_digits_plain _ (JNum 100) Hlimit) as Hint.
    split; [|split]; intros Hword;
      [rewrite (Hr Hword) | rewrite (Hb Hword) | rewrite (Ho Hword)];
      rewrite Hint; reflexivity.
  - intros s Hs Hrefused Hword.
    destruct (int_if_digits_refused s (JNum 100) Hrefused) as (e & He & Hty).
    exists e. split; [|exact Hty].
    destruct Hword as [Hword|[Hword|Hword]];
      [rewrite (Hr Hword) | rewrite (Hb Hword) | rewrite (Ho Hword)];
      rewrite Hs, He; reflexivity.
  - intros line e. apply slash_line_error.
Qed.

Lemma ahrefs_command_limit_witness :
  command papers_bot ["/refdomains"; "example.com"; "5000"]
  = Ok (get_ahrefs_refdomains papers_bot (JStr "example.com") (JNum 5000)
          (JStr "domain_rating:desc"))
  /\ command papers_bot ["/BACKLINKS"; "example.com"; "-5"; "url_rating:desc"]
     = Ok (get_ahrefs_backlinks papers_bot (JStr "example.com") (JNum 100)
             (JStr "url_rating:desc"))
  /\ (exists e,
         command papers_bot ["/organic"; "example.com"; superscript_two]
         = Raise e
         /\ exn_type e = ValueError)
  /\ exists e,
       command papers_bot ["/refdomains"; "example.com"; long_digits]
       = Raise e
       /\ exn_type e = ValueError.
Proof.
  split; [|split; [|split]].
  - destruct (ahrefs_command_limit papers_bot "/refdomains" "example.com"
                ["5000"]) as (H & _).
    apply H; [|reflexivity].
    right. split; [split; [discriminate | reflexivity]|].
    unfold int_max_str_digits. simpl. lia.
  - destruct (ahrefs_command_limit papers_bot "/BACKLINKS" "example.com"
                ["-5"; "url_rating:desc"]) as (H & _).
    apply H; [left; reflexivity | reflexivity].
  - destruct (ahrefs_command_limit papers_bot "/organic" "example.com"
                [superscript_two]) as (_ & H & _).
    apply (H superscript_two eq_refl).
    + split; [reflexivity|]. intros [[_ Hd] _]. discriminate Hd.
    + right. right. reflexivity.
  - destruct (ahrefs_command_limit papers_bot "/refdomains" "example.com"
                [long_digits]) as (_ & H & _).
    apply (H long_digits eq_refl).
    + split; [vm_compute; reflexivity|].
      intros [_ Hlen]. vm_compute in Hlen. apply Hlen. reflexivity.
    + left. reflexivity.
Defined.

Lemma no_separator k :
  str_contains "=" k = false -> forall v,
  str_contains "=" (k ++ String "=" v) = true
  /\ split_once "=" (k ++ String "=" v) = Some (k, v).
Proof.
  induction k as [|c k IH]; intros Hk v.
  - split; [|reflexivity].
    change ("" ++ String "=" v) with (String "=" v).
    cbn [str_contains]. rewrite prefix_one. reflexivity.
  - cbn [str_contains] in Hk. rewrite prefix_one in Hk.
    apply orb_false_iff in Hk as [Hc Hk'].
    destruct (IH Hk' v) as [Hin Hsplit].
    change (String c k ++ String "=" v) with (String c (k ++ String "=" v)).
    cbn [str_contains split_once]. rewrite Hin, Hsplit, orb_true_r.
    split; [reflexivity|].
    rewrite Ascii.eqb_sym, Hc. reflexivity.
Qed.

Lemma prompt_args_app words words' : forall args,
  prompt_args args (words ++ words')
  = rbind (prompt_args args words) (fun a => prompt_args a words').
Proof.
  induction words as [|w words IH]; intros args; [reflexivity|].
  cbn [app prompt_args].
  destruct (str_contains "=" w); [|apply IH].
  destruct (split_once "=" w) as [[k v]|]; [apply IH | reflexivity].
Qed.

Lemma separator_splits w :
  str_contains "=" w = true -> exists k v, split_once "=" w = Some (k, v).
Proof.
  induction w as [|c w IH]; [discriminate|].
  cbn [str_contains split_once]. rewrite prefix_one, Ascii.eqb_sym.
  destruct (Ascii.eqb c "="); [eauto|]. simpl. intros H.
  destruct (IH H) as (k & v & ->). eauto.
Qed.

Lemma prompt_args_returns words : forall args,
  exists args', prompt_args args words = Ok args'.
Proof.
  induction words as [|w words IH]; intros args; cbn [prompt_args]; [eauto|].
  destruct (str_contains "=" w) eqn:Hw; [|apply IH].
  destruct (separator_splits w Hw) as (k & v & ->). apply IH.
Qed.

(** X11.  [/prompt]: the words [key=value] become the arguments and never
    make the command fail; a word without an equals sign is ignored; the
    value is everything after the first equals sign; when a key comes
    again, the last value is the one that is passed. *)
Theorem prompt_arguments_last_wins :
  forall (words : list string) (key value ignored : string)
         (args : list (string * string)),
    str_contains "=" key = false ->
    str_contains "=" ignored = false ->
    exists args',
      prompt_args args (words ++ [key ++ String "=" value]) = Ok args'
      /\ dict_get args' key = Some value
      /\ prompt_args args (words ++ [key ++ String "=" value; ignored])
         = Ok args'.
Proof.
  intros words key value ignored args Hkey Hign.
  destruct (no_separator key Hkey value) as [Hin Hsplit].
  destruct (prompt_args_returns words args) as (a & Ha).
  exists (dict_set a key value).
  rewrite !prompt_args_app, Ha. cbn [rbind prompt_args].
  rewrite Hin, Hsplit, Hign. repeat split. apply dict_get_set_same.
Qed.

Lemma prompt_arguments_last_wins_witness :
  exists args',
    prompt_args [] (["topic=ai"; "n=1"] ++ ["topic" ++ String "=" "a=b"])
    = Ok args'
    /\ dict_get args' "topic" = Some "a=b"
    /\ prompt_args [] (["topic=ai"; "n=1"] ++ ["topic" ++ String "=" "a=b"; "x"])
       = Ok args'.
Proof.
  apply (prompt_arguments_last_wins ["topic=ai"; "n=1"] "topic" "a=b" "x" []);
    reflexivity.
Defined.

Lemma at_sign_first topic :
  String.eqb (String "@" topic) "" = false
  /\ String.eqb (lower (String "@" topic)) "quit" = false
  /\ startswith (String "@" topic) "@" = true.
Proof. repeat split. destruct topic; reflexivity. Qed.

(** X12.  [@topic]: the loop asks for the resource [papers://topic], and a
    URI that is registered is read from its own session, whatever other
    [papers://] entries the table holds. *)
Theorem at_sign_reads_registered_resource :
  forall (self : t) (line topic : string) (s : Session),
    strip line = String "@" topic ->
    (turn self line = Resource (get_resource self ("papers://" ++ topic)))
    /\ (lookup self ("papers://" ++ topic) = Some s ->
        turn self line = Resource (ReadResource s ("papers://" ++ topic))).
Proof.
  intros self line topic s Hline.
  assert (Hturn : turn self line
                  = Resource (get_resource self ("papers://" ++ topic))).
  { unfold turn. cbv zeta. rewrite Hline.
    destruct (at_sign_first topic) as (-> & -> & ->).
    cbn [tail].
    destruct (String.eqb_spec topic "folders") as [->|_]; reflexivity. }
  split; [exact Hturn|].
  intros Hs. rewrite Hturn. unfold get_resource, resource_session.
  unfold lookup in Hs. rewrite Hs. reflexivity.
Qed.

Lemma at_sign_reads_registered_resource_witness :
  turn papers_bot "  @folders "
  = Resource (get_resource papers_bot ("papers://" ++ "folders"))
  /\ turn papers_bot "  @folders "
     = Resource (ReadResource 7%nat ("papers://" ++ "folders")).
Proof.
  split.
  - apply (proj1 (at_sign_reads_registered_resource papers_bot "  @folders "
                    "folders" 7%nat eq_refl)).
  - apply (proj2 (at_sign_reads_registered_resource papers_bot "  @folders "
                    "folders" 7%nat eq_refl)).
    reflexivity.
Defined.

End ChatLoop.

(** ** The calls of [process_query] *)

Module Query.
Import MCP_ChatBot query.

Section Oracles.
Context {Content : Type}.
Variable create : list json -> list (message Content) -> result (list block).
Variable call_tool : Session -> string -> json -> result Content.
Variable self : t.

Lemma read_blocks_keeps (P : event Content -> Prop) blocks :
  (forall text, P (Said text)) ->
  (forall s name input, lookup self name = Some s -> P (Called s name input)) ->
  forall st,
    Forall P (events Content st) ->
    Forall P (events Content
                (fst (read_blocks Content call_tool self blocks st))).
Proof.
  intros Hsaid Hcalled.
  induction blocks as [|b blocks IH]; intros st Hst; [exact Hst|].
  destruct b as [text|id name input|type]; cbn [read_blocks].
  - apply IH. cbn [events]. apply Forall_app. split; [exact Hst|].
    constructor; [apply Hsaid | constructor].
  - destruct (lookup self name) as [s|] eqn:Hs.
    + assert (Hev : Forall P (events Content st ++ [Called s name input])).
      { apply Forall_app. split; [exact Hst|].
        constructor; [apply Hcalled, Hs | constructor]. }
      destruct (call_tool s name input) as [c|e]; [|exact Hev].
      apply IH. exact Hev.
    + cbn [fst events]. apply Forall_app. split; [exact Hst|].
      constructor; [apply Hsaid | constructor].
  - apply IH, Hst.
Qed.

Lemma read_blocks_without_tool blocks :
  uses_no_tool blocks = true ->
  forall st,
    read_blocks Content call_tool self blocks st
    = (mkReading Content
         (assistant_content Content st
          ++ filter (fun b => match b with TextBlock _ => true | _ => false end)
               blocks)
         (has_tool_use Content st) (new_messages Content st)
         (events Content st ++ said blocks),
       Finished).
Proof.
  induction blocks as [|b blocks IH]; intros Hno st.
  - cbn [read_blocks filter said flat_map]. rewrite !app_nil_r.
    destruct st; reflexivity.
  - destruct b as [text|id name input|type]; cbn [uses_no_tool forallb] in Hno;
      try discriminate Hno.
    + cbn [read_blocks]. rewrite (IH Hno). cbn [assistant_content
        has_tool_use new_messages events filter said flat_map].
      rewrite <- !app_assoc. reflexivity.
    + cbn [read_blocks]. rewrite (IH Hno). reflexivity.
Qed.

Lemma loop_keeps (P : event Content -> Prop) :
  (forall text, P (Said text)) ->
  (forall s name input, lookup self name = Some s -> P (Called s name input)) ->
  forall fuel messages seen,
    (forall extra,
        P (Requested (available_tools self) (messages ++ extra))) ->
    Forall P seen ->
    Forall P (fst (process_query_loop Content create call_tool self fuel
                     messages seen)).
Proof.
  intros Hsaid Hcalled.
  induction fuel as [|fuel IH]; intros messages seen Hreq Hseen; [exact Hseen|].
  cbn [process_query_loop].
  assert (Hseen' : Forall P (seen ++ [Requested (available_tools self) messages])).
  { apply Forall_app. split; [exact Hseen|].
    constructor; [|constructor]. specialize (Hreq []).
    rewrite app_nil_r in Hreq. exact Hreq. }
  destruct (create (available_tools self) messages) as [blocks|e];
    [|exact Hseen'].
  pose proof (read_blocks_keeps P blocks Hsaid Hcalled
                (mkReading Content [] false [] []) (Forall_nil _)) as Hread.
  destruct (read_blocks Content call_tool self blocks _) as [st ended].
  cbn [fst] in Hread.
  assert (Hall : Forall P ((seen ++ [Requested (available_tools self) messages])
                           ++ events Content st)).
  { apply Forall_app. split; assumption. }
  destruct ended; try exact Hall;
    (destruct (has_tool_use Content st); [|exact Hall];
     apply IH; [|exact Hall];
     intros more; rewrite <- app_assoc; apply Hreq).
Qed.

End Oracles.

(** X23.  Whatever the model answers and whatever the tools return or
    raise, for any number of requests: every tool call that
    [process_query] makes goes to the session registered under the name
    the model asked for, so a name that is not registered is never
    called; every request offers the advertised tools and starts with the
    query; and a first response that asks for no tool ends the loop after
    its texts are printed. *)
Theorem process_query_calls_registered_sessions :
  forall (Content : Type)
         (create : list json -> list (message Content) -> result (list block))
         (call_tool : Session -> string -> json -> result Content)
         (self : t) (fuel : nat) (q : string),
    Forall (routed self)
      (fst (process_query Content create call_tool self fuel q))
    /\ Forall (asks_about self q)
         (fst (process_query Content create call_tool self fuel q))
    /\ (forall blocks,
          create (available_tools self) [UserQuery q] = Ok blocks ->
          uses_no_tool blocks = true ->
          process_query Content create call_tool self (S fuel) q
          = (Requested (available_tools self) [UserQuery q] :: said blocks,
             Returns)).
Proof.
  intros Content create call_tool self fuel q. split; [|split].
  - apply loop_keeps.
    + intros text. exact I.
    + intros s name input Hs. exact Hs.
    + intros extra. exact I.
    + constructor.
  - apply loop_keeps.
    + intros text. exact I.
    + intros s name input Hs. exact I.
    + intros extra. split; [reflexivity|]. exists extra. reflexivity.
    + constructor.
  - intros blocks Hcreate Hno. unfold process_query.
    cbn [process_query_loop]. rewrite Hcreate.
    rewrite (read_blocks_without_tool call_tool self blocks Hno).
    reflexivity.
Qed.

End Query.

(** ** Running a tool *)

(** The bodies of the tools and of the client methods. *)
Create HintDb tool_bodies.
#[local] Hint Unfold
  tools_topvisor.check_topvisor_setup tools_topvisor.get_topvisor_projects
  tools_topvisor.get_topvisor_keywords
  tools_topvisor.get_topvisor_positions_history
  tools_topvisor.get_topvisor_positions_summary
  tools_topvisor.get_topvisor_competitors tools_topvisor.get_topvisor_regions
  tools_topvisor.get_topvisor_keyword_folders
  tools_topvisor.get_topvisor_keyword_groups
  tools_topvisor.get_topvisor_balance
  tools_topvisor.get_topvisor_project_keywords
  tools_ahrefs.check_ahrefs_setup tools_ahrefs.get_ahrefs_refdomains
  tools_ahrefs.get_ahrefs_backlinks tools_ahrefs.get_ahrefs_organic_keywords
  research_server.get_ahrefs_refdomains research_server.get_ahrefs_backlinks
  research_server.get_ahrefs_organic_keywords
  research_server.get_topvisor_regions : tool_bodies.

Create HintDb client_bodies.
#[local] Hint Unfold
  TopvisorAPI.get_projects TopvisorAPI.get_project_keywords
  TopvisorAPI.get_project_positions TopvisorAPI.get_positions_summary
  TopvisorAPI.get_project_competitors TopvisorAPI.get_project_regions
  TopvisorAPI.get_keyword_folders TopvisorAPI.get_keyword_groups
  TopvisorAPI.get_balance_info AhrefsAPI.get_refdomains
  AhrefsAPI.get_backlinks AhrefsAPI.get_organic_keywords : client_bodies.

Lemma empty_key_is_falsy (key : option string) :
  absent_or_empty key -> negb (truthy (of_opt_str key)) = true.
Proof. intros [->| ->]; reflexivity. Qed.

Lemma set_key_is_truthy (key : option string) :
  non_empty key -> negb (truthy (of_opt_str key)) = false.
Proof.
  intros (k & -> & Hk). simpl.
  destruct (String.eqb_spec k ""); [contradiction | reflexivity].
Qed.

(** A run up to the request: the steps of the monad and the two
    constructors, with [_make_request] left as it is. *)
Ltac run_to_request :=
  cbv beta iota zeta
    delta [try_except bind ask ret raise lift TopvisorAPI.new AhrefsAPI.new
           TopvisorAPI.__init__ AhrefsAPI.__init__].

(** ** Requests *)

Module Requests.





Lemma topvisor_make_request_sends self endpoint payload csv :
  sends (TopvisorAPI._make_request self endpoint payload csv)
        (topvisor_post self endpoint payload).
Proof.
  intros w log.
  unfold TopvisorAPI._make_request, try_except, bind, send, ret, lift,
    topvisor_post.
  destruct (network w _) as [r|e]; simpl.
  - repeat match goal with
           | |- context [if ?b then _ else _] => destruct b
           end; try reflexivity;
      destruct (body_json r) as [v|e]; simpl; try reflexivity;
      destruct (exn_type e); reflexivity.
  - destruct (exn_type e); reflexivity.
Qed.

Lemma ahrefs_make_request_sends self endpoint params :
  sends (AhrefsAPI._make_request self endpoint params)
        (ahrefs_get self endpoint params).
Proof.
  intros w log.
  unfold AhrefsAPI._make_request, try_except, bind, send, ret, lift,
    ahrefs_get.
  destruct (network w _) as [r|e]; simpl.
  - repeat match goal with
           | |- context [if ?b then _ else _] => destruct b
           end; try reflexivity;
      destruct (body_json r) as [v|e]; simpl; try reflexivity;
      destruct (exn_type e); reflexivity.
  - destruct (exn_type e); reflexivity.
Qed.

Section Rules.
Context {A B : Type}.

Lemma quiet_ret (a : A) : quiet (ret a).
Proof. intros w log. reflexivity. Qed.

Lemma quiet_lift (r : result A) : quiet (lift r).
Proof. intros w log. reflexivity. Qed.

Lemma quiet_raise (e : exn) : quiet (@raise A e).
Proof. intros w log. reflexivity. Qed.

Lemma quiet_bind (m : M A) (k : A -> M B) :
  quiet m -> (forall a, quiet (k a)) -> quiet (bind m k).
Proof.
  intros Hm Hk w log. unfold bind. specialize (Hm w log).
  destruct (m w log) as [log' [a|e]]; simpl in *; subst; [apply Hk | reflexivity].
Qed.

Lemma quiet_try_except (m : M A) (h : exn -> M A) :
  quiet m -> (forall e, quiet (h e)) -> quiet (try_except m h).
Proof.
  intros Hm Hh w log. unfold try_except. specialize (Hm w log).
  destruct (m w log) as [log' [a|e]]; simpl in *; subst; [reflexivity | apply Hh].
Qed.

Lemma once_of_quiet (m : M A) : quiet m -> at_most_once m.
Proof. intros H w log. left. apply H. Qed.

Lemma once_of_sends (m : M A) r : sends m r -> at_most_once m.
Proof. intros H w log. right. exists r. apply H. Qed.

Lemma once_after_quiet (m : M A) (k : A -> M B) :
  quiet m -> (forall a, at_most_once (k a)) -> at_most_once (bind m k).
Proof.
  intros Hm Hk w log. unfold bind. specialize (Hm w log).
  destruct (m w log) as [log' [a|e]]; simpl in *; subst;
    [apply Hk | left; reflexivity].
Qed.

Lemma once_then_quiet (m : M A) (k : A -> M B) :
  at_most_once m -> (forall a, quiet (k a)) -> at_most_once (bind m k).
Proof.
  intros Hm Hk w log. unfold bind. specialize (Hm w log).
  destruct (m w log) as [log' [a|e]]; simpl in *.
  - rewrite (Hk a w log'). exact Hm.
  - exact Hm.
Qed.

Lemma once_try_except (m : M A) (h : exn -> M A) :
  at_most_once m -> (forall e, quiet (h e)) -> at_most_once (try_except m h).
Proof.
  intros Hm Hh w log. unfold try_except. specialize (Hm w log).
  destruct (m w log) as [log' [a|e]]; simpl in *.
  - exact Hm.
  - rewrite (Hh e w log'). exact Hm.
Qed.

End Rules.

Lemma quiet_ask : quiet ask.
Proof. intros w log. reflexivity. Qed.

Lemma quiet_topvisor_new : quiet TopvisorAPI.new.
Proof.
  intros w log. unfold TopvisorAPI.new, TopvisorAPI.__init__, bind, ask.
  destruct (negb _); reflexivity.
Qed.

Lemma quiet_ahrefs_new : quiet AhrefsAPI.new.
Proof.
  intros w log. unfold AhrefsAPI.new, AhrefsAPI.__init__, bind, ask.
  destruct (negb _); reflexivity.
Qed.

Lemma sends_after_ask {A : Type} (k : World -> M A) (r : World -> Request) :
  (forall w, sends (k w) (r w)) -> forall w log,
  fst (bind ask k w log) = (log ++ [r w])%list.
Proof. intros H w log. unfold bind, ask. apply H. Qed.

Lemma once_after_ask {A : Type} (k : World -> M A) :
  (forall w, at_most_once (k w)) -> at_most_once (bind ask k).
Proof. intros H w log. unfold bind, ask. apply H. Qed.

(** The computations that send nothing: every step is one that does not
    touch the network. *)
Ltac quiet_steps :=
  repeat match goal with
    | |- quiet (ret _) => apply quiet_ret
    | |- quiet (lift _) => apply quiet_lift
    | |- quiet (raise _) => apply quiet_raise
    | |- quiet ask => apply quiet_ask
    | |- quiet TopvisorAPI.new => apply quiet_topvisor_new
    | |- quiet AhrefsAPI.new => apply quiet_ahrefs_new
    | |- quiet (bind _ _) => apply quiet_bind; [|intros ?]
    | |- quiet (try_except _ _) => apply quiet_try_except; [|intros ?]
    | |- quiet (if ?b then _ else _) => destruct b
    | |- quiet (let _ := _ in _) => cbv zeta
    end.

(** The computations that send at most one request: one [_make_request],
    with quiet steps before and after. *)
Ltac once_steps :=
  repeat match goal with
    | |- at_most_once (ret _) => apply once_of_quiet, quiet_ret
    | |- at_most_once (lift _) => apply once_of_quiet, quiet_lift
    | |- at_most_once (raise _) => apply once_of_quiet, quiet_raise
    | |- at_most_once (TopvisorAPI._make_request _ _ _ _) =>
        eapply once_of_sends; apply topvisor_make_request_sends
    | |- at_most_once (AhrefsAPI._make_request _ _ _) =>
        eapply once_of_sends; apply ahrefs_make_request_sends
    | |- at_most_once (bind ask _) => apply once_after_ask; intros ?
    | |- at_most_once (bind TopvisorAPI.new _) =>
        apply once_after_quiet; [apply quiet_topvisor_new | intros ?]
    | |- at_most_once (bind AhrefsAPI.new _) =>
        apply once_after_quiet; [apply quiet_ahrefs_new | intros ?]
    | |- at_most_once (bind (lift _) _) =>
        apply once_after_quiet; [apply quiet_lift | intros ?]
    | |- at_most_once (bind _ _) =>
        apply once_then_quiet; [| intros ?; solve [quiet_steps]]
    | |- at_most_once (try_except _ _) =>
        apply once_try_except; [| intros ?; solve [quiet_steps]]
    | |- at_most_once (if ?b then _ else _) => destruct b
    | |- at_most_once (let _ := _ in _) => cbv zeta
    end.




(** X13.  Every tool call, whatever its arguments, the environment and the
    network, sends no request or one: nothing is retried, and no tool
    makes a second call to the provider. *)
Theorem tools_send_at_most_one_request :
  forall (csv_rows : string -> list (list string)) (c : seo.tool_call)
         (c' : research_server.tool_call),
    at_most_once (seo.call csv_rows c)
    /\ at_most_once (research_server.call csv_rows c').
Proof.
  intros csv_rows c c'. split.
  - destruct c; cbn [seo.call]; autounfold with tool_bodies client_bodies; once_steps.
  - destruct c'; cbn [research_server.call]; autounfold with tool_bodies client_bodies;
      once_steps.
Qed.

(** X14.  Without API keys every tool fails before it reaches the network:
    it returns an envelope of status "error" and sends nothing. *)
Theorem keyless_tools_send_nothing :
  forall (csv_rows : string -> list (list string)) (w : World)
         (c : seo.tool_call) (c' : research_server.tool_call)
         (log : list Request),
    keyless w ->
    (exists envelope,
        seo.call csv_rows c w log = (log, Ok envelope)
        /\ status envelope = Some (JStr "error"))
    /\ (exists envelope,
           research_server.call csv_rows c' w log = (log, Ok envelope)
           /\ status envelope = Some (JStr "error")).
Proof.
  intros csv_rows w c c' log [Ht Ha].
  apply empty_key_is_falsy in Ht, Ha. split.
  - destruct c; cbn [seo.call]; autounfold with tool_bodies client_bodies;
      run_to_request; rewrite ?Ht, ?Ha; eexists; split; reflexivity.
  - destruct c'; cbn [research_server.call];
      autounfold with tool_bodies client_bodies;
      run_to_request; rewrite ?Ht, ?Ha; eexists; split; reflexivity.
Qed.

Lemma keyless_tools_send_nothing_witness :
  keyless quiet_world
  /\ exists envelope,
       seo.call (fun _ => []) seo.Get_topvisor_projects quiet_world []
       = ([], Ok envelope)
       /\ status envelope = Some (JStr "error").
Proof.
  assert (H : keyless quiet_world) by (split; left; reflexivity).
  split; [exact H|].
  exact (proj1 (keyless_tools_send_nothing (fun _ => []) quiet_world
                  seo.Get_topvisor_projects
                  (research_server.Get_topvisor_regions 7) [] H)).
Defined.

Section InWorld.
Context {A B : Type} (w : World).






End InWorld.






End Requests.

(** ** A network that refuses *)

Module Failures.


(** What a refused request leaves in the client's hands: a dict with an
    [error] entry and no [result] entry. *)
Lemma topvisor_refused (w : World) self endpoint payload csv log :
  refuses w ->
  exists log' kv problem,
    TopvisorAPI._make_request self endpoint payload csv w log
    = (log', Ok (JObj kv))
    /\ dict_get kv "error" = Some problem /\ dict_get kv "result" = None.
Proof.
  intros Hw.
  destruct (topvisor_make_request_never_raises self endpoint payload csv w log)
    as (log' & v & E & Hv).
  destruct (Hv Hw) as (kv & -> & He & Hr). unfold dict_has in He, Hr.
  destruct (dict_get kv "error") as [problem|] eqn:Ee; [|discriminate].
  destruct (dict_get kv "result") eqn:Er; [discriminate|].
  exists log', kv, problem. repeat split; assumption.
Qed.

Lemma ahrefs_refused (w : World) self endpoint params log :
  refuses w ->
  exists log' kv problem,
    AhrefsAPI._make_request self endpoint params w log = (log', Ok (JObj kv))
    /\ dict_get kv "error" = Some problem.
Proof.
  intros Hw.
  destruct (ahrefs_make_request_never_raises self endpoint params w log)
    as (log' & v & E & Hv).
  destruct (Hv Hw) as (kv & -> & He & Hr). unfold dict_has in He.
  destruct (dict_get kv "error") as [problem|] eqn:Ee; [|discriminate].
  exists log', kv, problem. split; assumption.
Qed.

Lemma has_entry_not_empty {V : Type} (kv : list (string * V)) k v :
  dict_get kv k = Some v -> exists p kv', kv = p :: kv'.
Proof. destruct kv as [|p kv']; [discriminate | eauto]. Qed.

(** The request of a run, refused. *)
Ltac refused Hw :=
  match goal with
  | |- context [TopvisorAPI._make_request ?t ?e ?p ?c ?w ?l] =>
      let log' := fresh "log'" in
      let kv := fresh "kv" in
      let problem := fresh "problem" in
      let E := fresh "E" in
      let Ee := fresh "Ee" in
      let Er := fresh "Er" in
      destruct (topvisor_refused w t e p c l Hw)
        as (log' & kv & problem & E & Ee & Er);
      rewrite E; clear E
  | |- context [AhrefsAPI._make_request ?t ?e ?p ?w ?l] =>
      let log' := fresh "log'" in
      let kv := fresh "kv" in
      let problem := fresh "problem" in
      let E := fresh "E" in
      let Ee := fresh "Ee" in
      destruct (ahrefs_refused w t e p l Hw)
        as (log' & kv & problem & E & Ee);
      rewrite E; clear E
  end.


Section Refused.
Variables (kv : list (string * json)) (problem : json).
Hypothesis Ee : dict_get kv "error" = Some problem.

Lemma refused_truthy : truthy (JObj kv) = true.
Proof. destruct kv; [discriminate | reflexivity]. Qed.

Lemma refused_is_error : truthy_and_in (JObj kv) "error" = Ok true.
Proof.
  unfold truthy_and_in. rewrite refused_truthy. simpl.
  unfold dict_has. rewrite Ee. reflexivity.
Qed.

Lemma refused_dict_error : dict_and_in (JObj kv) "error" = true.
Proof. simpl. unfold dict_has. rewrite Ee. reflexivity. Qed.

Lemma refused_problem : getitem (JObj kv) "error" = Ok problem.
Proof. simpl. rewrite Ee. reflexivity. Qed.

Lemma refused_get k d : exists v, get (JObj kv) k d = Ok v.
Proof. simpl. destruct (dict_get kv k); eauto. Qed.

Hypothesis Er : dict_get kv "result" = None.

Lemma refused_no_data : truthy_and_in (JObj kv) "result" = Ok false.
Proof.
  unfold truthy_and_in. rewrite refused_truthy. simpl.
  unfold dict_has. rewrite Er. reflexivity.
Qed.

Lemma refused_no_result : getitem (JObj kv) "result"
                          = Raise (mkExn KeyError "'result'").
Proof. simpl. rewrite Er. reflexivity. Qed.

End Refused.

(** The rest of a run whose request was refused. *)
Ltac after_refusal :=
  unfold tools_topvisor.projects_envelope, rbind;
  repeat match goal with
    | Ee : dict_get ?kv "error" = Some ?problem |- _ =>
        rewrite ?(refused_truthy kv problem Ee),
                ?(refused_is_error kv problem Ee),
                ?(refused_dict_error kv problem Ee),
                ?(refused_problem kv problem Ee);
        match goal with
        | Er : dict_get kv "result" = None |- _ =>
            rewrite ?(refused_no_data kv problem Ee Er),
                    ?(refused_no_result kv Er)
        | _ => idtac
        end;
        match goal with
        | |- context [get (JObj kv) ?k ?d] =>
            let v := fresh "v" in
            let E := fresh "E" in
            destruct (refused_get kv k d) as (v & E); rewrite E; clear E
        | _ => idtac
        end;
        revert Ee
    end;
  intros;
  cbv beta iota.

(** The two cases of each test of an API key. *)
Ltac key_cases :=
  repeat match goal with
    | |- context [negb (truthy (of_opt_str (?key ?w)))] =>
        destruct (negb (truthy (of_opt_str (key w)))); cbv beta iota
    end.

Ltac failure_reported :=
  do 2 eexists; split;
  [ reflexivity | first [left; reflexivity | right; reflexivity] ].

(** X16.  When the network refuses every request (a status other than 200,
    or a transport failure), every tool but [get_topvisor_project_keywords]
    returns an envelope that reports the failure. *)
Theorem refused_tools_report_failure :
  forall (csv_rows : string -> list (list string)) (w : World)
         (c : seo.tool_call) (c' : research_server.tool_call)
         (log : list Request),
    refuses w ->
    (forall project_id, c <> seo.Get_topvisor_project_keywords project_id) ->
    (exists log' envelope,
        seo.call csv_rows c w log = (log', Ok envelope)
        /\ reports_failure envelope)
    /\ (exists log' envelope,
           research_server.call csv_rows c' w log = (log', Ok envelope)
           /\ reports_failure envelope).
Proof.
  intros csv_rows w c c' log Hw Hc. split.
  - destruct c; cbn [seo.call]; autounfold with tool_bodies client_bodies;
      run_to_request;
      try (exfalso; eapply Hc; reflexivity);
      key_cases; try failure_reported;
      refused Hw; after_refusal; failure_reported.
  - destruct c'; cbn [research_server.call];
      autounfold with tool_bodies client_bodies; run_to_request;
      key_cases; try failure_reported;
      refused Hw; after_refusal; failure_reported.
Qed.

Lemma refused_tools_report_failure_witness :
  refuses unauthorized
  /\ exists log' envelope,
       seo.call (fun _ => []) (seo.Get_topvisor_keywords 7 None None)
         unauthorized []
       = (log', Ok envelope)
       /\ reports_failure envelope.
Proof.
  assert (H : refuses unauthorized) by (intros req; simpl; lia).
  split; [exact H|].
  apply (refused_tools_report_failure (fun _ => []) unauthorized
           (seo.Get_topvisor_keywords 7 None None)
           (research_server.Get_topvisor_regions 7) [] H).
  intros project_id. discriminate.
Defined.





Lemma topvisor_answered (w : World) (body : json) self endpoint payload log :
  answers w body ->
  exists log',
    TopvisorAPI._make_request self endpoint payload false w log
    = (log', Ok body).
Proof.
  intros Hw. unfold TopvisorAPI._make_request, try_except, bind, send.
  cbv zeta.
  destruct (Hw (mkRequest POST (TopvisorAPI.base_url self ++ "/" ++ endpoint)
                  (TopvisorAPI.headers self) payload 60))
    as (r & -> & H200 & Hbody).
  rewrite H200. simpl. unfold lift. rewrite Hbody. eexists. reflexivity.
Qed.

Lemma ahrefs_answered (w : World) (body : json) self endpoint params log :
  answers w body ->
  exists log',
    AhrefsAPI._make_request self endpoint params w log = (log', Ok body).
Proof.
  intros Hw. unfold AhrefsAPI._make_request, try_except, bind, send.
  cbv zeta.
  destruct (Hw (mkRequest GET (AhrefsAPI.base_url self ++ "/" ++ endpoint)
                  (AhrefsAPI.headers self) params 60))
    as (r & -> & H200 & Hbody).
  rewrite H200. simpl. unfold lift. rewrite Hbody. eexists. reflexivity.
Qed.

(** The request of a run, answered with [body]. *)
Ltac answered Hw :=
  match goal with
  | |- context [TopvisorAPI._make_request ?t ?e ?p false ?w ?l] =>
      let log' := fresh "log'" in
      let E := fresh "E" in
      destruct (topvisor_answered w _ t e p l Hw) as (log' & E);
      rewrite E; clear E
  | |- context [AhrefsAPI._make_request ?t ?e ?p ?w ?l] =>
      let log' := fresh "log'" in
      let E := fresh "E" in
      destruct (ahrefs_answered w _ t e p l Hw) as (log' & E);
      rewrite E; clear E
  end.

(** X22.  An [error] entry takes precedence over the data: when the
    provider answers 200 with a JSON object that has an [error] key,
    whatever its value and whatever else the object holds, the tools that
    look for the key (the two setup checks, the projects, the position
    history and the three Ahrefs tools) report a failure. *)
Theorem error_entry_takes_precedence :
  forall (csv_rows : string -> list (list string)) (w : World)
         (kv : list (string * json)) (problem : json)
         (c : seo.tool_call) (log : list Request),
    answers w (JObj kv) ->
    dict_get kv "error" = Some problem ->
    checks_error_entry c = true ->
    exists log' envelope,
      seo.call csv_rows c w log = (log', Ok envelope)
      /\ reports_failure envelope.
Proof.
  intros csv_rows w kv problem c log Hw Ee Hc.
  destruct c; try discriminate Hc; clear Hc;
    cbn [seo.call]; autounfold with tool_bodies client_bodies;
    run_to_request; key_cases; try failure_reported;
    answered Hw; after_refusal; failure_reported.
Qed.

Lemma error_entry_takes_precedence_witness :
  exists log' envelope,
    seo.call (fun _ => []) (seo.Get_ahrefs_refdomains "example.com" 10)
      (answering (JObj [("error", JNull); ("refdomains", JArr [JNum 1])])) []
    = (log', Ok envelope)
    /\ reports_failure envelope.
Proof.
  apply (error_entry_takes_precedence (fun _ => [])
           (answering (JObj [("error", JNull); ("refdomains", JArr [JNum 1])]))
           [("error", JNull); ("refdomains", JArr [JNum 1])] JNull
           (seo.Get_ahrefs_refdomains "example.com" 10) []).
  - intros req. eexists. repeat split.
  - reflexivity.
  - reflexivity.
Defined.

End Failures.

(** ** Lists and their counts *)

Module Listings.

Section Rules.
Context {A B : Type}.

Lemma returning_bind_with (Q1 : A -> Prop) (Q : B -> Prop) (m : M A)
  (k : A -> M B) :
  returning Q1 m -> (forall a, Q1 a -> returning Q (k a)) ->
  returning Q (bind m k).
Proof.
  intros Hm Hk w log. unfold bind. specialize (Hm w log).
  destruct (m w log) as [log' [a|e]]; simpl in Hm; [|exact I].
  apply Hk, Hm.
Qed.

Lemma returning_bind_lift (Q : B -> Prop) (r : result A) (k : A -> M B) :
  (forall a, r = Ok a -> returning Q (k a)) -> returning Q (bind (lift r) k).
Proof.
  intros Hk w log. unfold bind, lift.
  destruct r as [a|e]; [|exact I]. apply Hk. reflexivity.
Qed.

End Rules.

Lemma for_each_length (xs : json) (f : json -> result json) (ys : list json) :
  for_each xs f = Ok ys ->
  exists l, iter xs = Ok l /\ length ys = length l.
Proof.
  unfold for_each. destruct (iter xs) as [l|e]; simpl; [|discriminate].
  intros H. exists l. split; [reflexivity|].
  apply Positions.rmap_ok in H. symmetry. exact (Forall2_length H).
Qed.

Lemma projects_envelope_counted (result envelope : json) :
  tools_topvisor.projects_envelope result = Ok envelope ->
  counted "projects" envelope.
Proof.
  unfold tools_topvisor.projects_envelope.
  destruct (truthy_and_in result "error") as [[|]|e]; simpl; try discriminate.
  - destruct (getitem result "error"); simpl; [|discriminate].
    destruct (get result "details" _); simpl; [|discriminate].
    intros H. injection H as <-. intros Hs. discriminate Hs.
  - destruct (truthy_and_in result "result") as [[|]|e]; simpl;
      try discriminate.
    + destruct (getitem result "result"); simpl; [|discriminate].
      destruct (for_each _ _) as [l|e]; simpl; [|discriminate].
      intros H. injection H as <-. intros _. exists l. split; reflexivity.
    + intros H. injection H as <-. intros Hs. discriminate Hs.
Qed.

(** What [get_project_regions] returns when it returns: the list of the
    regions under [result]. *)
Lemma get_project_regions_shape csv_rows self project_id :
  returning (fun v => exists data code,
                        v = JObj [("result", JArr data); ("status_code", code)])
    (TopvisorAPI.get_project_regions csv_rows self project_id).
Proof.
  unfold TopvisorAPI.get_project_regions.
  repeat (apply Envelopes.returning_bind; intros ?).
  apply Envelopes.returning_ret. eauto.
Qed.

(** An envelope written as a dict literal: an error, or a list and its
    length. *)
Ltac literal_counted :=
  let Hs := fresh "Hs" in
  intros Hs;
  first [ discriminate Hs
        | eexists; split; [reflexivity | cbn; rewrite ?length_map; reflexivity] ].

Ltac counted_paths :=
  repeat first
    [ apply Envelopes.returning_ret; literal_counted
    | apply Envelopes.returning_lift; apply projects_envelope_counted
    | apply Envelopes.returning_bind; intros ?
    | match goal with
      | |- returning _ (if ?b then _ else _) => destruct b
      end
    | progress cbv zeta ].

Ltac counted_tool :=
  apply Envelopes.always_try_except;
  [ counted_paths | intros ?; apply Envelopes.always_ret; literal_counted ].

(** X19.  Every tool that returns a list returns its length with it: on
    success, [total_count] is the number of items under the tool's list
    field. *)
Theorem total_count_is_the_length :
  forall (csv_rows : string -> list (list string)) (c : seo.tool_call)
         (key : string) (w : World) (log : list Request),
    list_field c = Some key ->
    exists log' envelope,
      seo.call csv_rows c w log = (log', Ok envelope)
      /\ counted key envelope.
Proof.
  intros csv_rows c key w log Hkey.
  enough (H : always (counted key) (seo.call csv_rows c)) by apply H.
  destruct c; try discriminate Hkey; injection Hkey as <-;
    cbn [seo.call]; autounfold with tool_bodies.
  all: try solve [counted_tool].
  apply Envelopes.always_try_except;
    [| intros ?; apply Envelopes.always_ret; literal_counted ].
  apply Envelopes.returning_bind; intros topvisor.
  apply (returning_bind_with _ _ _ _
           (get_project_regions_shape csv_rows topvisor project_id)).
  intros result (data & code & ->).
  apply Envelopes.returning_bind; intros [|];
    [| apply Envelopes.returning_ret; literal_counted ].
  apply returning_bind_lift; intros regions Hregions.
  injection Hregions as <-.
  apply returning_bind_lift; intros total_count Hlen.
  injection Hlen as <-.
  apply Envelopes.returning_ret. intros _. exists data. split; reflexivity.
Qed.

Lemma total_count_is_the_length_witness :
  exists log' envelope,
    seo.call (fun _ => []) seo.Get_topvisor_projects (answering one_project) []
    = (log', Ok envelope)
    /\ counted "projects" envelope.
Proof.
  exact (total_count_is_the_length (fun _ => []) seo.Get_topvisor_projects
           "projects" (answering one_project) [] eq_refl).
Defined.

End Listings.

(** ** The summary of the position history *)

Module History.
Import tools_topvisor.

Lemma digit_string_iff (s : string) :
  digit_string s
  <-> negb (String.eqb s "") && str_forall is_ascii_digit s = true.
Proof.
  unfold digit_string. rewrite andb_true_iff, negb_true_iff.
  split; intros [Hne Hall]; (split; [|exact Hall]).
  - destruct (String.eqb_spec s ""); [contradiction | reflexivity].
  - intros ->. discriminate Hne.
Qed.

Lemma numeric_of_cases (v : json) (numeric : option Z) :
  numeric_of v = Ok numeric ->
  exists s,
    v = JStr s
    /\ ((readable s /\ numeric = Some (decimal_value s))
        \/ (isdigit s = false /\ numeric = None)).
Proof.
  unfold numeric_of. destruct v as [| | |s| |]; simpl; try discriminate.
  intros H. exists s. split; [reflexivity|].
  destruct (isdigit s) eqn:Hd.
  - left. unfold int_of_str in H.
    destruct (negb (String.eqb s "") && str_forall is_ascii_digit s) eqn:Hs;
      [|discriminate].
    apply digit_string_iff in Hs.
    destruct (Z.ltb_spec int_max_str_digits (Z.of_nat (String.length s)))
      as [Hlong|Hshort]; [discriminate|].
    simpl in H. injection H as <-.
    split; [split; assumption|].
    rewrite Positions.digits_value_weights. reflexivity.
  - right. injection H as <-. split; reflexivity.
Qed.

Lemma position_entry_sound keyword_name date_key position_info p :
  position_entry keyword_name date_key position_info = Ok (Some p) ->
  record_sound p.
Proof.
  intros H. split.
  - destruct (Positions.position_entry_splits _ _ _ _ H) as (rest & Hs).
    exists date_key, rest. exact Hs.
  - unfold position_entry in H.
    destruct (dict_and_in position_info "position"); [|discriminate].
    destruct (split ":" date_key) as [|d [|pr [|rg rest]]]; try discriminate.
    destruct (getitem position_info "position") as [v|e]; simpl in H;
      [|discriminate].
    destruct (numeric_of v) as [numeric|e] eqn:Hn; simpl in H; [|discriminate].
    injection H as <-. simpl.
    destruct (numeric_of_cases v numeric Hn) as (s & -> & Hcases).
    exists s. repeat split. exact Hcases.
Qed.

Lemma somes_sound (entries : list (option position)) :
  Forall (fun o => match o with Some p => record_sound p | None => True end)
    entries ->
  Forall record_sound (somes entries).
Proof.
  induction 1 as [|[p|] l Hp _ IH]; simpl; [constructor | | exact IH].
  constructor; assumption.
Qed.

Lemma keyword_positions_sound (keyword_data : json) (ps : list position) :
  keyword_positions keyword_data = Ok ps -> Forall record_sound ps.
Proof.
  unfold keyword_positions.
  destruct (is_dict keyword_data).
  - destruct (get keyword_data "name" _) as [name|e]; simpl; [|discriminate].
    destruct (get keyword_data "positionsData" _) as [pd|e]; simpl;
      [|discriminate].
    destruct (items pd) as [entries|e]; simpl; [|discriminate].
    destruct (rmap _ entries) as [records|e] eqn:Hr; simpl; [|discriminate].
    intros H. injection H as <-.
    apply Positions.rmap_ok in Hr. apply somes_sound.
    induction Hr as [|entry o entries records Ho _ IH]; constructor;
      [|exact IH].
    destruct o as [p|]; [|exact I].
    exact (position_entry_sound _ _ _ _ Ho).
  - intros H. injection H as <-. constructor.
Qed.

Lemma all_positions_sound (keywords : json) (ps : list position) :
  all_positions keywords = Ok ps -> Forall record_sound ps.
Proof.
  unfold all_positions.
  destruct (iter keywords) as [l|e]; simpl; [|discriminate].
  destruct (rmap keyword_positions l) as [ls|e] eqn:Hr; simpl; [|discriminate].
  intros H. injection H as <-.
  apply Positions.rmap_ok in Hr.
  induction Hr as [|x ys l ls Hx _ IH]; simpl.
  - constructor.
  - apply Forall_app. split; [|exact IH].
    exact (keyword_positions_sound x ys Hx).
Qed.

(** [len(set(l))] lies between one (for a list that is not empty) and the
    length of the list. *)
Lemma distinct_length (l seen : list json) :
  (length seen <= length (distinct seen l) <= length seen + length l)%nat.
Proof.
  revert seen. induction l as [|x l IH]; intros seen; simpl; [lia|].
  destruct (existsb (hash_eq x) seen).
  - specialize (IH seen). lia.
  - specialize (IH (seen ++ [x])%list). rewrite length_app in IH. simpl in IH.
    lia.
Qed.

Lemma distinct_not_empty (x : json) (l : list json) :
  (1 <= length (distinct [] (x :: l)))%nat.
Proof.
  simpl. pose proof (distinct_length l [x]) as H. simpl in H. lia.
Qed.

Lemma len_set_bounds (l : list json) (u : Z) :
  len_set l = Ok u ->
  u <= Z.of_nat (length l) /\ (l = [] -> u = 0) /\ (l <> [] -> 1 <= u).
Proof.
  unfold len_set. destruct (rmap hashable l) as [hs|e] eqn:Hr; simpl;
    [|discriminate].
  intros H. injection H as <-.
  apply Positions.rmap_ok in Hr.
  pose proof (Forall2_length Hr) as Hlen.
  pose proof (distinct_length hs []) as Hd. simpl in Hd.
  split; [lia|]. split.
  - intros ->. inversion Hr. reflexivity.
  - intros Hne. destruct Hr as [|x y l hs Hx Hr]; [contradiction|].
    pose proof (distinct_not_empty y hs). lia.
Qed.


(** The order of strings, by code points. *)
Lemma ascii_compare_trans (x y z : ascii) :
  Ascii.compare x y = Lt -> Ascii.compare y z = Lt -> Ascii.compare x z = Lt.
Proof.
  unfold Ascii.compare. rewrite !N.compare_lt_iff. apply N.lt_trans.
Qed.

Lemma ascii_compare_refl (x : ascii) : Ascii.compare x x = Eq.
Proof. unfold Ascii.compare. apply N.compare_refl. Qed.

Lemma compare_trans (a b c : string) :
  (a ?= b)%string = Lt -> (b ?= c)%string = Lt -> (a ?= c)%string = Lt.
Proof.
  revert b c. induction a as [|x a IH]; intros [|y b] [|z c]; simpl;
    try discriminate; try reflexivity.
  destruct (Ascii.compare x y) eqn:Hxy; try discriminate;
    destruct (Ascii.compare y z) eqn:Hyz; try discriminate.
  - apply Ascii.compare_eq_iff in Hxy, Hyz. subst.
    rewrite ascii_compare_refl. apply IH.
  - apply Ascii.compare_eq_iff in Hxy. subst. rewrite Hyz. reflexivity.
  - apply Ascii.compare_eq_iff in Hyz. subst. rewrite Hxy. reflexivity.
  - rewrite (ascii_compare_trans x y z Hxy Hyz). reflexivity.
Qed.

Lemma compare_refl (a : string) : (a ?= a)%string = Eq.
Proof.
  induction a as [|x a IH]; simpl; [reflexivity|].
  rewrite ascii_compare_refl. exact IH.
Qed.

Lemma ltb_irrefl (a : string) : String.ltb a a = false.
Proof. unfold String.ltb. rewrite compare_refl. reflexivity. Qed.

Lemma ltb_trans (a b c : string) :
  String.ltb a b = true -> String.ltb b c = true -> String.ltb a c = true.
Proof.
  unfold String.ltb.
  destruct (a ?= b)%string eqn:Hab; try discriminate.
  destruct (b ?= c)%string eqn:Hbc; try discriminate.
  intros _ _. rewrite (compare_trans a b c Hab Hbc). reflexivity.
Qed.

(** [a < b] and [not (c < b)] give [a < c]. *)
Lemma ltb_below (a b c : string) :
  String.ltb a b = true -> String.ltb c b = false -> String.ltb a c = true.
Proof.
  intros Hab Hcb. unfold String.ltb in Hcb.
  destruct (c ?= b)%string eqn:Hc; try discriminate.
  - apply String.compare_eq_iff in Hc. subst c. exact Hab.
  - apply ltb_trans with b; [exact Hab|].
    unfold String.ltb. rewrite String.compare_antisym, Hc. reflexivity.
Qed.

(** [a < b] and [not (a < c)] give [c < b]. *)
Lemma ltb_above (a b c : string) :
  String.ltb a b = true -> String.ltb a c = false -> String.ltb c b = true.
Proof.
  intros Hab Hac. unfold String.ltb in Hac.
  destruct (a ?= c)%string eqn:Hc; try discriminate.
  - apply String.compare_eq_iff in Hc. subst c. exact Hab.
  - apply ltb_trans with a; [|exact Hab].
    unfold String.ltb. rewrite String.compare_antisym, Hc. reflexivity.
Qed.

Lemma not_ltb (a b : string) : String.ltb a b <> true -> String.ltb a b = false.
Proof. destruct (String.ltb a b); [intros H; contradiction H; reflexivity | reflexivity]. Qed.

Lemma fold_min (l : list string) (x : string) :
  let m := fold_left (fun m y => if String.ltb y m then y else m) l x in
  In m (x :: l) /\ forall d, In d (x :: l) -> String.ltb d m = false.
Proof.
  revert x. induction l as [|y l IH]; intros x; cbn zeta.
  - simpl. split; [left; reflexivity|].
    intros d [<-|[]]. apply ltb_irrefl.
  - simpl fold_left.
    destruct (IH (if String.ltb y x then y else x)) as [Hin Hall].
    set (m := fold_left _ l _) in *.
    assert (Hx' : String.ltb (if String.ltb y x then y else x) m = false)
      by (apply Hall; left; reflexivity).
    split.
    + destruct Hin as [Hin|Hin]; [|right; right; exact Hin].
      destruct (String.ltb y x); [right; left | left]; exact Hin.
    + intros d [<-|[<-|Hd]].
      * destruct (String.ltb y x) eqn:Hyx; [|exact Hx'].
        apply not_ltb. intros Hxm.
        rewrite (ltb_trans y x m Hyx Hxm) in Hx'. discriminate.
      * destruct (String.ltb y x) eqn:Hyx; [exact Hx'|].
        apply not_ltb. intros Hym.
        rewrite (ltb_above y m x Hym Hyx) in Hx'. discriminate.
      * apply Hall. right. exact Hd.
Qed.

Lemma fold_max (l : list string) (x : string) :
  let m := fold_left (fun m y => if String.ltb m y then y else m) l x in
  In m (x :: l) /\ forall d, In d (x :: l) -> String.ltb m d = false.
Proof.
  revert x. induction l as [|y l IH]; intros x; cbn zeta.
  - simpl. split; [left; reflexivity|].
    intros d [<-|[]]. apply ltb_irrefl.
  - simpl fold_left.
    destruct (IH (if String.ltb x y then y else x)) as [Hin Hall].
    set (m := fold_left _ l _) in *.
    assert (Hx' : String.ltb m (if String.ltb x y then y else x) = false)
      by (apply Hall; left; reflexivity).
    split.
    + destruct Hin as [Hin|Hin]; [|right; right; exact Hin].
      destruct (String.ltb x y); [right; left | left]; exact Hin.
    + intros d [<-|[<-|Hd]].
      * destruct (String.ltb x y) eqn:Hxy; [|exact Hx'].
        apply not_ltb. intros Hmx.
        rewrite (ltb_trans m x y Hmx Hxy) in Hx'. discriminate.
      * destruct (String.ltb x y) eqn:Hxy; [exact Hx'|].
        apply not_ltb. intros Hmy.
        rewrite (ltb_below m y x Hmy Hxy) in Hx'. discriminate.
      * apply Hall. right. exact Hd.
Qed.

Lemma min_max_span (dates : list string) :
  spans dates (str_min dates "no_data") (str_max dates "no_data").
Proof.
  destruct dates as [|x l]; [split; reflexivity|].
  unfold spans, str_min, str_max.
  destruct (fold_min l x) as [Hmin Hlow], (fold_max l x) as [Hmax Hhigh].
  split; [exact Hmin|]. split; [exact Hmax|].
  intros d Hd. split; [apply Hlow | apply Hhigh]; exact Hd.
Qed.

Lemma Forall2_In_r {A B : Type} (R : A -> B -> Prop) (l : list A)
  (l' : list B) (y : B) :
  Forall2 R l l' -> In y l' -> exists x, In x l /\ R x y.
Proof.
  induction 1 as [|x y' l l' Hxy _ IH]; intros Hin; [destruct Hin|].
  destruct Hin as [->|Hin].
  - exists x. split; [left; reflexivity | exact Hxy].
  - destruct (IH Hin) as (x' & Hx' & HR). exists x'.
    split; [right; exact Hx' | exact HR].
Qed.

Lemma In_somes {A : Type} (l : list (option A)) (x : A) :
  In x (somes l) -> In (Some x) l.
Proof.
  induction l as [|[y|] l IH]; simpl; [tauto | |].
  - intros [->|H]; [left; reflexivity | right; exact (IH H)].
  - intros H. right. exact (IH H).
Qed.

(** The entry a record was made from. *)
Lemma position_entry_source keyword_name date_key position_info p :
  position_entry keyword_name date_key position_info = Ok (Some p) ->
  exists info rest,
    position_info = JObj info
    /\ tools_topvisor.keyword_name p = keyword_name
    /\ split ":" date_key
       = date p :: project_id_from_key p :: region_from_key p :: rest
    /\ dict_get info "position" = Some (position_value p).
Proof.
  unfold position_entry.
  destruct position_info as [| | | | |info]; try discriminate.
  cbn [dict_and_in getitem]. unfold dict_has.
  destruct (dict_get info "position") as [v|] eqn:Hv; [|discriminate].
  destruct (split ":" date_key) as [|d [|pid [|r rest]]]; try discriminate.
  cbn [rbind]. destruct (numeric_of v) as [numeric|e]; [|discriminate].
  cbn [rbind]. intros H. injection H as <-.
  exists info, rest. repeat split; first [reflexivity | exact Hv].
Qed.

Lemma keyword_positions_source (keyword_data : json) (ps : list position)
  (p : position) :
  keyword_positions keyword_data = Ok ps -> In p ps ->
  exists keyword entries date_key info rest,
    keyword_data = JObj keyword
    /\ tools_topvisor.keyword_name p
       = match dict_get keyword "name" with
         | Some name => name
         | None => JStr "unknown"
         end
    /\ dict_get keyword "positionsData" = Some (JObj entries)
    /\ In (date_key, JObj info) entries
    /\ split ":" date_key
       = date p :: project_id_from_key p :: region_from_key p :: rest
    /\ dict_get info "position" = Some (position_value p).
Proof.
  unfold keyword_positions.
  destruct keyword_data as [| | | | |keyword];
    try (intros H; injection H as <-; intros []).
  cbn [is_dict get]. set (name := match dict_get keyword "name" with
                                  | Some x => x | None => JStr "unknown" end).
  assert (Hname : match dict_get keyword "name" with
                  | Some x => Ok x | None => Ok (JStr "unknown") end
                  = Ok name)
    by (unfold name; destruct (dict_get keyword "name"); reflexivity).
  rewrite Hname. cbn [rbind].
  destruct (dict_get keyword "positionsData") as [pd|] eqn:Hpd; cbn [rbind].
  - destruct pd as [| | | | |entries]; try discriminate. cbn [items rbind].
    destruct (rmap _ entries) as [records|e] eqn:Hr; [|discriminate].
    cbn [rbind]. intros H Hin. injection H as <-.
    apply In_somes in Hin. apply Positions.rmap_ok in Hr.
    destruct (Forall2_In_r _ _ _ _ Hr Hin) as ([date_key info] & Hentry & Hp).
    cbn [fst snd] in Hp.
    destruct (position_entry_source _ _ _ _ Hp)
      as (i & rest & -> & Hn & Hsplit & Hpos).
    exists keyword, entries, date_key, i, rest.
    repeat split; assumption.
  - cbn [items rbind rmap somes]. intros H. injection H as <-. intros [].
Qed.

Lemma all_positions_source (response result_data keywords : json)
  (ps : list position) :
  field response "result" = Some result_data ->
  field result_data "keywords" = Some keywords ->
  all_positions keywords = Ok ps ->
  Forall (read_from response) ps.
Proof.
  intros Hres Hkw. unfold all_positions.
  destruct (iter keywords) as [items|e] eqn:Hiter; [|discriminate].
  cbn [rbind].
  destruct (rmap keyword_positions items) as [ls|e] eqn:Hr; [|discriminate].
  cbn [rbind]. intros H. injection H as <-.
  apply Positions.rmap_ok in Hr. apply Forall_forall. intros p Hp.
  apply in_concat in Hp as (l & Hl & Hp).
  destruct (Forall2_In_r _ _ _ _ Hr Hl) as (x & Hx & Hkp).
  destruct (keyword_positions_source x l p Hkp Hp)
    as (keyword & entries & date_key & info & rest
        & -> & Hname & Hpd & Hentry & Hsplit & Hpos).
  exists result_data, keywords, items, keyword, entries, date_key, info, rest.
  repeat split; assumption.
Qed.

Lemma getitem_field (v x : json) (k : string) :
  getitem v k = Ok x -> field v k = Some x.
Proof.
  destruct v as [| | | | |kv]; try discriminate. simpl.
  destruct (dict_get kv k); [|discriminate].
  intros H. injection H as <-. reflexivity.
Qed.

(** A tool that makes two calls under [try] and goes on with what they
    return: it returns what the rest returns after both calls, or what
    the [except] branch returns. *)
Lemma try_two_calls {A B : Type} (m1 : M A) (m2 : A -> M B)
  (k : A -> B -> M json) (h : exn -> M json)
  (Q : A -> B -> json -> Prop) (Qh : json -> Prop) :
  (forall a b, returning (Q a b) (k a b)) ->
  (forall e, always Qh (h e)) ->
  forall w log,
    exists log' v,
      try_except (bind m1 (fun a => bind (m2 a) (k a))) h w log = (log', Ok v)
      /\ ((exists a b log_a log_b,
              m1 w log = (log_a, Ok a) /\ m2 a w log_a = (log_b, Ok b)
              /\ Q a b v)
          \/ Qh v).
Proof.
  intros Hk Hh w log. unfold try_except, bind.
  destruct (m1 w log) as [log_a [a|e]] eqn:H1.
  - destruct (m2 a w log_a) as [log_b [b|e]] eqn:H2.
    + specialize (Hk a b w log_b).
      destruct (k a b w log_b) as [log_c [v|e]]; cbn [snd] in Hk.
      * exists log_c, v. split; [reflexivity|]. left.
        exists a, b, log_a, log_b. repeat split; assumption.
      * destruct (Hh e w log_c) as (log' & v & -> & Hv).
        exists log', v. split; [reflexivity | right; exact Hv].
    + destruct (Hh e w log_b) as (log' & v & -> & Hv).
      exists log', v. split; [reflexivity | right; exact Hv].
  - destruct (Hh e w log_a) as (log' & v & -> & Hv).
    exists log', v. split; [reflexivity | right; exact Hv].
Qed.

Lemma history_after_two_calls project_id regions_indexes date1 date2
  limit offset (w : World) (log : list Request) :
  exists log' envelope,
    get_topvisor_positions_history project_id regions_indexes date1 date2
      limit offset w log
    = (log', Ok envelope)
    /\ ((exists topvisor response log_a log_b,
            TopvisorAPI.new w log = (log_a, Ok topvisor)
            /\ TopvisorAPI.get_project_positions topvisor project_id
                 regions_indexes date1 date2 limit offset w log_a
               = (log_b, Ok response)
            /\ history_agrees response envelope)
        \/ (status envelope = Some (JStr "success") -> False)).
Proof.
  revert w log. unfold get_topvisor_positions_history.
  apply (try_two_calls TopvisorAPI.new
           (fun topvisor =>
              TopvisorAPI.get_project_positions topvisor project_id
                regions_indexes date1 date2 limit offset)
           _ _
           (fun _ response envelope => history_agrees response envelope)
           (fun envelope => status envelope = Some (JStr "success") -> False)).
  - intros topvisor result. cbv beta zeta.
    destruct (negb (truthy result));
      [apply Envelopes.returning_ret; intros Hs; discriminate Hs|].
    destruct (dict_and_in result "error");
      [apply Envelopes.returning_bind; intros problem;
       apply Envelopes.returning_ret; intros Hs; discriminate Hs|].
    destruct (dict_and_in result "result");
      [| apply Envelopes.returning_ret; intros Hs; discriminate Hs].
    apply Listings.returning_bind_lift; intros result_data Hdata.
    apply getitem_field in Hdata.
    destruct (is_none result_data);
      [apply Envelopes.returning_ret; intros Hs; discriminate Hs|].
    apply Listings.returning_bind_lift; intros [details ps] Hout.
    apply Listings.returning_bind_lift; intros u Hu.
    apply Envelopes.returning_ret. intros _. exists ps. cbn [snd fst].
    assert (Hps : Forall (read_from result) ps /\ Forall record_sound ps).
    { destruct (dict_and_in result_data "keywords").
      - destruct (getitem result_data "keywords") as [keywords|e] eqn:Hkw;
          simpl in Hout; [|discriminate].
        apply getitem_field in Hkw.
        destruct (all_positions keywords) as [positions_info|e] eqn:Hall;
          simpl in Hout; [|discriminate].
        injection Hout as _ <-. split.
        + exact (all_positions_source result result_data keywords _
                   Hdata Hkw Hall).
        + exact (all_positions_sound keywords _ Hall).
      - injection Hout as _ <-. split; constructor. }
    destruct Hps as [Hfrom Hsound].
    split; [exact Hfrom|]. split; [exact Hsound|].
    cbn [snd] in Hu. apply len_set_bounds in Hu.
    rewrite length_map in Hu. destruct Hu as (Hle & Hzero & Hone).
    split; [reflexivity|]. split; [reflexivity|]. split.
    + exists u. split; [reflexivity|]. split; [exact Hle|]. split.
      * intros ->. apply Hzero. reflexivity.
      * intros Hne. apply Hone. destruct ps; [contradiction | discriminate].
    + do 2 eexists. split; [reflexivity|]. apply min_max_span.
  - intros e. apply Envelopes.always_ret. intros Hs. discriminate Hs.
Qed.

(** X2.  Whenever the position history is returned with status "success",
    it agrees with the response that the client returned: every record was
    read from an entry of [positionsData] of a keyword of the response, as
    the key and the value of that entry say; [total_count] is the number
    of records, [unique_keywords] is at most that number and at least one
    when there is a record, and [date_range] runs from the least to the
    greatest date of the records, or is "no_data" twice when there is
    none. *)
Theorem positions_history_summary_agrees :
  forall (project_id : Z) (regions_indexes : json)
         (date1 date2 : option string) (limit offset : Z)
         (w : World) (log : list Request),
    exists log' envelope,
      get_topvisor_positions_history project_id regions_indexes date1 date2
        limit offset w log
      = (log', Ok envelope)
      /\ (status envelope = Some (JStr "success") ->
          exists topvisor log1 response,
            TopvisorAPI.new w log = (log, Ok topvisor)
            /\ TopvisorAPI.get_project_positions topvisor project_id
                 regions_indexes date1 date2 limit offset w log
               = (log1, Ok response)
            /\ history_agrees response envelope).
Proof.
  intros project_id regions_indexes date1 date2 limit offset w log.
  destruct (history_after_two_calls project_id regions_indexes date1 date2
              limit offset w log)
    as (log' & envelope & Hrun & Hv).
  exists log', envelope. split; [exact Hrun|]. intros Hs.
  destruct Hv as [(topvisor & response & log_a & log_b & Ha & Hb & HQ)|Hh];
    [|contradiction (Hh Hs)].
  pose proof (Requests.quiet_topvisor_new w log) as Hquiet.
  rewrite Ha in Hquiet. cbn [fst] in Hquiet. subst log_a.
  exists topvisor, log_b, response. repeat split; assumption.
Qed.

Lemma numeric_of_unreadable (s : string) :
  unreadable s -> exists e, numeric_of (JStr s) = Raise e.
Proof.
  intros [Hd Hs]. unfold numeric_of, v_isdigit, rbind. rewrite Hd.
  unfold int_of_str.
  destruct (negb (String.eqb s "") && str_forall is_ascii_digit s) eqn:Hascii.
  - apply digit_string_iff in Hascii. contradiction.
  - eexists. reflexivity.
Qed.

Lemma position_entry_unreadable keyword_name date_key info s :
  (3 <= length (split ":" date_key))%nat ->
  dict_get info "position" = Some (JStr s) ->
  unreadable s ->
  exists e, position_entry keyword_name date_key (JObj info) = Raise e.
Proof.
  intros Hkey Hpos Hs. unfold position_entry, dict_and_in, dict_has, getitem.
  rewrite Hpos.
  destruct (split ":" date_key) as [|d [|pr [|rg rest]]];
    [simpl in Hkey; lia .. |].
  destruct (numeric_of_unreadable s Hs) as (e & He).
  unfold rbind at 1. unfold rbind. rewrite He. eexists. reflexivity.
Qed.

Lemma rmap_raises {A B : Type} (f : A -> result B) (l : list A) (x : A) :
  In x l -> (exists e, f x = Raise e) -> exists e, rmap f l = Raise e.
Proof.
  induction l as [|y l IH]; intros Hin Hx; [destruct Hin|].
  simpl. destruct Hin as [->|Hin].
  - destruct Hx as (e & ->). eexists. reflexivity.
  - destruct (f y); simpl; [|eexists; reflexivity].
    destruct (IH Hin Hx) as (e & ->). eexists. reflexivity.
Qed.

(** X3.  One value that [isdigit] accepts and [int] cannot read (a
    superscript digit) in an entry with a key of three components makes
    the whole list of records fail: no record of any keyword is
    returned. *)
Theorem unreadable_position_discards_all :
  forall (keywords : list json) (kv info : list (string * json))
         (entries : list (string * json)) (date_key s : string),
    In (JObj kv) keywords ->
    dict_get kv "positionsData" = Some (JObj entries) ->
    In (date_key, JObj info) entries ->
    (3 <= length (split ":" date_key))%nat ->
    dict_get info "position" = Some (JStr s) ->
    unreadable s ->
    exists e, all_positions (JArr keywords) = Raise e.
Proof.
  intros keywords kv info entries date_key s Hkw Hpd Hentry Hkey Hpos Hs.
  unfold all_positions. cbn [iter rbind].
  destruct (rmap_raises keyword_positions keywords (JObj kv) Hkw)
    as (e & ->); [|eexists; reflexivity].
  unfold keyword_positions. cbn [is_dict get items].
  rewrite Hpd.
  destruct (dict_get kv "name"); cbn [rbind items];
    match goal with
    | |- context [rmap ?f entries] =>
        destruct (rmap_raises f entries (date_key, JObj info) Hentry)
          as (e & ->);
          [ exact (position_entry_unreadable _ date_key info s Hkey Hpos Hs)
          | eexists; reflexivity ]
    end.
Qed.

Lemma unreadable_position_discards_all_witness :
  exists e,
    all_positions
      (JArr [JObj [("name", JStr "shoes");
                   ("positionsData",
                    JObj [("2025-08-15:19294818:33",
                           JObj [("position", JStr superscript_two)])])]])
    = Raise e.
Proof.
  apply (unreadable_position_discards_all _
           [("name", JStr "shoes");
            ("positionsData",
             JObj [("2025-08-15:19294818:33",
                    JObj [("position", JStr superscript_two)])])]
           [("position", JStr superscript_two)]
           [("2025-08-15:19294818:33",
             JObj [("position", JStr superscript_two)])]
           "2025-08-15:19294818:33" superscript_two).
  - left. reflexivity.
  - reflexivity.
  - left. reflexivity.
  - vm_compute. lia.
  - reflexivity.
  - split; [reflexivity|]. intros [_ H]. discriminate H.
Defined.

End History.

(** ** The regions export and the setup checks *)

Module Regions.

Lemma region_of_row_long (row : list string) :
  (6 <= length row)%nat -> exists region, TopvisorAPI.region_of_row row = Ok region.
Proof.
  destruct row as [|c0 [|c1 [|c2 [|c3 [|c4 [|c5 rest]]]]]]; simpl;
    try lia.
  intros _. eexists. reflexivity.
Qed.

Lemma region_of_row_short (row : list string) :
  (length row < 6)%nat ->
  TopvisorAPI.region_of_row row = Raise TopvisorAPI.index_error.
Proof.
  destruct row as [|c0 [|c1 [|c2 [|c3 [|c4 [|c5 rest]]]]]]; simpl;
    try lia; reflexivity.
Qed.

Lemma region_of_row_cases (row : list string) :
  (exists region, TopvisorAPI.region_of_row row = Ok region)
  \/ TopvisorAPI.region_of_row row = Raise TopvisorAPI.index_error.
Proof.
  destruct (Nat.le_gt_cases 6 (length row)) as [H|H].
  - left. apply region_of_row_long, H.
  - right. apply region_of_row_short, H.
Qed.

Lemma regions_of_long_rows (rows : list (list string)) :
  Forall (fun row => (6 <= length row)%nat) rows ->
  exists data,
    rmap TopvisorAPI.region_of_row rows = Ok data
    /\ length data = length rows.
Proof.
  induction 1 as [|row rows Hrow _ (data & IH & Hlen)]; simpl.
  - exists []. split; reflexivity.
  - destruct (region_of_row_long row Hrow) as (region & ->). simpl.
    rewrite IH. simpl. exists (region :: data). split; [reflexivity|].
    simpl. rewrite Hlen. reflexivity.
Qed.

Lemma regions_of_short_row (rows : list (list string)) :
  Exists (fun row => (length row < 6)%nat) rows ->
  rmap TopvisorAPI.region_of_row rows = Raise TopvisorAPI.index_error.
Proof.
  induction 1 as [row rows Hrow|row rows _ IH]; simpl.
  - rewrite (region_of_row_short row Hrow). reflexivity.
  - destruct (region_of_row_cases row) as [(region & ->)| ->]; simpl;
      [rewrite IH|]; reflexivity.
Qed.

(** X20.  On a 200 answer, [get_project_regions] needs six cells in every
    row of the CSV export: then it returns one region per row; a single
    shorter row (a blank line is enough) makes the whole call raise
    [IndexError]. *)
Theorem regions_need_six_cells :
  forall (csv_rows : string -> list (list string)) (self : TopvisorAPI.t)
         (project_id : Z) (w : World) (log : list Request) (r : Response),
    network w (topvisor_post self "positions_2/searchers_regions/export"
                 (JObj [("project_id", JNum project_id)]))
    = Answers r ->
    status_code r = 200 ->
    (Forall (fun row => (6 <= length row)%nat) (csv_rows (text r)) ->
     exists data,
       snd (TopvisorAPI.get_project_regions csv_rows self project_id w log)
       = Ok (JObj [("result", JArr data); ("status_code", JNum 200)])
       /\ length data = length (csv_rows (text r)))
    /\ (Exists (fun row => (length row < 6)%nat) (csv_rows (text r)) ->
        snd (TopvisorAPI.get_project_regions csv_rows self project_id w log)
        = Raise TopvisorAPI.index_error).
Proof.
  intros csv_rows self project_id w log r Hnet H200.
  unfold TopvisorAPI.get_project_regions,
    TopvisorAPI._make_request, topvisor_post in *.
  cbv beta iota zeta delta [bind try_except send lift ret].
  rewrite Hnet, H200. cbn [Z.eqb Pos.eqb fst snd getitem dict_get String.eqb
    Ascii.eqb Bool.eqb TopvisorAPI.splitlines_rows].
  split.
  - intros Hrows. destruct (regions_of_long_rows _ Hrows) as (data & -> & Hlen).
    exists data. split; [reflexivity | exact Hlen].
  - intros Hrow. rewrite (regions_of_short_row _ Hrow). reflexivity.
Qed.

Lemma regions_need_six_cells_witness :
  exists data,
    snd (TopvisorAPI.get_project_regions
           (fun _ => [["0"; "Google"; "RU"; "ru"; "desktop"; "1"]])
           (TopvisorAPI.mk (Some "1") (Some "key")
              "https://api.topvisor.com/v2/json/get" [])
           7 (answering JNull) [])
    = Ok (JObj [("result", JArr data); ("status_code", JNum 200)])
    /\ length data = 1%nat.
Proof.
  destruct (regions_need_six_cells
              (fun _ => [["0"; "Google"; "RU"; "ru"; "desktop"; "1"]])
              (TopvisorAPI.mk (Some "1") (Some "key")
                 "https://api.topvisor.com/v2/json/get" [])
              7 (answering JNull) []
              (mkResponse 200 "" (Ok JNull)) eq_refl eq_refl) as [H _].
  apply H. repeat constructor.
Defined.

End Regions.

Module Setup.

Ltac literal_report :=
  split;
  [ split; intros H; first [discriminate H | reflexivity]
  | intros H; first [discriminate H | reflexivity] ].

Ltac report_paths :=
  repeat first
    [ apply Envelopes.returning_ret; literal_report
    | apply Envelopes.returning_bind; intros ?
    | apply Envelopes.always_returning; apply Envelopes.always_try_except;
      [| intros ?; apply Envelopes.always_ret; literal_report ]
    | match goal with
      | |- returning _ (if ?b then _ else _) => destruct b
      end
    | progress cbv zeta ].

(** X21.  Both setup checks return a report whose status agrees with its
    checks: the status is "success" exactly when [api_connection] is
    checked, and a report that says the key is not set has status
    "error". *)
Theorem setup_reports_are_consistent :
  forall (w : World) (log : list Request),
    (exists log' report,
        tools_topvisor.check_topvisor_setup w log = (log', Ok report)
        /\ consistent_report report)
    /\ (exists log' report,
           tools_ahrefs.check_ahrefs_setup w log = (log', Ok report)
           /\ consistent_report report).
Proof.
  intros w log. split.
  - enough (H : always consistent_report tools_topvisor.check_topvisor_setup)
      by apply H.
    unfold tools_topvisor.check_topvisor_setup.
    apply Envelopes.always_try_except;
      [ report_paths | intros ?; apply Envelopes.always_ret; literal_report ].
  - enough (H : always consistent_report tools_ahrefs.check_ahrefs_setup)
      by apply H.
    unfold tools_ahrefs.check_ahrefs_setup.
    apply Envelopes.always_try_except;
      [ report_paths | intros ?; apply Envelopes.always_ret; literal_report ].
Qed.

End Setup.

(** ** Normalising again *)

Module Idempotence.
Import Failures.

(** A dict that is not empty and has neither an [error] nor a [result]
    entry. *)
Section Plain.
Variable kv : list (string * json).
Hypothesis Ht : truthy (JObj kv) = true.
Hypothesis He : dict_get kv "error" = None.
Hypothesis Hr : dict_get kv "result" = None.

Lemma plain_no_error : truthy_and_in (JObj kv) "error" = Ok false.
Proof.
  unfold truthy_and_in. rewrite Ht. simpl. unfold dict_has. rewrite He.
  reflexivity.
Qed.

Lemma plain_no_data : truthy_and_in (JObj kv) "result" = Ok false.
Proof.
  unfold truthy_and_in. rewrite Ht. simpl. unfold dict_has. rewrite Hr.
  reflexivity.
Qed.

Lemma plain_dict_no_error : dict_and_in (JObj kv) "error" = false.
Proof. simpl. unfold dict_has. rewrite He. reflexivity. Qed.

Lemma plain_dict_no_data : dict_and_in (JObj kv) "result" = false.
Proof. simpl. unfold dict_has. rewrite Hr. reflexivity. Qed.

End Plain.

(** An envelope as the tools write it. *)
Lemma literal_is_plain (envelope : json) :
  no_error_key envelope -> has_key envelope "result" = false ->
  truthy envelope = true ->
  exists kv,
    envelope = JObj kv /\ truthy (JObj kv) = true
    /\ dict_get kv "error" = None /\ dict_get kv "result" = None.
Proof.
  intros [Hd He] Hr Ht. destruct envelope as [| | | | |kv]; try discriminate.
  exists kv. simpl in He, Hr. unfold dict_has in He, Hr.
  destruct (dict_get kv "error"); [discriminate|].
  destruct (dict_get kv "result"); [discriminate|].
  repeat split. exact Ht.
Qed.

Lemma projects_envelope_plain (result envelope : json) :
  tools_topvisor.projects_envelope result = Ok envelope ->
  no_error_key envelope /\ has_key envelope "result" = false
  /\ truthy envelope = true.
Proof.
  intros H. destruct (normalize_shape result) as (kv & Hn & Ht & He & Hr).
  unfold normalize in Hn. rewrite H in Hn. subst envelope.
  repeat split; assumption.
Qed.

Ltac literal_plain := repeat split; reflexivity.

Ltac plain_paths :=
  repeat first
    [ apply Envelopes.returning_ret; literal_plain
    | apply Envelopes.returning_bind; intros ?
    | apply Envelopes.returning_lift; apply projects_envelope_plain
    | match goal with
      | |- returning _ (if ?b then _ else _) => destruct b
      end
    | progress cbv zeta ].

Lemma tools_write_plain_envelopes csv_rows (c : seo.tool_call) :
  reads_result c = true ->
  always (fun envelope =>
            no_error_key envelope /\ has_key envelope "result" = false
            /\ truthy envelope = true)
    (seo.call csv_rows c).
Proof.
  intros Hc. destruct c; try discriminate Hc; cbn [seo.call];
    autounfold with tool_bodies;
    (apply Envelopes.always_try_except;
     [ plain_paths | intros ?; apply Envelopes.always_ret; literal_plain ]).
Qed.

Lemma answering_is_keyed (body : json) :
  non_empty (TOPVISOR_API_KEY (answering body))
  /\ non_empty (AHREFS_API_KEY (answering body))
  /\ answers (answering body) body.
Proof.
  split; [|split].
  - exists "key". split; [reflexivity | discriminate].
  - exists "key". split; [reflexivity | discriminate].
  - intros req. eexists. repeat split.
Qed.

Lemma reading_result_again csv_rows (c : seo.tool_call)
  (kv : list (string * json)) :
  reads_result c = true ->
  truthy (JObj kv) = true ->
  dict_get kv "error" = None -> dict_get kv "result" = None ->
  exists envelope,
    normalized (seo.call csv_rows c) (JObj kv) = Ok envelope
    /\ status envelope = Some (JStr "error").
Proof.
  intros Hc Ht He Hr.
  destruct (answering_is_keyed (JObj kv)) as (Hkey & _ & Hw).
  apply set_key_is_truthy in Hkey.
  unfold normalized, value, run.
  destruct c; try discriminate Hc; clear Hc; cbn [seo.call];
    autounfold with tool_bodies client_bodies; run_to_request;
    rewrite Hkey; cbv beta iota;
    answered Hw;
    unfold tools_topvisor.projects_envelope, rbind;
    rewrite ?Ht, ?(plain_no_error kv Ht He), ?(plain_no_data kv Ht Hr),
      ?(plain_dict_no_error kv He), ?(plain_dict_no_data kv Hr);
    cbv beta iota; eexists; split; reflexivity.
Qed.

(** A success envelope of an Ahrefs data tool, read again as the
    provider's response, is returned as it is. *)
Ltac read_again :=
  let Hs := fresh "Hs" in
  intros Hs;
  first
    [ discriminate Hs
    | repeat match goal with
        | H : len ?d = Ok _ |- _ =>
            destruct d; try discriminate H; injection H as <-
        end;
      reflexivity ].

Ltac again_paths :=
  repeat first
    [ apply Envelopes.returning_ret; read_again
    | apply Listings.returning_bind_lift; intros ? ?
    | apply Envelopes.returning_bind; intros ?
    | match goal with
      | |- returning _ (if ?b then _ else _) => destruct b
      end
    | progress cbv zeta ].

Ltac again_tool :=
  apply Envelopes.always_try_except;
  [ again_paths | intros ?; apply Envelopes.always_ret; read_again ].

Lemma ahrefs_tools_read_again csv_rows (c : seo.tool_call) :
  ahrefs_data c = true ->
  always (fun envelope =>
            status envelope = Some (JStr "success") ->
            normalized (seo.call csv_rows c) envelope = Ok envelope)
    (seo.call csv_rows c).
Proof.
  intros Hc. destruct c; try discriminate Hc; cbn [seo.call];
    match goal with
    | |- always (fun envelope => _ -> normalized ?tool _ = _) _ =>
        set (again := normalized tool)
    end;
    autounfold with tool_bodies; again_tool.
Qed.

Lemma research_ahrefs_tools_read_again csv_rows
  (c : research_server.tool_call) :
  research_ahrefs_data c = true ->
  always (fun envelope =>
            status envelope = Some (JStr "success") ->
            normalized (research_server.call csv_rows c) envelope
            = Ok envelope)
    (research_server.call csv_rows c).
Proof.
  intros Hc. destruct c; try discriminate Hc; cbn [research_server.call];
    match goal with
    | |- always (fun envelope => _ -> normalized ?tool _ = _) _ =>
        set (again := normalized tool)
    end;
    autounfold with tool_bodies; again_tool.
Qed.

Lemma projects_tool_normalizes (body : json) :
  normalized tools_topvisor.get_topvisor_projects body = Ok (normalize body).
Proof.
  destruct (answering_is_keyed body) as (Hkey & _ & Hw).
  apply set_key_is_truthy in Hkey.
  unfold normalized, value, run.
  autounfold with tool_bodies client_bodies. run_to_request.
  rewrite Hkey. cbv beta iota. answered Hw.
  unfold normalize. destruct (tools_topvisor.projects_envelope body);
    reflexivity.
Qed.

(** C2, amended.  Normalising again is a no-op for the Ahrefs data tools
    only.  In both copies of [get_ahrefs_refdomains], [get_ahrefs_backlinks]
    and [get_ahrefs_organic_keywords], called with the same arguments, a
    success envelope read again as the provider's response is returned
    unchanged.  In the eight Topvisor tools that look for [result], no
    envelope has that key, so reading any envelope of the tool again gives
    status "error"; for [get_topvisor_projects] it gives the envelope
    "Failed to get project data". *)
Theorem normalizing_again :
  forall (csv_rows : string -> list (list string)) (c : seo.tool_call)
         (c' : research_server.tool_call) (body envelope : json),
    (normalized (seo.call csv_rows c) body = Ok envelope ->
     (ahrefs_data c = true ->
      status envelope = Some (JStr "success") ->
      normalized (seo.call csv_rows c) envelope = Ok envelope)
     /\ (reads_result c = true ->
         exists again,
           normalized (seo.call csv_rows c) envelope = Ok again
           /\ status again = Some (JStr "error")))
    /\ (normalized (research_server.call csv_rows c') body = Ok envelope ->
        research_ahrefs_data c' = true ->
        status envelope = Some (JStr "success") ->
        normalized (research_server.call csv_rows c') envelope = Ok envelope)
    /\ normalized tools_topvisor.get_topvisor_projects body
       = Ok (normalize body)
    /\ normalized tools_topvisor.get_topvisor_projects (normalize body)
       = Ok failed_envelope.
Proof.
  intros csv_rows c c' body envelope. split; [|split; [|split]].
  - intros Hrun. unfold normalized, value, run in Hrun. split.
    + intros Hc.
      destruct (ahrefs_tools_read_again csv_rows c Hc (answering body) [])
        as (log' & e & He & Hagain).
      rewrite He in Hrun. injection Hrun as <-. exact Hagain.
    + intros Hc.
      destruct (tools_write_plain_envelopes csv_rows c Hc (answering body) [])
        as (log' & e & He & Hkey & Hres & Ht).
      rewrite He in Hrun. injection Hrun as <-.
      destruct (literal_is_plain e Hkey Hres Ht) as (kv & -> & Hkv & Hne & Hnr).
      apply reading_result_again; assumption.
  - intros Hrun Hc. unfold normalized, value, run in Hrun.
    destruct (research_ahrefs_tools_read_again csv_rows c' Hc
                (answering body) [])
      as (log' & e & He & Hagain).
    rewrite He in Hrun. injection Hrun as <-. exact Hagain.
  - apply projects_tool_normalizes.
  - rewrite projects_tool_normalizes. f_equal.
    destruct (normalize_shape body) as (kv & -> & Ht & He & Hr).
    apply normalize_without_keys; assumption.
Qed.

Lemma normalizing_again_witness :
  normalized (tools_ahrefs.get_ahrefs_refdomains "example.com" 1)
    (JObj [("status", JStr "success"); ("target", JStr "example.com");
           ("refdomains", JArr [JObj [("domain", JStr "a.example")]]);
           ("limit", JNum 1); ("order_by", JStr "domain_rating:desc")])
  = Ok (JObj [("status", JStr "success"); ("target", JStr "example.com");
              ("refdomains", JArr [JObj [("domain", JStr "a.example")]]);
              ("limit", JNum 1); ("order_by", JStr "domain_rating:desc")])
  /\ exists again,
       normalized tools_topvisor.get_topvisor_projects (normalize one_project)
       = Ok again
       /\ status again = Some (JStr "error").
Proof.
  split.
  - apply (proj1 (proj1 (normalizing_again (fun _ => [])
                           (seo.Get_ahrefs_refdomains "example.com" 1)
                           (research_server.Get_topvisor_regions 7)
                           (JObj [("refdomains",
                                   JArr [JObj [("domain", JStr "a.example")]])])
                           _) eq_refl)); reflexivity.
  - apply (proj2 (proj1 (normalizing_again (fun _ => [])
                           seo.Get_topvisor_projects
                           (research_server.Get_topvisor_regions 7)
                           one_project _) eq_refl)).
    reflexivity.
Defined.

End Idempotence.
